(** * coding-cli: the generate-judge-retry workflows and the file writer

    A shallow embedding of [src/commands/edit.ts], [src/commands/fix.ts] and
    [src/commands/explain.ts].  JavaScript strings are modelled as [string],
    exceptions as an explicit completion type,
    the session state of the stateful workflow middleware as a record that is
    threaded through the handlers, and the outside world (file system and
    model backend) as a record that every effectful call reads and updates. *)

From Stdlib Require Import Ascii String.
From stdpp Require Import base option list strings pretty gmap.

#[local] Set Warnings "-register-all".

(** ** JavaScript string and array primitives used by the commands *)

Module Js.

(** [s.split(sep)] for a one-character separator: never returns an empty
    array, and [''.split('.')] is [['']]. *)
Fixpoint split (sep : ascii) (s : string) : list string :=
  match s with
  | EmptyString => [EmptyString]
  | String c rest =>
      if Ascii.eqb c sep then EmptyString :: split sep rest
      else match split sep rest with
           | [] => [String c EmptyString]
           | p :: ps => String c p :: ps
           end
  end.

(** [a.join(sep)]. *)
Fixpoint join (sep : string) (parts : list string) : string :=
  match parts with
  | [] => EmptyString
  | [p] => p
  | p :: ps => p +:+ sep +:+ join sep ps
  end.

(** [a.pop()]: the last element ([None] for [undefined] on an empty array)
    together with the array as it is left after the call. *)
Fixpoint pop {A : Type} (a : list A) : option A * list A :=
  match a with
  | [] => (None, [])
  | [x] => (Some x, [])
  | x :: xs => let '(r, xs') := pop xs in (r, x :: xs')
  end.

(** [v || ''] on a value of type [string | undefined]: [undefined] and the
    empty string are the falsy cases. *)
Definition or_empty (v : option string) : string :=
  match v with
  | Some s => s
  | None => EmptyString
  end.

(** [hay.includes(needle)]. *)
Fixpoint includes (needle hay : string) : bool :=
  String.prefix needle hay ||
  match hay with
  | EmptyString => false
  | String _ rest => includes needle rest
  end.

(** [s.repeat(n)]. *)
Fixpoint repeat (s : string) (n : nat) : string :=
  match n with
  | 0 => EmptyString
  | S n => s +:+ repeat s n
  end.

End Js.
Arguments Js.repeat : simpl never.

(** Whether the character occurs in the string. *)
Fixpoint occurs (c : ascii) (s : string) : bool :=
  match s with
  | EmptyString => false
  | String a rest => Ascii.eqb a c || occurs c rest
  end.

(** ** The output path of the writer

    [writeTextFile] of edit.ts and fix.ts differ in the suffix only:
<<
    const parts = filePath.split('.')
    const extension = parts.pop() || ''
    const flName = parts.join('.')
    const flPath = `${flName}_edited.${extension}`
>> *)

Definition dot : ascii := "."%char.

Definition derivedPath (suffix : string) (filePath : string) : string :=
  let parts := Js.split dot filePath in
  let '(popped, parts) := Js.pop parts in
  let extension := Js.or_empty popped in
  let flName := Js.join "." parts in
  flName +:+ suffix +:+ extension.

Definition editedPath : string -> string := derivedPath "_edited.".
Definition fixedPath : string -> string := derivedPath "_fixed.".

(** ** Exceptions and completions

    A JavaScript call either returns a value or throws.  The exceptions the
    commands can meet are the system errors of [fs/promises], the
    [SyntaxError] of [JSON.parse], the [ZodError] of a schema and a failure
    of the model client. *)

Inductive PathSeg : Type :=
| Key (name : string)
| Index (i : nat).

Record ZodIssue : Type := mkIssue {
  issue_path : list PathSeg;
  issue_message : string;
}.

Inductive Exn : Type :=
| SystemError (code : string) (detail : string)
| SyntaxError (message : string)
| ZodError (errors : list ZodIssue)
| ApiError (message : string).

Inductive Completion (A : Type) : Type :=
| Return (a : A)
| Throw (e : Exn).
Arguments Return {A} a.
Arguments Throw {A} e.

Definition is_Throw {A : Type} (c : Completion A) : Prop :=
  match c with Throw _ => True | Return _ => False end.

(** How the promise of an async function that runs a workflow is left.  It
    is settled, fulfilled or rejected; or it stays pending for ever, because
    a workflow handler has thrown: the exception rejects a promise that
    nothing awaits, the stream of the workflow gets no further event, and the
    loop that consumes the stream never resumes.  The exception is then the
    unhandled rejection of the process. *)
Inductive Settlement (A : Type) : Type :=
| Settled (c : Completion A)
| Pending (unhandled : Exn).
Arguments Settled {A} c.
Arguments Pending {A} unhandled.

Definition fulfilled {A : Type} (s : Settlement A) : Prop :=
  match s with Settled (Return _) => True | _ => False end.

(** ** JSON values and the zod schemas *)

Inductive Json : Type :=
| JNull
| JBool (b : bool)
| JNumber (lexeme : string)
| JString (s : string)
| JArray (items : list Json)
| JObject (fields : gmap string Json).

(** What the model client hands back as message content, seen through
    [JSON.parse]: either text that is not JSON, or the text of a JSON value. *)
Inductive MessageContent : Type :=
| NotJson (raw : string)
| JsonText (value : Json).

Definition JSON_parse (content : MessageContent) : Completion Json :=
  match content with
  | NotJson raw => Throw (SyntaxError ("Unexpected token in JSON: " +:+ raw))
  | JsonText value => Return value
  end.

Module Zod.

(** zod's name for the type of the value it received; a missing property
    is [undefined]. *)
Definition parsedType (input : option Json) : string :=
  match input with
  | None => "undefined"
  | Some JNull => "null"
  | Some (JBool _) => "boolean"
  | Some (JNumber _) => "number"
  | Some (JString _) => "string"
  | Some (JArray _) => "array"
  | Some (JObject _) => "object"
  end.

(** The [invalid_type] issue with zod's default message. *)
Definition invalid_type (path : list PathSeg) (expected : string)
    (input : option Json) : ZodIssue :=
  mkIssue path
    match input with
    | None => "Required"
    | Some _ => "Expected " +:+ expected +:+ ", received " +:+ parsedType input
    end.

Definition Result (A : Type) : Type := list ZodIssue + A.

(** A schema: given the path walked so far and the input found there,
    either the issues or the validated value. *)
Definition Schema (A : Type) : Type := list PathSeg -> option Json -> Result A.

Definition string_ : Schema string := fun path input =>
  match input with
  | Some (JString s) => inr s
  | _ => inl [invalid_type path "string" input]
  end.

Definition boolean : Schema bool := fun path input =>
  match input with
  | Some (JBool b) => inr b
  | _ => inl [invalid_type path "boolean" input]
  end.

(** Issues of both sides are kept: zod validates every element and every
    property before reporting. *)
Definition both {A B : Type} (ra : Result A) (rb : Result B) : Result (A * B) :=
  match ra, rb with
  | inr a, inr b => inr (a, b)
  | inl ia, inl ib => inl (ia ++ ib)
  | inl ia, inr _ => inl ia
  | inr _, inl ib => inl ib
  end.

Definition map_result {A B : Type} (f : A -> B) (r : Result A) : Result B :=
  match r with
  | inl issues => inl issues
  | inr a => inr (f a)
  end.

Fixpoint elements {A : Type} (elem : Schema A) (path : list PathSeg)
    (i : nat) (items : list Json) : Result (list A) :=
  match items with
  | [] => inr []
  | x :: xs =>
      map_result (fun '(a, l) => a :: l)
        (both (elem (path ++ [Index i]) (Some x)) (elements elem path (S i) xs))
  end.

Definition array {A : Type} (elem : Schema A) : Schema (list A) := fun path input =>
  match input with
  | Some (JArray items) => elements elem path 0 items
  | _ => inl [invalid_type path "array" input]
  end.

(** The properties of an object schema, read off the input object. *)
Definition Shape (A : Type) : Type := list PathSeg -> gmap string Json -> Result A.

Definition prop {A : Type} (name : string) (s : Schema A) : Shape A :=
  fun path obj => s (path ++ [Key name]) (obj !! name).

Definition and_prop {A B : Type} (sa : Shape A) (sb : Shape B) : Shape (A * B) :=
  fun path obj => both (sa path obj) (sb path obj).

Definition object {A B : Type} (shape : Shape A) (build : A -> B) : Schema B :=
  fun path input =>
    match input with
    | Some (JObject obj) => map_result build (shape path obj)
    | _ => inl [invalid_type path "object" input]
    end.

(** [schema.parse(data)]. *)
Definition parse {A : Type} (schema : Schema A) (data : Json) : Completion A :=
  match schema [] (Some data) with
  | inr a => Return a
  | inl issues => Throw (ZodError issues)
  end.

End Zod.

(** [`${error}`]: the name of the error followed by its message. *)
Definition Exn_toString (error : Exn) : string :=
  match error with
  | SystemError code detail => "Error: " +:+ code +:+ ": " +:+ detail
  | SyntaxError message => "SyntaxError: " +:+ message
  | ZodError errors => "ZodError: " +:+ Js.join "; " (issue_message <$> errors)
  | ApiError message => "Error: " +:+ message
  end.

(** ** The outside world *)

Record ChatMessage : Type := mkMessage {
  role : string;
  content : string;
}.

(** A request to the model client; [responseFormat] holds the name of the
    schema constant passed as response format. *)
Record ChatRequest : Type := mkRequest {
  model : string;
  messages : list ChatMessage;
  responseFormat : string;
}.

Inductive Style : Type :=
| bold | italic | green | red | blue | gray | white | cyan | magenta | yellow.

Inductive Level : Type := LOG | INFO | ERROR.

(** The file system maps a path to the text stored there; [read_fault] and
    [write_fault] are the failures the operating system raises for a path
    (permissions, a missing directory, a full disk).  The model backend
    answers a request knowing the requests that came before it, and every
    request sent is recorded.  [paint] is how picocolors renders a style on
    this terminal, and [console] is what the logger has printed. *)
Record World : Type := mkWorld {
  files : gmap string string;
  read_fault : string -> option Exn;
  write_fault : string -> string -> option Exn;
  backend : list ChatRequest -> ChatRequest -> Completion MessageContent;
  requests : list ChatRequest;
  paint : Style -> string -> string;
  console : list (Level * string);
}.

Definition with_files (fs : gmap string string) (w : World) : World :=
  mkWorld fs (read_fault w) (write_fault w) (backend w) (requests w) (paint w) (console w).

Definition with_requests (rs : list ChatRequest) (w : World) : World :=
  mkWorld (files w) (read_fault w) (write_fault w) (backend w) rs (paint w) (console w).

Definition with_console (out : list (Level * string)) (w : World) : World :=
  mkWorld (files w) (read_fault w) (write_fault w) (backend w) (requests w) (paint w) out.

(** ** Effects: state passing with exceptions *)

Section Effects.
Context {S : Type}.

Definition M (A : Type) : Type := S -> Completion A * S.

Definition ret {A : Type} (a : A) : M A := fun s => (Return a, s).

Definition throw {A : Type} (e : Exn) : M A := fun s => (Throw e, s).

Definition bind {A B : Type} (m : M A) (k : A -> M B) : M B := fun s =>
  match m s with
  | (Return a, s') => k a s'
  | (Throw e, s') => (Throw e, s')
  end.

(** [try { body } catch (error) { handler }] *)
Definition try_catch {A : Type} (body : M A) (handler : Exn -> M A) : M A := fun s =>
  match body s with
  | (Return a, s') => (Return a, s')
  | (Throw e, s') => handler e s'
  end.

Definition completed {A : Type} (c : Completion A) : M A := fun s => (c, s).

Definition gets {A : Type} (f : S -> A) : M A := fun s => (Return (f s), s).

Definition modify (f : S -> S) : M unit := fun s => (Return tt, f s).

End Effects.
Arguments M : clear implicits.

Notation "'let*' x ':=' m 'in' k" := (bind m (fun x => k))
  (at level 10, x pattern, m at level 100, k at level 200).
Notation "m ';;' k" := (bind m (fun _ => k))
  (at level 100, k at level 200, right associativity).

(** *** Calls into the world *)

(** [readFile(path, 'utf8')] of fs/promises. *)
Definition readFile (path : string) : M World string := fun w =>
  match read_fault w path with
  | Some e => (Throw e, w)
  | None =>
      match files w !! path with
      | Some text => (Return text, w)
      | None => (Throw (SystemError "ENOENT"
                   ("no such file or directory, open '" +:+ path +:+ "'")), w)
      end
  end.

(** [writeFile(path, data, 'utf-8')] of fs/promises: creates or replaces the
    file at [path].  The file system records the string handed over; the
    bytes Node makes of it are not modelled, and with them the one case in
    which they lose something, a lone surrogate, stored as U+FFFD.  Nothing
    below reads a file back after writing it. *)
Definition writeFile (path data : string) : M World unit := fun w =>
  match write_fault w path data with
  | Some e => (Throw e, w)
  | None => (Return tt, with_files (<[path := data]> (files w)) w)
  end.

(** [client.chat({ messages, responseFormat })], giving [response.message.content]. *)
Definition chat (request : ChatRequest) : M World MessageContent := fun w =>
  (backend w (requests w) request, with_requests (requests w ++ [request]) w).

(** picocolors: [style(text)]. *)
Definition styled (style : Style) (text : string) : M World string :=
  gets (fun w => paint w style text).

(** Modelled from the spec: the logger of [src/logger.ts] is not among the
    sources; its [log], [info] and [error] print one line at their level and
    never throw. *)
Definition logger (level : Level) (line : string) : M World unit :=
  modify (fun w => with_console (console w ++ [(level, line)]) w).

(** [a.forEach((x, index) => body)], counting from [index]. *)
Fixpoint forEach {St A : Type} (a : list A) (index : nat) (body : A -> nat -> M St unit)
    : M St unit :=
  match a with
  | [] => ret tt
  | x :: rest => body x index;; forEach rest (S index) body
  end.

(** ** Reading and writing the target file *)

(** [readTextFile] is the same function in explain.ts, edit.ts and fix.ts. *)
Definition readTextFile (filePath : string) : M World string :=
  let* content := readFile filePath in
  ret content.

(** [writeTextFile] of edit.ts and of fix.ts are the same function up to two
    string literals: the suffix put before the extension and the sentence
    that announces the new file. *)
Definition writeTextFileAs (suffix announce : string) (filePath content : string)
    : M World string :=
  try_catch
    (let parts := Js.split dot filePath in
     let '(popped, parts) := Js.pop parts in
     let extension := Js.or_empty popped in
     let flName := Js.join "." parts in
     let flPath := flName +:+ suffix +:+ extension in
     writeFile flPath content;;
     let* strong := styled bold flPath in
     let* shown := styled green strong in
     ret (announce +:+ shown))
    (fun error => ret ("Error creating the edited file: " +:+ Exn_toString error)).

(** ** The workflow machine

    The stateful middleware keeps one session state per workflow context; a
    handler sees it through [getContext().state]. *)

Record Machine (St : Type) : Type := mkMachine {
  session : St;
  world : World;
}.
Arguments mkMachine {St} session world.
Arguments session {St} m.
Arguments world {St} m.

Definition inWorld {St A : Type} (m : M World A) : M (Machine St) A := fun mc =>
  let '(r, w) := m (world mc) in (r, mkMachine (session mc) w).

Definition getState {St : Type} : M (Machine St) St := gets session.

Definition setState {St : Type} (f : St -> St) : M (Machine St) unit :=
  modify (fun mc => mkMachine (f (session mc)) (world mc)).

Definition nl : string := String "010"%char EmptyString.

(** The user turn of the judge request is the artifact under judgment. *)
Definition judgedBy (judge artifact : string) (w : World) : bool :=
  existsb
    (fun r => String.eqb (model r) judge &&
              existsb (fun m => String.eqb (role m) "user" && String.eqb (content m) artifact)
                      (messages r))
    (requests w).

(** Requests sent so far that ask for the given response format. *)
Definition requestsFor (format : string) (w : World) : list ChatRequest :=
  filter (fun r => responseFormat r = format) (requests w).

(** Number of requests sent so far that ask for the given response format;
    with the format of the generation request, the generation attempts. *)
Definition attempts (format : string) (w : World) : nat := length (requestsFor format w).

(** ** edit.ts *)

Module Edit.

Record CodeResponse : Type := mkCode { code_content : string }.

Definition CODE_SCHEMA : Zod.Schema CodeResponse :=
  Zod.object (Zod.prop "code_content" Zod.string_) mkCode.

Record Judgement : Type := mkJudgement { pass : bool; feedback : string }.

Definition JUDGING_SCHEMA : Zod.Schema Judgement :=
  Zod.object
    (Zod.and_prop (Zod.prop "pass" Zod.boolean) (Zod.prop "feedback" Zod.string_))
    (fun '(p, f) => mkJudgement p f).

Definition LLM_JUDGE : string := "gpt-4.1-mini".
Definition LLM : string := "gpt-4.1".

Module Start.
Record Data : Type := mk {
  filePath : string;
  feature : string;
  implementationDetails : string;
  codeLanguage : string;
}.
End Start.

Inductive Event : Type :=
| startEvent (data : Start.Data)
| generationEvent (generatedContent : string)
| judgingEvent (pass : bool) (feedback : string)
| writingEvent (content : string)
| resultEvent (message : string).

Record State : Type := mkState {
  generatedContent : string;
  filePath : string;
  codeLanguage : string;
  feature : string;
  implementationDetails : string;
  numIterations : nat;
  maxIterations : nat;
}.

Definition initialState : State := mkState "" "" "" "" "" 0 3.

Definition set_generatedContent (v : string) (st : State) : State :=
  mkState v (filePath st) (codeLanguage st) (feature st) (implementationDetails st)
    (numIterations st) (maxIterations st).
Definition set_filePath (v : string) (st : State) : State :=
  mkState (generatedContent st) v (codeLanguage st) (feature st) (implementationDetails st)
    (numIterations st) (maxIterations st).
Definition set_codeLanguage (v : string) (st : State) : State :=
  mkState (generatedContent st) (filePath st) v (feature st) (implementationDetails st)
    (numIterations st) (maxIterations st).
Definition set_feature (v : string) (st : State) : State :=
  mkState (generatedContent st) (filePath st) (codeLanguage st) v (implementationDetails st)
    (numIterations st) (maxIterations st).
Definition set_implementationDetails (v : string) (st : State) : State :=
  mkState (generatedContent st) (filePath st) (codeLanguage st) (feature st) v
    (numIterations st) (maxIterations st).
Definition set_numIterations (v : nat) (st : State) : State :=
  mkState (generatedContent st) (filePath st) (codeLanguage st) (feature st)
    (implementationDetails st) v (maxIterations st).

Definition writeTextFile : string -> string -> M World string :=
  writeTextFileAs "_edited." "Successfully edited your file! Find the edited version at: ".

(** The request of the [startEvent] handler. *)
Definition generationRequest (data : Start.Data) (fileContent : string) : ChatRequest :=
  mkRequest LLM
    [ mkMessage "system"
        ("You are an expert " +:+ Start.codeLanguage data +:+
         " programmer. Your task is to generate high-quality code following the feature request and implementation details that are provided to you by the user. Please output only the code.");
      mkMessage "user"
        ("I am working as a " +:+ Start.codeLanguage data +:+
         " developer and I would like to edit " +:+ Start.filePath data +:+
         " with this feature: " +:+ Start.feature data +:+
         "; following these implementation details: " +:+ Start.implementationDetails data +:+
         ". This is the content of the file you should edit for me:" +:+ nl +:+ nl +:+
         "'''" +:+ nl +:+ fileContent +:+ nl +:+ "'''" +:+ nl +:+ nl +:+
         ". Please generate the edited code.") ]
    "CODE_SCHEMA".

(** The request of the [generationEvent] handler. *)
Definition judgeRequest (state : State) (generated : string) : ChatRequest :=
  mkRequest LLM_JUDGE
    [ mkMessage "system"
        ("You are an expert " +:+ codeLanguage state +:+
         " programmer. Your task is to judge the quality of a code that should implement this feature: " +:+
         feature state +:+ " with these implementation details: " +:+
         implementationDetails state +:+
         ". You should output wether the code passes or not your evaluation, and the feedback on the code.");
      mkMessage "user" generated ]
    "JUDGING_SCHEMA".

Definition handleStart (data : Start.Data) : M (Machine State) Event :=
  let* fileContent := inWorld (readTextFile (Start.filePath data)) in
  let* response := inWorld (chat (generationRequest data fileContent)) in
  let* jsonResponse := completed (JSON_parse response) in
  let* schemaResponse := completed (Zod.parse CODE_SCHEMA jsonResponse) in
  setState (fun state => set_numIterations (S (numIterations state)) state);;
  setState (set_filePath (Start.filePath data));;
  setState (set_codeLanguage (Start.codeLanguage data));;
  setState (set_generatedContent (code_content schemaResponse));;
  setState (set_feature (Start.feature data));;
  setState (set_implementationDetails (Start.implementationDetails data));;
  let* state := getState in
  if maxIterations state <? numIterations state
  then ret (writingEvent (code_content schemaResponse))
  else ret (generationEvent (code_content schemaResponse)).

Definition handleGeneration (generated : string) : M (Machine State) Event :=
  let* state := getState in
  let* judgeResponse := inWorld (chat (judgeRequest state generated)) in
  let* jsonResponse := completed (JSON_parse judgeResponse) in
  let* schemaResponse := completed (Zod.parse JUDGING_SCHEMA jsonResponse) in
  ret (judgingEvent (pass schemaResponse) (feedback schemaResponse)).

(** The details handed to the next round after a failed judgment. *)
Definition retryDetails (generated feedback : string) : string :=
  "Your previous implementation:" +:+ nl +:+ nl +:+ "'''" +:+ nl +:+ generated +:+ nl +:+
  "'''" +:+ nl +:+ nl +:+
  "Did not pass the evaluation, and this is the feedback on it: " +:+ feedback.

Definition handleJudging (pass : bool) (feedback : string) : M (Machine State) Event :=
  if pass then
    let* state := getState in
    ret (writingEvent (generatedContent state))
  else
    let* state := getState in
    let implementationDetails := retryDetails (generatedContent state) feedback in
    ret (startEvent (Start.mk (filePath state) (feature state) implementationDetails
                       (codeLanguage state))).

Definition handleWriting (content : string) : M (Machine State) Event :=
  let* state := getState in
  let* msg := inWorld (writeTextFile (filePath state) content) in
  ret (resultEvent msg).

(** The handler registered for an event; [resultEvent] has none. *)
Definition handle (event : Event) : option (M (Machine State) Event) :=
  match event with
  | startEvent data => Some (handleStart data)
  | generationEvent generated => Some (handleGeneration generated)
  | judgingEvent pass feedback => Some (handleJudging pass feedback)
  | writingEvent content => Some (handleWriting content)
  | resultEvent _ => None
  end.

(** One turn of the [for await] loop of [runWorkflow], up to its [break]:
    what it prints for the event, and the round counter after it. *)
Definition announce (iteration : nat) (event : Event) : M World nat :=
  match event with
  | startEvent _ =>
      let iteration := S iteration in
      let* strong := styled bold (pretty iteration) in
      let* shown := styled green strong in
      logger LOG ("Started round " +:+ shown +:+ " of editing✍️");;
      logger LOG "";;
      ret iteration
  | generationEvent _ =>
      let* strong := styled bold "File has been edited!🎉" in
      let* shown := styled yellow strong in
      logger LOG shown;;
      logger LOG "";;
      ret iteration
  | judgingEvent pass feedback =>
      (if pass then
         let* strong := styled bold "PASS" in
         let* shown := styled green strong in
         logger LOG ("Evaluation: " +:+ shown +:+ "✅")
       else
         let* strong := styled bold "FAIL" in
         let* shown := styled red strong in
         logger LOG ("Evaluation: " +:+ shown +:+ "❌");;
         logger LOG ("Reasons: " +:+ feedback));;
      logger LOG "";;
      ret iteration
  | writingEvent _ =>
      let* slanted := styled italic "Writing your file..." in
      let* shown := styled magenta slanted in
      logger LOG shown;;
      logger LOG "";;
      ret iteration
  | resultEvent message =>
      logger LOG message;;
      ret iteration
  end.

(** The event stream of one workflow context, consumed by [runWorkflow].
    Every event sent is yielded to the loop and dispatched to its handler;
    the event a handler returns is sent in turn.  The loop leaves at the
    [resultEvent], the one event without a handler, and [runWorkflow] is
    fulfilled.  An exception thrown by the loop body rejects [runWorkflow].
    An exception thrown by a handler does neither: no handler is wrapped in
    a [try], nothing hands the rejection of the handler to the stream, so the
    loop waits for an event that never comes and [runWorkflow] stays
    [Pending] on the machine the handler has left.  [fuel] bounds the number
    of events consumed; [None] means the bound was too small to see how the
    run is left. *)
Fixpoint consume (fuel : nat) (iteration : nat) (event : Event) (mc : Machine State)
    : option (Settlement unit * Machine State) :=
  match fuel with
  | 0 => None
  | S fuel =>
      match inWorld (announce iteration event) mc with
      | (Throw e, mc) => Some (Settled (Throw e), mc)
      | (Return iteration, mc) =>
          match handle event with
          | None => Some (Settled (Return tt), mc)
          | Some handler =>
              match handler mc with
              | (Throw e, mc) => Some (Pending e, mc)
              | (Return next, mc) => consume fuel iteration next mc
              end
          end
      end
  end.

Definition runWorkflow (fuel : nat) (filePath feature implementationDetails codeLanguage : string)
    (w : World) : option (Settlement unit * Machine State) :=
  consume fuel 0
    (startEvent (Start.mk filePath feature implementationDetails codeLanguage))
    (mkMachine initialState w).

(** Events still to be consumed, at most, from [event] on. *)
Definition budget (event : Event) (state : State) : nat :=
  let rounds := maxIterations state - numIterations state in
  match event with
  | startEvent _ => 3 * rounds + 3
  | generationEvent _ => 3 * rounds + 5
  | judgingEvent _ _ => 3 * rounds + 4
  | writingEvent _ => 2
  | resultEvent _ => 1
  end.

(** Generation requests still to be sent, at most, from [event] on. *)
Definition remaining (event : Event) (state : State) : nat :=
  match event with
  | startEvent _ | generationEvent _ | judgingEvent _ _ =>
      (maxIterations state - numIterations state) + 1
  | writingEvent _ | resultEvent _ => 0
  end.

(** The path the run is about, as [event] and the session state carry it:
    in the data of a [startEvent], in the state for the events after it. *)
Definition targets (path : string) (event : Event) (state : State) : Prop :=
  match event with
  | startEvent data => Start.filePath data = path
  | generationEvent _ | judgingEvent _ _ | writingEvent _ => filePath state = path
  | resultEvent _ => True
  end.

(** The command handler.  The four answers of [logger.prompt] are its
    arguments.  It awaits [runWorkflow] and is left as that is left. *)
Definition handler (fuel : nat) (codeLanguage filePath userFeature userImpDet : string)
    (w : World) : option (Settlement unit * World) :=
  let banner : M World unit :=
    let* rule := styled gray (Js.repeat "─" 50) in
    logger LOG rule;;
    let* tinted := styled cyan "✨ Starting the editing process... Almost ready! 🎨" in
    let* shown := styled bold tinted in
    logger LOG shown;;
    logger LOG "" in
  match banner w with
  | (Throw e, w) => Some (Settled (Throw e), w)
  | (Return _, w) =>
      match runWorkflow fuel filePath userFeature userImpDet codeLanguage w with
      | Some (r, mc) => Some (r, world mc)
      | None => None
      end
  end.

End Edit.

(** ** fix.ts *)

Module Fix.

Record ErrorResponse : Type := mkError { error_explanation : string; proposed_fix : string }.

Definition ERROR_SCHEMA : Zod.Schema ErrorResponse :=
  Zod.object
    (Zod.and_prop (Zod.prop "error_explanation" Zod.string_)
                  (Zod.prop "proposed_fix" Zod.string_))
    (fun '(e, p) => mkError e p).

Record FixResponse : Type := mkFix { fixed_content : string }.

Definition FIX_SCHEMA : Zod.Schema FixResponse :=
  Zod.object (Zod.prop "fixed_content" Zod.string_) mkFix.

Record Judgement : Type := mkJudgement { pass : bool; feedback : string }.

Definition JUDGING_SCHEMA : Zod.Schema Judgement :=
  Zod.object
    (Zod.and_prop (Zod.prop "pass" Zod.boolean) (Zod.prop "feedback" Zod.string_))
    (fun '(p, f) => mkJudgement p f).

Definition LLM_JUDGE : string := "gpt-4o".
Definition LLM : string := "gpt-4.1".

Module Start.
Record Data : Type := mk {
  filePath : string;
  error : string;
  errorDetails : string;
  codeLanguage : string;
}.
End Start.

Inductive Event : Type :=
| startEvent (data : Start.Data)
| errorEvaluationEvent (error_explanation proposed_fix : string)
| generationEvent (generatedContent : string)
| judgingEvent (pass : bool) (feedback : string)
| writingEvent (content : string)
| resultEvent (message : string).

Record State : Type := mkState {
  generatedContent : string;
  filePath : string;
  fileContent : string;
  codeLanguage : string;
  error : string;
  errorDetails : string;
  numIterations : nat;
  maxIterations : nat;
}.

Definition initialState : State := mkState "" "" "" "" "" "" 0 3.

Definition set_generatedContent (v : string) (st : State) : State :=
  mkState v (filePath st) (fileContent st) (codeLanguage st) (error st) (errorDetails st)
    (numIterations st) (maxIterations st).
Definition set_filePath (v : string) (st : State) : State :=
  mkState (generatedContent st) v (fileContent st) (codeLanguage st) (error st)
    (errorDetails st) (numIterations st) (maxIterations st).
Definition set_fileContent (v : string) (st : State) : State :=
  mkState (generatedContent st) (filePath st) v (codeLanguage st) (error st)
    (errorDetails st) (numIterations st) (maxIterations st).
Definition set_codeLanguage (v : string) (st : State) : State :=
  mkState (generatedContent st) (filePath st) (fileContent st) v (error st)
    (errorDetails st) (numIterations st) (maxIterations st).
Definition set_error (v : string) (st : State) : State :=
  mkState (generatedContent st) (filePath st) (fileContent st) (codeLanguage st) v
    (errorDetails st) (numIterations st) (maxIterations st).
Definition set_errorDetails (v : string) (st : State) : State :=
  mkState (generatedContent st) (filePath st) (fileContent st) (codeLanguage st) (error st)
    v (numIterations st) (maxIterations st).
Definition set_numIterations (v : nat) (st : State) : State :=
  mkState (generatedContent st) (filePath st) (fileContent st) (codeLanguage st) (error st)
    (errorDetails st) v (maxIterations st).

Definition writeTextFile : string -> string -> M World string :=
  writeTextFileAs "_fixed." "Successfully fixed your file! Find the fixed version at: ".

(** The request of the [startEvent] handler. *)
Definition evaluationRequest (data : Start.Data) (fileContent : string) : ChatRequest :=
  mkRequest LLM
    [ mkMessage "system"
        ("You are an expert " +:+ Start.codeLanguage data +:+
         " programmer. Your task is to provide an error explanation and to detail a potential error fixing solution.");
      mkMessage "user"
        ("I am working as a " +:+ Start.codeLanguage data +:+
         " developer and I would  like to fix " +:+ Start.filePath data +:+
         " because of this error: " +:+ Start.error data +:+
         ". These are some error details: " +:+ Start.errorDetails data +:+
         ". This is the content of the file you should edit for me:" +:+ nl +:+ nl +:+
         "'''" +:+ nl +:+ fileContent +:+ nl +:+ "'''" +:+ nl +:+ nl +:+
         ". Please generate the edited code.") ]
    "ERROR_SCHEMA".

(** The request of the [errorEvaluationEvent] handler. *)
Definition generationRequest (state : State) (error_explanation proposed_fix : string)
    : ChatRequest :=
  mkRequest LLM
    [ mkMessage "system"
        ("You are an expert " +:+ codeLanguage state +:+
         " programmer. Your task is to generate high quality code that fixes errors based on the error explanation and on a proposed fix.");
      mkMessage "user"
        ("An error is occurring in " +:+ filePath state +:+
         ", that is defined as follows:" +:+ nl +:+ nl +:+
         "'''" +:+ nl +:+ fileContent state +:+ nl +:+ "'''" +:+ nl +:+ nl +:+
         ". The error is " +:+ error state +:+
         " and there are some details on it: " +:+ errorDetails state +:+
         ". A potential error explanation is: " +:+ error_explanation +:+
         ". I am proposing the following fix: " +:+ proposed_fix +:+
         ". Could you implement it?") ]
    "FIX_SCHEMA".

(** The request of the [generationEvent] handler. *)
Definition judgeRequest (state : State) (generated : string) : ChatRequest :=
  mkRequest LLM_JUDGE
    [ mkMessage "system"
        ("You are an expert " +:+ codeLanguage state +:+
         " programmer. Your task is to judge the quality of a code that should fix this feature: " +:+
         error state +:+ " with these error details: " +:+ errorDetails state +:+
         ". You should output wether the code passes or not your evaluation, and the feedback on the code.");
      mkMessage "user" generated ]
    "JUDGING_SCHEMA".

Definition handleStart (data : Start.Data) : M (Machine State) Event :=
  let* fileContent := inWorld (readTextFile (Start.filePath data)) in
  let* response := inWorld (chat (evaluationRequest data fileContent)) in
  let* jsonResponse := completed (JSON_parse response) in
  let* schemaResponse := completed (Zod.parse ERROR_SCHEMA jsonResponse) in
  setState (set_filePath (Start.filePath data));;
  setState (set_codeLanguage (Start.codeLanguage data));;
  setState (set_error (Start.error data));;
  setState (set_errorDetails (Start.errorDetails data));;
  setState (set_fileContent fileContent);;
  ret (errorEvaluationEvent (error_explanation schemaResponse) (proposed_fix schemaResponse)).

Definition handleErrorEvaluation (error_explanation proposed_fix : string)
    : M (Machine State) Event :=
  setState (fun state => set_numIterations (S (numIterations state)) state);;
  let* state := getState in
  let* response := inWorld (chat (generationRequest state error_explanation proposed_fix)) in
  let* jsonResponse := completed (JSON_parse response) in
  let* schemaResponse := completed (Zod.parse FIX_SCHEMA jsonResponse) in
  setState (set_generatedContent (fixed_content schemaResponse));;
  let* state := getState in
  if maxIterations state <? numIterations state
  then ret (writingEvent (fixed_content schemaResponse))
  else ret (generationEvent (fixed_content schemaResponse)).

Definition handleGeneration (generated : string) : M (Machine State) Event :=
  let* state := getState in
  let* judgeResponse := inWorld (chat (judgeRequest state generated)) in
  let* jsonResponse := completed (JSON_parse judgeResponse) in
  let* schemaResponse := completed (Zod.parse JUDGING_SCHEMA jsonResponse) in
  ret (judgingEvent (pass schemaResponse) (feedback schemaResponse)).

(** The details handed to the next round after a failed judgment. *)
Definition retryDetails (generated feedback : string) : string :=
  "Your previous fix:" +:+ nl +:+ nl +:+ "'''" +:+ nl +:+ generated +:+ nl +:+
  "'''" +:+ nl +:+ nl +:+
  "Did not pass the evaluation, and this is the feedback on it: " +:+ feedback.

Definition handleJudging (pass : bool) (feedback : string) : M (Machine State) Event :=
  if pass then
    let* state := getState in
    ret (writingEvent (generatedContent state))
  else
    let* state := getState in
    let errorDetails := retryDetails (generatedContent state) feedback in
    ret (startEvent (Start.mk (filePath state) (error state) errorDetails
                       (codeLanguage state))).

Definition handleWriting (content : string) : M (Machine State) Event :=
  let* state := getState in
  let* msg := inWorld (writeTextFile (filePath state) content) in
  ret (resultEvent msg).

(** The handler registered for an event; [resultEvent] has none. *)
Definition handle (event : Event) : option (M (Machine State) Event) :=
  match event with
  | startEvent data => Some (handleStart data)
  | errorEvaluationEvent error_explanation proposed_fix =>
      Some (handleErrorEvaluation error_explanation proposed_fix)
  | generationEvent generated => Some (handleGeneration generated)
  | judgingEvent pass feedback => Some (handleJudging pass feedback)
  | writingEvent content => Some (handleWriting content)
  | resultEvent _ => None
  end.

(** One turn of the [for await] loop of [runWorkflow], up to its [break]. *)
Definition announce (iteration : nat) (event : Event) : M World nat :=
  match event with
  | startEvent _ =>
      let iteration := S iteration in
      let* strong := styled bold (pretty iteration) in
      let* shown := styled magenta strong in
      logger LOG ("Started round " +:+ shown +:+ " of editing✍️");;
      logger LOG "";;
      ret iteration
  | errorEvaluationEvent error_explanation proposed_fix =>
      let* strong := styled bold "might be explained" in
      let* shown := styled green strong in
      logger LOG ("Your error " +:+ shown +:+ " as follows:" +:+ nl +:+ error_explanation);;
      logger LOG "";;
      let* strong := styled bold "proposing this fix" in
      let* shown := styled cyan strong in
      logger LOG ("I am " +:+ shown +:+ ":" +:+ nl +:+ proposed_fix);;
      logger LOG "";;
      ret iteration
  | generationEvent _ =>
      let* strong := styled bold "A fix has been generated for your file!🎉" in
      let* shown := styled yellow strong in
      logger LOG shown;;
      logger LOG "";;
      ret iteration
  | judgingEvent pass feedback =>
      (if pass then
         let* strong := styled bold "PASS" in
         let* shown := styled green strong in
         logger LOG ("Evaluation: " +:+ shown +:+ "✅")
       else
         let* strong := styled bold "FAIL" in
         let* shown := styled red strong in
         logger LOG ("Evaluation: " +:+ shown +:+ "❌");;
         logger LOG ("Reasons: " +:+ feedback));;
      logger LOG "";;
      ret iteration
  | writingEvent _ =>
      let* slanted := styled italic "Writing your file..." in
      let* shown := styled magenta slanted in
      logger LOG shown;;
      logger LOG "";;
      ret iteration
  | resultEvent message =>
      logger LOG message;;
      ret iteration
  end.

(** The event stream consumed by [runWorkflow]; see [Edit.consume]: here
    too no handler catches, and a handler that throws leaves the run
    [Pending]. *)
Fixpoint consume (fuel : nat) (iteration : nat) (event : Event) (mc : Machine State)
    : option (Settlement unit * Machine State) :=
  match fuel with
  | 0 => None
  | S fuel =>
      match inWorld (announce iteration event) mc with
      | (Throw e, mc) => Some (Settled (Throw e), mc)
      | (Return iteration, mc) =>
          match handle event with
          | None => Some (Settled (Return tt), mc)
          | Some handler =>
              match handler mc with
              | (Throw e, mc) => Some (Pending e, mc)
              | (Return next, mc) => consume fuel iteration next mc
              end
          end
      end
  end.

Definition runWorkflow (fuel : nat) (filePath error errorDetails codeLanguage : string)
    (w : World) : option (Settlement unit * Machine State) :=
  consume fuel 0
    (startEvent (Start.mk filePath error errorDetails codeLanguage))
    (mkMachine initialState w).

(** The state as the [errorEvaluationEvent] handler has it after its first
    statement, [state.numIterations++]. *)
Definition counted (state : State) : State :=
  set_numIterations (S (numIterations state)) state.

(** Events still to be consumed, at most, from [event] on. *)
Definition budget (event : Event) (state : State) : nat :=
  let rounds := maxIterations state - numIterations state in
  match event with
  | startEvent _ => 4 * rounds + 4
  | errorEvaluationEvent _ _ => 4 * rounds + 3
  | generationEvent _ => 4 * rounds + 6
  | judgingEvent _ _ => 4 * rounds + 5
  | writingEvent _ => 2
  | resultEvent _ => 1
  end.

(** Generation requests still to be sent, at most, from [event] on. *)
Definition remaining (event : Event) (state : State) : nat :=
  match event with
  | startEvent _ | errorEvaluationEvent _ _ | generationEvent _ | judgingEvent _ _ =>
      (maxIterations state - numIterations state) + 1
  | writingEvent _ | resultEvent _ => 0
  end.

(** The path the run is about, as [event] and the session state carry it:
    in the data of a [startEvent], in the state for the events after it. *)
Definition targets (path : string) (event : Event) (state : State) : Prop :=
  match event with
  | startEvent data => Start.filePath data = path
  | errorEvaluationEvent _ _ | generationEvent _ | judgingEvent _ _ | writingEvent _ =>
      filePath state = path
  | resultEvent _ => True
  end.

(** The command handler.  The four answers of [logger.prompt] are its
    arguments.  It awaits [runWorkflow] and is left as that is left. *)
Definition handler (fuel : nat) (codeLanguage filePath userError userErrDet : string)
    (w : World) : option (Settlement unit * World) :=
  let banner : M World unit :=
    let* rule := styled gray (Js.repeat "─" 50) in
    logger LOG rule;;
    let* tinted :=
      styled cyan "✨ Starting the debugging process... Let's squash those bugs! 🐛💥" in
    let* shown := styled bold tinted in
    logger LOG shown;;
    logger LOG "" in
  match banner w with
  | (Throw e, w) => Some (Settled (Throw e), w)
  | (Return _, w) =>
      match runWorkflow fuel filePath userError userErrDet codeLanguage w with
      | Some (r, mc) => Some (r, world mc)
      | None => None
      end
  end.

End Fix.

(** ** explain.ts *)

Module Explain.

Definition LLM : string := "gpt-4o".

Record AnalysisResult : Type := mkAnalysis {
  code_overview : string;
  focal_points : list string;
  core_concepts_to_learn : list string;
  extra_information : string;
}.

Definition SCHEMA : Zod.Schema AnalysisResult :=
  Zod.object
    (Zod.and_prop (Zod.prop "code_overview" Zod.string_)
      (Zod.and_prop (Zod.prop "focal_points" (Zod.array Zod.string_))
        (Zod.and_prop (Zod.prop "core_concepts_to_learn" (Zod.array Zod.string_))
                      (Zod.prop "extra_information" Zod.string_))))
    (fun '(o, (f, (c, x))) => mkAnalysis o f c x).

Definition heading (colour : Style) (title : string) : M World unit :=
  let* tinted := styled colour title in
  let* shown := styled bold tinted in
  logger LOG shown.

Definition rule : M World unit :=
  let* shown := styled gray (Js.repeat "─" 50) in
  logger LOG shown.

Definition renderAnalysis (analysis : AnalysisResult) : M World unit :=
  heading blue "📋 Code Analysis Report";;
  logger LOG "";;
  heading green "🔍 Code Overview";;
  rule;;
  (let* shown := styled white (code_overview analysis) in logger LOG shown);;
  logger LOG "";;
  heading yellow "🎯 Focal Points";;
  rule;;
  forEach (focal_points analysis) 0 (fun point index =>
    let* number := styled cyan (pretty (index + 1) +:+ ". ") in
    let* text := styled white point in
    logger LOG (number +:+ text));;
  logger LOG "";;
  heading magenta "📚 Core Concepts to Learn";;
  rule;;
  forEach (core_concepts_to_learn analysis) 0 (fun concept _ =>
    let* bullet := styled magenta "• " in
    let* text := styled white concept in
    logger LOG (bullet +:+ text));;
  logger LOG "";;
  heading red "💡 Extra Information";;
  rule;;
  let* shown := styled white (extra_information analysis) in
  logger LOG shown.

(** [err.path.join('.')]: keys as they are, indices in decimal. *)
Definition pathText (path : list PathSeg) : string :=
  Js.join "." ((fun seg => match seg with Key name => name | Index i => pretty i end) <$> path).

(** The line printed for one issue of a [ZodError]. *)
Definition issueLine (err : ZodIssue) : string :=
  "  - " +:+ pathText (issue_path err) +:+ ": " +:+ issue_message err.

Definition parseAndRenderAnalysis (messageContent : MessageContent) : M World unit :=
  try_catch
    (let* jsonData := completed (JSON_parse messageContent) in
     let* validatedData := completed (Zod.parse SCHEMA jsonData) in
     renderAnalysis validatedData)
    (fun error =>
       match error with
       | ZodError errors =>
           (let* shown := styled red "❌ Schema validation failed:" in logger ERROR shown);;
           forEach errors 0 (fun err _ =>
             let* shown := styled red (issueLine err) in
             logger ERROR shown)
       | _ =>
           let* shown := styled red "❌ Failed to parse message content:" in
           logger ERROR (shown +:+ " " +:+ Exn_toString error)
       end).

Definition explainRequest (codeLanguage filePath level problem fileContent : string)
    : ChatRequest :=
  mkRequest LLM
    [ mkMessage "system"
        ("You are an expert " +:+ codeLanguage +:+
         " programmer. Your task is to explain the code in a file by producing a code overview, highlighting the focal points of the code, proposing core concepts to learn in order to understand the code and adding also any extra information containing tips and trick related to the code you explained. Remember to always adapt your explanations to the level of the person who is asking you to explain the code, and to also address their problems with the code itself in the various part of the explanation.");
      mkMessage "user"
        ("I am at a " +:+ level +:+ " level in " +:+ codeLanguage +:+
         " and I am struggling to understant this file: " +:+ filePath +:+
         " because I have the following problem: " +:+ problem +:+
         ". This is the content of the file you should explain to me:" +:+ nl +:+ nl +:+
         "'''" +:+ nl +:+ fileContent +:+ nl +:+ "'''" +:+ nl +:+ nl +:+
         ". Please explain it to me.") ]
    "SCHEMA".

Definition explainCode (codeLanguage filePath level problem : string)
    : M World MessageContent :=
  let* fileContent := readTextFile filePath in
  let* response := chat (explainRequest codeLanguage filePath level problem fileContent) in
  ret response.

(** The command handler.  The four answers of [logger.prompt] are its
    arguments. *)
Definition handler (codeLanguage userLevel filePath userProblem : string) : M World unit :=
  rule;;
  (let* tinted := styled cyan "Hang on, I will provide you with the explanation soon..." in
   let* shown := styled bold tinted in
   logger LOG shown);;
  logger LOG "";;
  let* codeExplanation := explainCode codeLanguage filePath userLevel userProblem in
  parseAndRenderAnalysis codeExplanation.

End Explain.

(** ** index.test.ts *)

Module TestSuite.

(** The copy of [writeTextFile] that the test suite exercises: the suffix is
    [_test.] and the message names the path without colours. *)
Definition writeTextFile (filePath content : string) : M World string :=
  try_catch
    (let parts := Js.split dot filePath in
     let '(popped, parts) := Js.pop parts in
     let extension := Js.or_empty popped in
     let flName := Js.join "." parts in
     let flPath := flName +:+ "_test." +:+ extension in
     writeFile flPath content;;
     ret ("Successfully edited your file! Find the edited version at: " +:+ flPath))
    (fun error => ret ("Error creating the edited file: " +:+ Exn_toString error)).

End TestSuite.

(** ** Vocabulary of the statements *)

(** A response that [JSON.parse] or the schema rejects. *)
Definition malformed {A : Type} (schema : Zod.Schema A) (response : MessageContent) : Prop :=
  match JSON_parse response with
  | Throw _ => True
  | Return json => is_Throw (Zod.parse schema json)
  end.

(** Reading [filePath] in [w] fails with [e]. *)
Definition readFails (w : World) (filePath : string) (e : Exn) : Prop :=
  (readFile filePath w).1 = Throw e.

(** The handler threw and left the session state as [state]. *)
Definition rejected {St Ev : Type} (outcome : Completion Ev * Machine St) (state : St) : Prop :=
  is_Throw outcome.1 ∧ session outcome.2 = state.

(** No message of the request mentions [text]. *)
Definition silentAbout (text : string) (request : ChatRequest) : bool :=
  forallb (fun m => negb (Js.includes text (content m))) (messages request).

(** A schema that, when it rejects, has at least one issue to report. *)
Definition reportsIssues {A : Type} (schema : Zod.Schema A) : Prop :=
  ∀ path input issues, schema path input = inl issues → issues ≠ [].

Definition shapeReportsIssues {A : Type} (shape : Zod.Shape A) : Prop :=
  ∀ path obj issues, shape path obj = inl issues → issues ≠ [].

(** The issues expected of an array of strings: one for each element that is
    not a string, at the index of the element, in the order of the array. *)
Fixpoint stringIssues (path : list PathSeg) (i : nat) (items : list Json) : list ZodIssue :=
  match items with
  | [] => []
  | JString _ :: rest => stringIssues path (S i) rest
  | x :: rest =>
      Zod.invalid_type (path ++ [Index i]) "string" (Some x) :: stringIssues path (S i) rest
  end.

Definition isString (x : Json) : bool :=
  match x with JString _ => true | _ => false end.

(** The lines of the report of the explain command, as a terminal rendering
    styles with [paint] shows them: the focal points numbered from [i + 1],
    the concepts as bullets. *)
Fixpoint numberedLines (paint : Style → string → string) (i : nat) (points : list string)
    : list string :=
  match points with
  | [] => []
  | point :: rest =>
      (paint cyan (pretty (i + 1) +:+ ". ") +:+ paint white point)
      :: numberedLines paint (S i) rest
  end.

Definition bulletLines (paint : Style → string → string) (concepts : list string)
    : list string :=
  (fun concept => paint magenta "• " +:+ paint white concept) <$> concepts.

Definition reportLines (paint : Style → string → string) (analysis : Explain.AnalysisResult)
    : list string :=
  [ paint bold (paint blue "📋 Code Analysis Report"); "";
    paint bold (paint green "🔍 Code Overview"); paint gray (Js.repeat "─" 50);
    paint white (Explain.code_overview analysis); "";
    paint bold (paint yellow "🎯 Focal Points"); paint gray (Js.repeat "─" 50) ] ++
  numberedLines paint 0 (Explain.focal_points analysis) ++
  [ ""; paint bold (paint magenta "📚 Core Concepts to Learn"); paint gray (Js.repeat "─" 50) ] ++
  bulletLines paint (Explain.core_concepts_to_learn analysis) ++
  [ ""; paint bold (paint red "💡 Extra Information"); paint gray (Js.repeat "─" 50);
    paint white (Explain.extra_information analysis) ].

(** What holds between the events of a run of the edit workflow started on
    [path] in the world [w0]: the faults of the disk and the cap are the
    initial ones, the counter counts the generation requests of the run, the
    events carry the artifact stored in the session, and an artifact that
    reaches the writer below the cap has been before the judge. *)
Module EditRun.
Import Edit.

Section Coherent.
Variables (path : string) (w0 : World).

Definition judged (mc : Machine State) : Prop :=
  judgedBy LLM_JUDGE (generatedContent (session mc)) (world mc) = true.

Definition counted (mc : Machine State) (low high : nat) : Prop :=
  filePath (session mc) = path ∧
  low ≤ numIterations (session mc) ∧ numIterations (session mc) ≤ high.

Definition coherent (event : Event) (mc : Machine State) : Prop :=
  write_fault (world mc) = write_fault w0 ∧
  maxIterations (session mc) = 3 ∧
  attempts "CODE_SCHEMA" (world mc)
    = attempts "CODE_SCHEMA" w0 + numIterations (session mc) ∧
  match event with
  | startEvent data => Start.filePath data = path ∧ numIterations (session mc) ≤ 3
  | generationEvent generated =>
      counted mc 1 3 ∧ generated = generatedContent (session mc)
  | judgingEvent _ _ => counted mc 1 3 ∧ judged mc
  | writingEvent content =>
      counted mc 1 4 ∧ content = generatedContent (session mc) ∧
      (numIterations (session mc) ≤ 3 → judged mc)
  | resultEvent _ =>
      counted mc 1 4 ∧
      (numIterations (session mc) ≤ 3 → judged mc) ∧
      (write_fault w0 (editedPath path) (generatedContent (session mc)) = None →
       files (world mc) !! editedPath path = Some (generatedContent (session mc)))
  end.

End Coherent.
End EditRun.

(** The same for the fix workflow, whose generation is the handler of the
    [errorEvaluationEvent]. *)
Module FixRun.
Import Fix.

Section Coherent.
Variables (path : string) (w0 : World).

Definition judged (mc : Machine State) : Prop :=
  judgedBy LLM_JUDGE (generatedContent (session mc)) (world mc) = true.

Definition counted (mc : Machine State) (low high : nat) : Prop :=
  filePath (session mc) = path ∧
  low ≤ numIterations (session mc) ∧ numIterations (session mc) ≤ high.

Definition coherent (event : Event) (mc : Machine State) : Prop :=
  write_fault (world mc) = write_fault w0 ∧
  maxIterations (session mc) = 3 ∧
  attempts "FIX_SCHEMA" (world mc)
    = attempts "FIX_SCHEMA" w0 + numIterations (session mc) ∧
  match event with
  | startEvent data => Start.filePath data = path ∧ numIterations (session mc) ≤ 3
  | errorEvaluationEvent _ _ => counted mc 0 3
  | generationEvent generated =>
      counted mc 1 3 ∧ generated = generatedContent (session mc)
  | judgingEvent _ _ => counted mc 1 3 ∧ judged mc
  | writingEvent content =>
      counted mc 1 4 ∧ content = generatedContent (session mc) ∧
      (numIterations (session mc) ≤ 3 → judged mc)
  | resultEvent _ =>
      counted mc 1 4 ∧
      (numIterations (session mc) ≤ 3 → judged mc) ∧
      (write_fault w0 (fixedPath path) (generatedContent (session mc)) = None →
       files (world mc) !! fixedPath path = Some (generatedContent (session mc)))
  end.

End Coherent.
End FixRun.

(** Requests still to be sent, at most, from an event on: to any model, and
    to the judge. *)
Definition editCallsLeft (event : Edit.Event) (state : Edit.State) : nat :=
  let rounds := Edit.maxIterations state - Edit.numIterations state in
  match event with
  | Edit.startEvent _ => 2 * rounds + 1
  | Edit.generationEvent _ => 2 * rounds + 2
  | Edit.judgingEvent _ _ => 2 * rounds + 1
  | Edit.writingEvent _ | Edit.resultEvent _ => 0
  end.

Definition editJudgmentsLeft (event : Edit.Event) (state : Edit.State) : nat :=
  let rounds := Edit.maxIterations state - Edit.numIterations state in
  match event with
  | Edit.startEvent _ | Edit.judgingEvent _ _ => rounds
  | Edit.generationEvent _ => rounds + 1
  | Edit.writingEvent _ | Edit.resultEvent _ => 0
  end.

Definition fixCallsLeft (event : Fix.Event) (state : Fix.State) : nat :=
  let rounds := Fix.maxIterations state - Fix.numIterations state in
  match event with
  | Fix.startEvent _ => 3 * rounds + 2
  | Fix.errorEvaluationEvent _ _ => 3 * rounds + 1
  | Fix.generationEvent _ => 3 * rounds + 3
  | Fix.judgingEvent _ _ => 3 * rounds + 2
  | Fix.writingEvent _ | Fix.resultEvent _ => 0
  end.

Definition fixJudgmentsLeft (event : Fix.Event) (state : Fix.State) : nat :=
  let rounds := Fix.maxIterations state - Fix.numIterations state in
  match event with
  | Fix.startEvent _ | Fix.errorEvaluationEvent _ _ | Fix.judgingEvent _ _ => rounds
  | Fix.generationEvent _ => rounds + 1
  | Fix.writingEvent _ | Fix.resultEvent _ => 0
  end.

(** The ways a run on [path] started in [w0] can fail: the read of the file
    fails, the call to a model fails, the answer is not JSON, or a schema
    rejects it with its issues. *)
Definition failureCause (w0 : World) (path : string) (e : Exn) : Prop :=
  readFails w0 path e ∨
  (∃ history request, backend w0 history request = Throw e) ∨
  (∃ message, e = SyntaxError message) ∨
  (∃ errors, e = ZodError errors ∧ errors ≠ []).

(** The parts of the world that decide the reads and the answers are those
    of [w0]. *)
Definition sameSources (w0 w : World) : Prop :=
  files w = files w0 ∧ read_fault w = read_fault w0 ∧ backend w = backend w0.

(** On a terminal that renders styles with [shade], the computation returns
    [a] and adds [lines] to the console, changing nothing else. *)
Definition printsAt {A : Type} (shade : Style → string → string)
    (m : M World A) (a : A) (lines : list (Level * string)) : Prop :=
  ∀ w, paint w = shade → m w = (Return a, with_console (console w ++ lines) w).

(** ** Sample worlds *)

Module Sample.

Definition obj (fields : list (string * Json)) : Json := JObject (list_to_map fields).

(** A backend that answers every request with JSON of the requested format
    and whose judge always gives [verdict].  Drafts and remarks carry the
    number of requests that came before them. *)
Definition scripted (verdict : bool) (history : list ChatRequest) (request : ChatRequest)
    : Completion MessageContent :=
  let k := pretty (length history) in
  let format := responseFormat request in
  Return (JsonText
    (if String.eqb format "JUDGING_SCHEMA" then
       obj [("pass", JBool verdict); ("feedback", JString ("remark" +:+ k))]
     else if String.eqb format "CODE_SCHEMA" then
       obj [("code_content", JString ("draft" +:+ k))]
     else if String.eqb format "FIX_SCHEMA" then
       obj [("fixed_content", JString ("draft" +:+ k))]
     else if String.eqb format "ERROR_SCHEMA" then
       obj [("error_explanation", JString "why"); ("proposed_fix", JString "how")]
     else
       obj [("code_overview", JString "overview"); ("focal_points", JArray [JString "one"]);
            ("core_concepts_to_learn", JArray []); ("extra_information", JString "")])).

(** A backend whose JSON never has the properties the schemas ask for. *)
Definition offSchema (history : list ChatRequest) (request : ChatRequest)
    : Completion MessageContent :=
  Return (JsonText (obj [("code", JString "print(2)"); ("focal_points", JArray [JNull])])).

Definition project : gmap string string := {[ "foo.py" := "print(1)" ]}.

(** No faults, no colours, nothing sent or printed yet. *)
Definition plain (fs : gmap string string)
    (answer : list ChatRequest → ChatRequest → Completion MessageContent) : World :=
  mkWorld fs (fun _ => None) (fun _ _ => None) answer [] (fun _ text => text) [].

Definition stubborn : World := plain project (scripted false).
Definition lenient : World := plain project (scripted true).
Definition careless : World := plain project offSchema.
Definition bare : World := plain ∅ (scripted true).

(** The disk refuses every write. *)
Definition readOnly : World :=
  mkWorld project (fun _ => None)
    (fun path _ => Some (SystemError "EACCES" ("permission denied, open '" +:+ path +:+ "'")))
    (scripted true) [] (fun _ text => text) [].

End Sample.

(** * Properties *)

(** ** Strings, [split], [pop] and [join] *)

Section StringFacts.

Lemma append_cons (c : ascii) (s t : string) : String c s +:+ t = String c (s +:+ t).
Proof. reflexivity. Qed.

Lemma append_nil_r (s : string) : s +:+ "" = s.
Proof. induction s as [|c s IH]; [reflexivity|]. rewrite append_cons. by f_equal. Qed.

Lemma append_assoc (s t u : string) : (s +:+ t) +:+ u = s +:+ t +:+ u.
Proof. induction s as [|c s IH]; [reflexivity|]. rewrite !append_cons. by f_equal. Qed.

Lemma length_append (s t : string) :
  String.length (s +:+ t) = String.length s + String.length t.
Proof. induction s as [|c s IH]; [reflexivity|]. rewrite append_cons. simpl. lia. Qed.

Lemma split_nonempty (sep : ascii) (s : string) : Js.split sep s ≠ [].
Proof.
  destruct s as [|c s]; simpl; [done|].
  destruct (Ascii.eqb c sep); [done|]. by destruct (Js.split sep s).
Qed.

Lemma split_absent (sep : ascii) (s : string) :
  occurs sep s = false → Js.split sep s = [s].
Proof.
  induction s as [|c s IH]; simpl; [done|].
  intros [Hc Hs]%orb_false_iff. rewrite Hc. by rewrite (IH Hs).
Qed.

Lemma split_around (sep : ascii) (a b : string) :
  Js.split sep (a +:+ String sep b) = Js.split sep a ++ Js.split sep b.
Proof.
  induction a as [|c a IH].
  - change ("" +:+ String sep b) with (String sep b). simpl.
    by rewrite Ascii.eqb_refl.
  - rewrite append_cons. simpl. rewrite IH.
    destruct (Ascii.eqb c sep); [done|].
    pose proof (split_nonempty sep a) as Hne.
    by destruct (Js.split sep a).
Qed.

Lemma pop_snoc {A : Type} (l : list A) (x : A) : Js.pop (l ++ [x]) = (Some x, l).
Proof.
  induction l as [|y l IH]; [done|].
  change ((y :: l) ++ [x]) with (y :: (l ++ [x])).
  simpl. rewrite IH. by destruct (l ++ [x]) eqn:E; [destruct l|].
Qed.

Lemma join_split (sep : ascii) (s : string) :
  Js.join (String sep "") (Js.split sep s) = s.
Proof.
  induction s as [|c s IH]; [done|]. simpl.
  destruct (Ascii.eqb_spec c sep) as [->|Hne].
  - pose proof (split_nonempty sep s) as Hs.
    destruct (Js.split sep s) as [|p ps] eqn:E; [done|].
    change (Js.join (String sep "") ("" :: p :: ps))
      with ("" +:+ String sep "" +:+ Js.join (String sep "") (p :: ps)).
    by rewrite IH.
  - pose proof (split_nonempty sep s) as Hs.
    destruct (Js.split sep s) as [|p ps] eqn:E; [done|].
    destruct ps as [|q qs].
    + simpl in *. by rewrite IH.
    + change (Js.join (String sep "") (String c p :: q :: qs))
        with (String c p +:+ String sep "" +:+ Js.join (String sep "") (q :: qs)).
      rewrite append_cons. f_equal. exact IH.
Qed.

(** A string in which the character occurs ends in a last part free of it. *)
Lemma occurs_last (sep : ascii) (s : string) :
  occurs sep s = true →
  ∃ stem ext, s = stem +:+ String sep ext ∧ occurs sep ext = false.
Proof.
  induction s as [|c s IH]; simpl; [done|].
  destruct (occurs sep s) eqn:Hs.
  - intros _. destruct IH as (stem & ext & -> & Hext); [done|].
    exists (String c stem), ext. by rewrite append_cons.
  - rewrite orb_false_r. intros ->%Ascii.eqb_eq.
    by exists "", s.
Qed.

End StringFacts.

(** ** The derived path *)

Example editedPath_foo : editedPath "foo.py" = "foo_edited.py".
Proof. reflexivity. Qed.

Example fixedPath_nested : fixedPath "./src/a.b/main.test.ts" = "./src/a.b/main.test_fixed.ts".
Proof. reflexivity. Qed.

Example editedPath_noext : editedPath "Makefile" = "_edited.Makefile".
Proof. reflexivity. Qed.

Example editedPath_trailing_dot : editedPath "foo." = "foo_edited.".
Proof. reflexivity. Qed.

Section DerivedPath.
Variable suffix : string.

(** With an extension after the last dot, the suffix goes in place of that
    dot. *)
Lemma derivedPath_ext (stem ext : string) :
  occurs dot ext = false →
  derivedPath suffix (stem +:+ String dot ext) = stem +:+ suffix +:+ ext.
Proof.
  intros Hext. unfold derivedPath.
  rewrite split_around, (split_absent _ _ Hext), pop_snoc.
  simpl. change "." with (String dot ""). by rewrite join_split.
Qed.

(** Without any dot the whole path is taken for the extension. *)
Lemma derivedPath_nodot (filePath : string) :
  occurs dot filePath = false →
  derivedPath suffix filePath = suffix +:+ filePath.
Proof.
  intros Hno. unfold derivedPath. by rewrite (split_absent _ _ Hno).
Qed.

Lemma derivedPath_length (filePath : string) :
  String.length (derivedPath suffix filePath) + (if occurs dot filePath then 1 else 0)
  = String.length filePath + String.length suffix.
Proof.
  destruct (occurs dot filePath) eqn:Hdot.
  - destruct (occurs_last _ _ Hdot) as (stem & ext & -> & Hext).
    rewrite (derivedPath_ext _ _ Hext), !length_append. simpl. lia.
  - rewrite (derivedPath_nodot _ Hdot), length_append. lia.
Qed.

Lemma derivedPath_fresh (filePath : string) :
  2 ≤ String.length suffix → derivedPath suffix filePath ≠ filePath.
Proof.
  intros Hlen Heq. pose proof (derivedPath_length filePath) as H.
  rewrite Heq in H. destruct (occurs dot filePath); lia.
Qed.

End DerivedPath.

(** ** The writer *)

Section Writer.
Variables suffix announce : string.

(** The writer targets the derived path. *)
Lemma writeTextFileAs_written (filePath content : string) (w : World) :
  write_fault w (derivedPath suffix filePath) content = None →
  writeTextFileAs suffix announce filePath content w =
    (Return (announce +:+
             paint w green (paint w bold (derivedPath suffix filePath))),
     with_files (<[derivedPath suffix filePath := content]> (files w)) w).
Proof.
  unfold writeTextFileAs, derivedPath, try_catch, bind, writeFile, styled, gets, ret.
  destruct (Js.pop (Js.split dot filePath)) as [popped parts].
  by intros ->.
Qed.

(** A failure of [writeFile] is turned into the returned message, and the
    world is left as it was. *)
Lemma writeTextFileAs_caught (filePath content : string) (w : World) (e : Exn) :
  write_fault w (derivedPath suffix filePath) content = Some e →
  writeTextFileAs suffix announce filePath content w =
    (Return ("Error creating the edited file: " +:+ Exn_toString e), w).
Proof.
  unfold writeTextFileAs, derivedPath, try_catch, bind, writeFile, styled, gets, ret.
  destruct (Js.pop (Js.split dot filePath)) as [popped parts].
  by intros ->.
Qed.

Lemma writeTextFileAs_returns (filePath content : string) (w : World) :
  ∃ msg w', writeTextFileAs suffix announce filePath content w = (Return msg, w').
Proof.
  destruct (write_fault w (derivedPath suffix filePath) content) as [e|] eqn:Hf.
  - rewrite (writeTextFileAs_caught _ _ _ _ Hf). eauto.
  - rewrite (writeTextFileAs_written _ _ _ Hf). eauto.
Qed.

(** Only the derived path can change, and nothing but the files. *)
Lemma writeTextFileAs_frame (filePath content : string) (w : World) :
  let w' := (writeTextFileAs suffix announce filePath content w).2 in
  (∀ other, other ≠ derivedPath suffix filePath → files w' !! other = files w !! other)
  ∧ requests w' = requests w ∧ console w' = console w ∧ backend w' = backend w.
Proof.
  destruct (write_fault w (derivedPath suffix filePath) content) as [e|] eqn:Hf.
  - by rewrite (writeTextFileAs_caught _ _ _ _ Hf).
  - rewrite (writeTextFileAs_written _ _ _ Hf). simpl.
    split; [|done]. intros other Hne. by rewrite lookup_insert_ne.
Qed.

End Writer.

(** ** The handlers, case by case *)

Lemma attempts_sent (format : string) (w : World) (request : ChatRequest) :
  attempts format (with_requests (requests w ++ [request]) w) =
  attempts format w + (if decide (responseFormat request = format) then 1 else 0).
Proof.
  unfold attempts, requestsFor. simpl. rewrite filter_app, length_app.
  f_equal. rewrite filter_cons, filter_nil. by case_decide.
Qed.

Lemma attempts_same (format : string) (w w' : World) :
  requests w' = requests w → attempts format w' = attempts format w.
Proof. unfold attempts, requestsFor. by intros ->. Qed.

Lemma attempts_snoc (format : string) (w w' : World) (request : ChatRequest) :
  requests w' = requests w ++ [request] →
  attempts format w' =
  attempts format w + (if decide (responseFormat request = format) then 1 else 0).
Proof.
  unfold attempts, requestsFor. intros ->. rewrite filter_app, length_app.
  f_equal. rewrite filter_cons, filter_nil. by case_decide.
Qed.

Ltac unfold_effects :=
  unfold readTextFile in *;
  unfold bind, ret, throw, completed, inWorld, getState, setState, gets, modify,
    chat, readFile, styled, logger in *;
  simpl in *.

Ltac split_cases :=
  repeat (match goal with
          | H : context [match ?x with _ => _ end] |- _ => destruct x eqn:?
          | H : context [if ?x then _ else _] |- _ => destruct x eqn:?
          end; simplify_eq/=).

Module EditFacts.
Import Edit.


Lemma edit_handleStart_returns data mc ev mc' :
  handleStart data mc = (Return ev, mc') →
  ∃ fileContent response json valid,
    readTextFile (Start.filePath data) (world mc) = (Return fileContent, world mc) ∧
    backend (world mc) (requests (world mc)) (generationRequest data fileContent)
      = Return response ∧
    JSON_parse response = Return json ∧
    Zod.parse CODE_SCHEMA json = Return valid ∧
    world mc' = with_requests (requests (world mc) ++ [generationRequest data fileContent])
                  (world mc) ∧
    session mc' = mkState (code_content valid) (Start.filePath data)
                    (Start.codeLanguage data) (Start.feature data)
                    (Start.implementationDetails data)
                    (S (numIterations (session mc))) (maxIterations (session mc)) ∧
    ev = (if maxIterations (session mc) <? S (numIterations (session mc))
          then writingEvent (code_content valid)
          else generationEvent (code_content valid)).
Proof.
  unfold handleStart. unfold_effects. intros H. split_cases;
    do 4 eexists; rewrite ?Heqb; split_and!; done.
Qed.


Lemma edit_handleGeneration_returns generated mc ev mc' :
  handleGeneration generated mc = (Return ev, mc') →
  ∃ response json valid,
    backend (world mc) (requests (world mc)) (judgeRequest (session mc) generated)
      = Return response ∧
    JSON_parse response = Return json ∧
    Zod.parse JUDGING_SCHEMA json = Return valid ∧
    world mc' = with_requests (requests (world mc) ++ [judgeRequest (session mc) generated])
                  (world mc) ∧
    session mc' = session mc ∧
    ev = judgingEvent (pass valid) (feedback valid).
Proof.
  unfold handleGeneration. unfold_effects. intros H. split_cases.
  do 3 eexists; split_and!; done.
Qed.

Lemma edit_handleJudging_returns verdict remarks mc :
  handleJudging verdict remarks mc =
    (Return (if verdict then writingEvent (generatedContent (session mc))
             else startEvent (Start.mk (filePath (session mc)) (feature (session mc))
                                (retryDetails (generatedContent (session mc)) remarks)
                                (codeLanguage (session mc)))),
     mc).
Proof. by destruct verdict. Qed.

Lemma edit_handleWriting_returns content mc :
  ∃ msg w',
    writeTextFile (filePath (session mc)) content (world mc) = (Return msg, w') ∧
    handleWriting content mc = (Return (resultEvent msg), mkMachine (session mc) w').
Proof.
  destruct (writeTextFileAs_returns "_edited."
              "Successfully edited your file! Find the edited version at: "
              (filePath (session mc)) content (world mc)) as (msg & w' & Hw).
  exists msg, w'. split; [exact Hw|].
  unfold handleWriting. unfold_effects. unfold writeTextFile. by rewrite Hw.
Qed.

(** The loop body prints and never throws; it touches the console only. *)
Lemma edit_announce_returns iteration event w :
  ∃ iteration' out,
    announce iteration event w = (Return iteration', with_console out w).
Proof.
  destruct event as [data|generated|[] remarks|content|message];
    unfold announce; unfold_effects; eauto.
Qed.


(** The handlers before the writing handler leave the files alone. *)
Lemma edit_handlers_keep_files event handler mc r mc' :
  handle event = Some handler →
  (∀ content, event ≠ writingEvent content) →
  handler mc = (r, mc') →
  files (world mc') = files (world mc).
Proof.
  intros Hh Hnw Hstep.
  destruct event as [data|generated|verdict remarks|content|message];
    simpl in Hh; simplify_eq.
  - unfold handleStart in Hstep. unfold_effects. by split_cases.
  - unfold handleGeneration in Hstep. unfold_effects. by split_cases.
  - rewrite edit_handleJudging_returns in Hstep. by simplify_eq.
  - by destruct (Hnw content).
Qed.

(** A run never changes the file it was started on. *)
Lemma edit_consume_keeps_original (path : string) fuel : ∀ iteration event mc r mc',
  targets path event (session mc) →
  consume fuel iteration event mc = Some (r, mc') →
  files (world mc') !! path = files (world mc) !! path.
Proof.
  induction fuel as [|fuel IH]; intros iteration event mc r mc' Htarget Hrun; [done|].
  destruct (edit_announce_returns iteration event (world mc)) as (it' & out & Hann).
  cbn [consume] in Hrun. unfold inWorld at 1 in Hrun. rewrite Hann in Hrun. clear Hann.
  set (mc1 := mkMachine (session mc) (with_console out (world mc))) in *.
  assert (Hfiles : files (world mc1) = files (world mc)) by done.
  assert (Hses : session mc1 = session mc) by done.
  clearbody mc1. rewrite <- Hfiles. rewrite <- Hses in Htarget. clear Hfiles Hses mc.
  destruct event as [data|generated|verdict remarks|content|message];
    cbn [handle] in Hrun; simpl in Htarget.
  - destruct (handleStart data mc1) as [[next|e] mc2] eqn:Hstep.
    + pose proof (edit_handlers_keep_files (startEvent data) _ _ _ _ eq_refl
                    ltac:(done) Hstep) as Hkeep.
      apply edit_handleStart_returns in Hstep
        as (fc & resp & json & valid & _ & _ & _ & _ & _ & Hs & ->).
      rewrite <- Hkeep. eapply IH; [|exact Hrun]. rewrite Hs; by case_match.
    + pose proof (edit_handlers_keep_files (startEvent data) _ _ _ _ eq_refl
                    ltac:(done) Hstep) as Hkeep.
      simplify_eq. by rewrite Hkeep.
  - destruct (handleGeneration generated mc1) as [[next|e] mc2] eqn:Hstep.
    + pose proof (edit_handlers_keep_files (generationEvent generated) _ _ _ _ eq_refl
                    ltac:(done) Hstep) as Hkeep.
      apply edit_handleGeneration_returns in Hstep
        as (resp & json & valid & _ & _ & _ & _ & Hs & ->).
      rewrite <- Hkeep. eapply IH; [|exact Hrun]. by rewrite Hs.
    + pose proof (edit_handlers_keep_files (generationEvent generated) _ _ _ _ eq_refl
                    ltac:(done) Hstep) as Hkeep.
      simplify_eq. by rewrite Hkeep.
  - rewrite edit_handleJudging_returns in Hrun.
    eapply IH; [|exact Hrun]. by destruct verdict.
  - destruct (edit_handleWriting_returns content mc1) as (msg & w' & Hw & Hstep).
    rewrite Hstep in Hrun.
    pose proof (writeTextFileAs_frame "_edited."
      "Successfully edited your file! Find the edited version at: "
      (filePath (session mc1)) content (world mc1)) as (Hother & _).
    unfold writeTextFile in Hw. rewrite Hw in Hother. simpl in Hother.
    rewrite <- (Hother path);
      [|rewrite <- Htarget; intros Heq; symmetry in Heq; revert Heq;
        apply derivedPath_fresh; simpl; lia].
    exact (IH it' (resultEvent msg) (mkMachine (session mc1) w') r mc' I Hrun).
  - by simplify_eq.
Qed.

End EditFacts.

Module FixFacts.
Import Fix.


Lemma fix_handleStart_returns data mc ev mc' :
  handleStart data mc = (Return ev, mc') →
  ∃ fileContent response json valid,
    readTextFile (Start.filePath data) (world mc) = (Return fileContent, world mc) ∧
    backend (world mc) (requests (world mc)) (evaluationRequest data fileContent)
      = Return response ∧
    JSON_parse response = Return json ∧
    Zod.parse ERROR_SCHEMA json = Return valid ∧
    world mc' = with_requests (requests (world mc) ++ [evaluationRequest data fileContent])
                  (world mc) ∧
    session mc' = mkState (generatedContent (session mc)) (Start.filePath data) fileContent
                    (Start.codeLanguage data) (Start.error data) (Start.errorDetails data)
                    (numIterations (session mc)) (maxIterations (session mc)) ∧
    ev = errorEvaluationEvent (error_explanation valid) (proposed_fix valid).
Proof.
  unfold handleStart. unfold_effects. intros H. split_cases.
  do 4 eexists; split_and!; done.
Qed.


Lemma fix_handleErrorEvaluation_returns explanation proposal mc ev mc' :
  handleErrorEvaluation explanation proposal mc = (Return ev, mc') →
  ∃ response json valid,
    backend (world mc) (requests (world mc))
      (generationRequest (counted (session mc)) explanation proposal) = Return response ∧
    JSON_parse response = Return json ∧
    Zod.parse FIX_SCHEMA json = Return valid ∧
    world mc' = with_requests
                  (requests (world mc) ++
                   [generationRequest (counted (session mc)) explanation proposal])
                  (world mc) ∧
    session mc' = set_generatedContent (fixed_content valid) (counted (session mc)) ∧
    ev = (if maxIterations (session mc) <? S (numIterations (session mc))
          then writingEvent (fixed_content valid)
          else generationEvent (fixed_content valid)).
Proof.
  unfold handleErrorEvaluation. unfold_effects. intros H. split_cases;
    do 3 eexists; rewrite ?Heqb; split_and!; done.
Qed.


Lemma fix_handleGeneration_returns generated mc ev mc' :
  handleGeneration generated mc = (Return ev, mc') →
  ∃ response json valid,
    backend (world mc) (requests (world mc)) (judgeRequest (session mc) generated)
      = Return response ∧
    JSON_parse response = Return json ∧
    Zod.parse JUDGING_SCHEMA json = Return valid ∧
    world mc' = with_requests (requests (world mc) ++ [judgeRequest (session mc) generated])
                  (world mc) ∧
    session mc' = session mc ∧
    ev = judgingEvent (pass valid) (feedback valid).
Proof.
  unfold handleGeneration. unfold_effects. intros H. split_cases.
  do 3 eexists; split_and!; done.
Qed.

Lemma fix_handleJudging_returns verdict remarks mc :
  handleJudging verdict remarks mc =
    (Return (if verdict then writingEvent (generatedContent (session mc))
             else startEvent (Start.mk (filePath (session mc)) (error (session mc))
                                (retryDetails (generatedContent (session mc)) remarks)
                                (codeLanguage (session mc)))),
     mc).
Proof. by destruct verdict. Qed.

Lemma fix_handleWriting_returns content mc :
  ∃ msg w',
    writeTextFile (filePath (session mc)) content (world mc) = (Return msg, w') ∧
    handleWriting content mc = (Return (resultEvent msg), mkMachine (session mc) w').
Proof.
  destruct (writeTextFileAs_returns "_fixed."
              "Successfully fixed your file! Find the fixed version at: "
              (filePath (session mc)) content (world mc)) as (msg & w' & Hw).
  exists msg, w'. split; [exact Hw|].
  unfold handleWriting. unfold_effects. unfold writeTextFile. by rewrite Hw.
Qed.

Lemma fix_announce_returns iteration event w :
  ∃ iteration' out,
    announce iteration event w = (Return iteration', with_console out w).
Proof.
  destruct event as [data|explanation proposal|generated|[] remarks|content|message];
    unfold announce; unfold_effects; eauto.
Qed.


(** The handlers before the writing handler leave the files alone. *)
Lemma fix_handlers_keep_files event handler mc r mc' :
  handle event = Some handler →
  (∀ content, event ≠ writingEvent content) →
  handler mc = (r, mc') →
  files (world mc') = files (world mc).
Proof.
  intros Hh Hnw Hstep.
  destruct event as [data|explanation proposal|generated|verdict remarks|content|message];
    simpl in Hh; simplify_eq.
  - unfold handleStart in Hstep. unfold_effects. by split_cases.
  - unfold handleErrorEvaluation in Hstep. unfold_effects. by split_cases.
  - unfold handleGeneration in Hstep. unfold_effects. by split_cases.
  - rewrite fix_handleJudging_returns in Hstep. by simplify_eq.
  - by destruct (Hnw content).
Qed.

(** A run never changes the file it was started on. *)
Lemma fix_consume_keeps_original (path : string) fuel : ∀ iteration event mc r mc',
  targets path event (session mc) →
  consume fuel iteration event mc = Some (r, mc') →
  files (world mc') !! path = files (world mc) !! path.
Proof.
  induction fuel as [|fuel IH]; intros iteration event mc r mc' Htarget Hrun; [done|].
  destruct (fix_announce_returns iteration event (world mc)) as (it' & out & Hann).
  cbn [consume] in Hrun. unfold inWorld at 1 in Hrun. rewrite Hann in Hrun. clear Hann.
  set (mc1 := mkMachine (session mc) (with_console out (world mc))) in *.
  assert (Hfiles : files (world mc1) = files (world mc)) by done.
  assert (Hses : session mc1 = session mc) by done.
  clearbody mc1. rewrite <- Hfiles. rewrite <- Hses in Htarget. clear Hfiles Hses mc.
  destruct event as [data|explanation proposal|generated|verdict remarks|content|message];
    cbn [handle] in Hrun; simpl in Htarget.
  - destruct (handleStart data mc1) as [[next|e] mc2] eqn:Hstep.
    + pose proof (fix_handlers_keep_files (startEvent data) _ _ _ _ eq_refl
                    ltac:(done) Hstep) as Hkeep.
      apply fix_handleStart_returns in Hstep
        as (fc & resp & json & valid & _ & _ & _ & _ & _ & Hs & ->).
      rewrite <- Hkeep. eapply IH; [|exact Hrun]. by rewrite Hs.
    + pose proof (fix_handlers_keep_files (startEvent data) _ _ _ _ eq_refl
                    ltac:(done) Hstep) as Hkeep.
      simplify_eq. by rewrite Hkeep.
  - destruct (handleErrorEvaluation explanation proposal mc1) as [[next|e] mc2] eqn:Hstep.
    + pose proof (fix_handlers_keep_files (errorEvaluationEvent explanation proposal)
                    _ _ _ _ eq_refl ltac:(done) Hstep) as Hkeep.
      apply fix_handleErrorEvaluation_returns in Hstep
        as (resp & json & valid & _ & _ & _ & _ & Hs & ->).
      rewrite <- Hkeep. eapply IH; [|exact Hrun]. rewrite Hs; by case_match.
    + pose proof (fix_handlers_keep_files (errorEvaluationEvent explanation proposal)
                    _ _ _ _ eq_refl ltac:(done) Hstep) as Hkeep.
      simplify_eq. by rewrite Hkeep.
  - destruct (handleGeneration generated mc1) as [[next|e] mc2] eqn:Hstep.
    + pose proof (fix_handlers_keep_files (generationEvent generated) _ _ _ _ eq_refl
                    ltac:(done) Hstep) as Hkeep.
      apply fix_handleGeneration_returns in Hstep
        as (resp & json & valid & _ & _ & _ & _ & Hs & ->).
      rewrite <- Hkeep. eapply IH; [|exact Hrun]. by rewrite Hs.
    + pose proof (fix_handlers_keep_files (generationEvent generated) _ _ _ _ eq_refl
                    ltac:(done) Hstep) as Hkeep.
      simplify_eq. by rewrite Hkeep.
  - rewrite fix_handleJudging_returns in Hrun.
    eapply IH; [|exact Hrun]. by destruct verdict.
  - destruct (fix_handleWriting_returns content mc1) as (msg & w' & Hw & Hstep).
    rewrite Hstep in Hrun.
    pose proof (writeTextFileAs_frame "_fixed."
      "Successfully fixed your file! Find the fixed version at: "
      (filePath (session mc1)) content (world mc1)) as (Hother & _).
    unfold writeTextFile in Hw. rewrite Hw in Hother. simpl in Hother.
    rewrite <- (Hother path);
      [|rewrite <- Htarget; intros Heq; symmetry in Heq; revert Heq;
        apply derivedPath_fresh; simpl; lia].
    exact (IH it' (resultEvent msg) (mkMachine (session mc1) w') r mc' I Hrun).
  - by simplify_eq.
Qed.

End FixFacts.

(** ** The schemas report what they reject *)

Section SchemaFacts.

Lemma both_inr {A B : Type} (ra : Zod.Result A) (rb : Zod.Result B) (a : A) (b : B) :
  Zod.both ra rb = inr (a, b) ↔ ra = inr a ∧ rb = inr b.
Proof.
  destruct ra, rb; simpl; split; try (intros [??]; by simplify_eq);
    intros ?; by simplify_eq.
Qed.

Lemma both_inl_nonempty {A B : Type} (ra : Zod.Result A) (rb : Zod.Result B) issues :
  (∀ ia, ra = inl ia → ia ≠ []) → (∀ ib, rb = inl ib → ib ≠ []) →
  Zod.both ra rb = inl issues → issues ≠ [].
Proof.
  intros Ha Hb. destruct ra as [ia|a], rb as [ib|b]; simpl; intros Hboth; simplify_eq.
  - intros [Hia _]%app_eq_nil. by apply (Ha ia).
  - by apply Ha.
  - by apply Hb.
Qed.

Lemma string_reportsIssues : reportsIssues Zod.string_.
Proof. intros path [[]|] issues; simpl; intros ?; by simplify_eq. Qed.

Lemma boolean_reportsIssues : reportsIssues Zod.boolean.
Proof. intros path [[]|] issues; simpl; intros ?; by simplify_eq. Qed.

Lemma array_reportsIssues {A : Type} (elem : Zod.Schema A) :
  reportsIssues elem → reportsIssues (Zod.array elem).
Proof.
  intros Helem path input issues. unfold Zod.array.
  destruct input as [[| | | |items|]|]; try (intros ?; by simplify_eq).
  generalize 0. revert issues.
  induction items as [|x items IH]; intros issues i; simpl; [done|].
  destruct (Zod.both _ _) as [ib|[a l]] eqn:Hboth; simpl; intros ?; simplify_eq.
  eapply both_inl_nonempty; [| |exact Hboth];
    [apply Helem | intros ib Hib; by apply (IH ib (S i))].
Qed.

Lemma prop_reportsIssues {A : Type} (name : string) (schema : Zod.Schema A) :
  reportsIssues schema → shapeReportsIssues (Zod.prop name schema).
Proof. intros Hs path obj issues. apply Hs. Qed.

Lemma and_prop_reportsIssues {A B : Type} (sa : Zod.Shape A) (sb : Zod.Shape B) :
  shapeReportsIssues sa → shapeReportsIssues sb → shapeReportsIssues (Zod.and_prop sa sb).
Proof.
  intros Ha Hb path obj issues. unfold Zod.and_prop.
  apply both_inl_nonempty; [apply Ha | apply Hb].
Qed.

Lemma object_reportsIssues {A B : Type} (shape : Zod.Shape A) (build : A → B) :
  shapeReportsIssues shape → reportsIssues (Zod.object shape build).
Proof.
  intros Hs path input issues. unfold Zod.object.
  destruct input as [[| | | | |obj]|]; try (intros ?; by simplify_eq).
  destruct (shape path obj) as [ia|a] eqn:Hshape; simpl; intros ?; simplify_eq.
  by apply (Hs path obj).
Qed.

(** An array of strings is checked element by element. *)
Lemma elements_strings (path : list PathSeg) (items : list Json) : ∀ i,
  Zod.elements Zod.string_ path i items =
    match stringIssues path i items with
    | [] => inr (omap (fun x => match x with JString s => Some s | _ => None end) items)
    | issues => inl issues
    end.
Proof.
  induction items as [|x items IH]; intros i; [done|].
  cbn [Zod.elements stringIssues]. rewrite IH.
  destruct x; simpl; by destruct (stringIssues path (S i) items).
Qed.

Lemma stringIssues_length (path : list PathSeg) (items : list Json) : ∀ i,
  length (stringIssues path i items) = length (filter (fun x => isString x = false) items).
Proof.
  induction items as [|x items IH]; intros i; [done|].
  rewrite filter_cons.
  destruct x; cbn [stringIssues]; case_decide as Hd; simpl in Hd; try done;
    simpl; by rewrite IH.
Qed.

End SchemaFacts.

(** ** Finding a text in a message *)

Section Includes.

Lemma prefix_append (x y : string) : String.prefix x (x +:+ y) = true.
Proof.
  induction x as [|c x IH]; [by destruct y|].
  rewrite append_cons. simpl. by destruct (ascii_dec c c).
Qed.

Lemma includes_here (x y : string) : Js.includes x (x +:+ y) = true.
Proof.
  assert (∀ hay, String.prefix x hay = true → Js.includes x hay = true) as Hhere
    by (intros hay Hp; destruct hay; cbn [Js.includes]; by rewrite Hp).
  apply Hhere, prefix_append.
Qed.

Lemma includes_skip (x a y : string) :
  Js.includes x y = true → Js.includes x (a +:+ y) = true.
Proof.
  intros Hy. induction a as [|c a IH]; [done|].
  rewrite append_cons. simpl. rewrite IH. apply orb_true_r.
Qed.

Lemma includes_last (x : string) : Js.includes x x = true.
Proof. rewrite <- (append_nil_r x) at 2. apply includes_here. Qed.

End Includes.

Ltac find_text :=
  rewrite ?append_assoc;
  repeat first [ apply includes_last | apply includes_here | apply includes_skip ].

Lemma silentAbout_user (text system user format : string) (model : string) :
  Js.includes text user = true →
  silentAbout text (mkRequest model [mkMessage "system" system; mkMessage "user" user] format)
  = false.
Proof. intros H. unfold silentAbout. simpl. rewrite H. simpl. apply andb_false_r. Qed.

(** ** A handler that throws *)

Lemma JSON_parse_throws (response : MessageContent) (e : Exn) :
  JSON_parse response = Throw e → ∃ message, e = SyntaxError message.
Proof. destruct response; simpl; intros ?; simplify_eq. eauto. Qed.

Lemma parse_throws {A : Type} (schema : Zod.Schema A) (json : Json) (e : Exn) :
  reportsIssues schema →
  Zod.parse schema json = Throw e → ∃ errors, e = ZodError errors ∧ errors ≠ [].
Proof.
  intros Hs. unfold Zod.parse.
  destruct (schema [] (Some json)) as [issues|a] eqn:Hrun; intros ?; simplify_eq.
  exists issues. split; [done|]. by apply (Hs [] (Some json)).
Qed.

Ltac schema_reports :=
  apply object_reportsIssues;
  repeat first [ apply and_prop_reportsIssues | apply prop_reportsIssues
               | apply array_reportsIssues | apply string_reportsIssues
               | apply boolean_reportsIssues ].

Ltac name_cause :=
  unfold failureCause, readFails, readFile;
  match goal with
  | H : JSON_parse _ = Throw _ |- _ =>
      apply JSON_parse_throws in H; right; right; left; exact H
  | H : Zod.parse _ _ = Throw _ |- _ =>
      apply parse_throws in H; [right; right; right; exact H | schema_reports]
  | Hb : backend ?w = backend _, H : backend ?w _ _ = Throw _ |- _ =>
      rewrite Hb in H; right; left; eauto
  | Hf : read_fault ?w = read_fault _, H : read_fault ?w _ = Some _ |- _ =>
      rewrite Hf in H; left; by rewrite H
  | Hf : read_fault ?w = read_fault _, Hd : files ?w = files _,
    H : files ?w !! _ = None, H' : read_fault ?w _ = None |- _ =>
      rewrite Hf in H'; rewrite Hd in H; left; by rewrite H', H
  end.

Module EditFailure.
Import Edit EditFacts.

Lemma edit_handler_throws (w0 : World) (path : string) event handler mc e mc' :
  handle event = Some handler →
  targets path event (session mc) →
  sameSources w0 (world mc) →
  handler mc = (Throw e, mc') →
  failureCause w0 path e.
Proof.
  intros Hh Htarget (Hfiles & Hfault & Hback) Hstep.
  destruct event as [data|generated|verdict remarks|content|message];
    simpl in Hh, Htarget; simplify_eq.
  - unfold handleStart in Hstep. unfold_effects.
    split_cases; name_cause.
  - unfold handleGeneration in Hstep. unfold_effects.
    split_cases; name_cause.
  - by rewrite edit_handleJudging_returns in Hstep.
  - destruct (edit_handleWriting_returns content mc) as (msg & w' & _ & Hret).
    by rewrite Hret in Hstep.
Qed.

(** The loop body never throws, so a run is never rejected. *)
Lemma edit_consume_never_rejects fuel : ∀ iteration event mc e mc',
  consume fuel iteration event mc ≠ Some (Settled (Throw e), mc').
Proof.
  induction fuel as [|fuel IH]; intros iteration event mc e mc' Hrun; [done|].
  destruct (edit_announce_returns iteration event (world mc)) as (it' & out & Hann).
  cbn [consume] in Hrun. unfold inWorld at 1 in Hrun. rewrite Hann in Hrun. clear Hann.
  destruct (handle event) as [handler|]; [|done].
  destruct (handler _) as [[next|e'] mc2]; [|done].
  by apply IH in Hrun.
Qed.

(** A run is left pending by the exception of a handler only. *)
Lemma edit_consume_throws (w0 : World) (path : string) fuel :
  ∀ iteration event mc e mc',
    targets path event (session mc) →
    sameSources w0 (world mc) →
    consume fuel iteration event mc = Some (Pending e, mc') →
    failureCause w0 path e.
Proof.
  induction fuel as [|fuel IH]; intros iteration event mc e mc' Htarget Hsrc Hrun; [done|].
  destruct (edit_announce_returns iteration event (world mc)) as (it' & out & Hann).
  cbn [consume] in Hrun. unfold inWorld at 1 in Hrun. rewrite Hann in Hrun. clear Hann.
  set (mc1 := mkMachine (session mc) (with_console out (world mc))) in *.
  assert (Hsrc1 : sameSources w0 (world mc1)) by exact Hsrc.
  change (session mc) with (session mc1) in Htarget. clearbody mc1. clear Hsrc mc.
  destruct (handle event) as [handler|] eqn:Hh; [|done].
  destruct (handler mc1) as [[next|e'] mc2] eqn:Hstep.
  - destruct event as [data|generated|verdict remarks|content|message];
      simpl in Hh, Htarget; simplify_eq.
    + apply edit_handleStart_returns in Hstep
        as (fc & resp & json & valid & _ & _ & _ & _ & Hw & Hs & ->).
      eapply IH; [| |exact Hrun]; [rewrite Hs; by case_match | by rewrite Hw].
    + apply edit_handleGeneration_returns in Hstep
        as (resp & json & valid & _ & _ & _ & Hw & Hs & ->).
      eapply IH; [| |exact Hrun]; [by rewrite Hs | by rewrite Hw].
    + rewrite edit_handleJudging_returns in Hstep. simplify_eq.
      eapply IH; [| |exact Hrun]; [by destruct verdict | done].
    + destruct (edit_handleWriting_returns content mc1) as (msg & w' & _ & Hret).
      rewrite Hret in Hstep. simplify_eq.
      destruct fuel as [|fuel]; [done|]. cbn [consume handle] in Hrun.
      simpl in Hrun. by simplify_eq.
  - simplify_eq. by eapply edit_handler_throws.
Qed.

End EditFailure.

Module FixFailure.
Import Fix FixFacts.

Lemma fix_handler_throws (w0 : World) (path : string) event handler mc e mc' :
  handle event = Some handler →
  targets path event (session mc) →
  sameSources w0 (world mc) →
  handler mc = (Throw e, mc') →
  failureCause w0 path e.
Proof.
  intros Hh Htarget (Hfiles & Hfault & Hback) Hstep.
  destruct event as [data|explanation proposal|generated|verdict remarks|content|message];
    simpl in Hh, Htarget; simplify_eq.
  - unfold handleStart in Hstep. unfold_effects.
    split_cases; name_cause.
  - unfold handleErrorEvaluation in Hstep. unfold_effects.
    split_cases; name_cause.
  - unfold handleGeneration in Hstep. unfold_effects.
    split_cases; name_cause.
  - by rewrite fix_handleJudging_returns in Hstep.
  - destruct (fix_handleWriting_returns content mc) as (msg & w' & _ & Hret).
    by rewrite Hret in Hstep.
Qed.

(** The loop body never throws, so a run is never rejected. *)
Lemma fix_consume_never_rejects fuel : ∀ iteration event mc e mc',
  consume fuel iteration event mc ≠ Some (Settled (Throw e), mc').
Proof.
  induction fuel as [|fuel IH]; intros iteration event mc e mc' Hrun; [done|].
  destruct (fix_announce_returns iteration event (world mc)) as (it' & out & Hann).
  cbn [consume] in Hrun. unfold inWorld at 1 in Hrun. rewrite Hann in Hrun. clear Hann.
  destruct (handle event) as [handler|]; [|done].
  destruct (handler _) as [[next|e'] mc2]; [|done].
  by apply IH in Hrun.
Qed.

(** A run is left pending by the exception of a handler only. *)
Lemma fix_consume_throws (w0 : World) (path : string) fuel :
  ∀ iteration event mc e mc',
    targets path event (session mc) →
    sameSources w0 (world mc) →
    consume fuel iteration event mc = Some (Pending e, mc') →
    failureCause w0 path e.
Proof.
  induction fuel as [|fuel IH]; intros iteration event mc e mc' Htarget Hsrc Hrun; [done|].
  destruct (fix_announce_returns iteration event (world mc)) as (it' & out & Hann).
  cbn [consume] in Hrun. unfold inWorld at 1 in Hrun. rewrite Hann in Hrun. clear Hann.
  set (mc1 := mkMachine (session mc) (with_console out (world mc))) in *.
  assert (Hsrc1 : sameSources w0 (world mc1)) by exact Hsrc.
  change (session mc) with (session mc1) in Htarget. clearbody mc1. clear Hsrc mc.
  destruct (handle event) as [handler|] eqn:Hh; [|done].
  destruct (handler mc1) as [[next|e'] mc2] eqn:Hstep.
  - destruct event as [data|explanation proposal|generated|verdict remarks|content|message];
      simpl in Hh, Htarget; simplify_eq.
    + apply fix_handleStart_returns in Hstep
        as (fc & resp & json & valid & _ & _ & _ & _ & Hw & Hs & ->).
      eapply IH; [| |exact Hrun]; [by rewrite Hs | by rewrite Hw].
    + apply fix_handleErrorEvaluation_returns in Hstep
        as (resp & json & valid & _ & _ & _ & Hw & Hs & ->).
      eapply IH; [| |exact Hrun]; [rewrite Hs; by case_match | by rewrite Hw].
    + apply fix_handleGeneration_returns in Hstep
        as (resp & json & valid & _ & _ & _ & Hw & Hs & ->).
      eapply IH; [| |exact Hrun]; [by rewrite Hs | by rewrite Hw].
    + rewrite fix_handleJudging_returns in Hstep. simplify_eq.
      eapply IH; [| |exact Hrun]; [by destruct verdict | done].
    + destruct (fix_handleWriting_returns content mc1) as (msg & w' & _ & Hret).
      rewrite Hret in Hstep. simplify_eq.
      destruct fuel as [|fuel]; [done|]. cbn [consume handle] in Hrun.
      simpl in Hrun. by simplify_eq.
  - simplify_eq. by eapply fix_handler_throws.
Qed.

End FixFailure.

(** * The claims *)

(** ** Termination and the cap on generation attempts *)



(** The bound of four generation requests is reached when the judge never
    passes, and the fuel of C1 cannot be lowered. *)
Example four_generations_reached :
  (∃ mc', Edit.runWorkflow 12 "foo.py" "feat" "details" "python" Sample.stubborn
            = Some (Settled (Return tt), mc') ∧ attempts "CODE_SCHEMA" (world mc') = 4) ∧
  Edit.runWorkflow 11 "foo.py" "feat" "details" "python" Sample.stubborn = None ∧
  (∃ mc', Fix.runWorkflow 16 "foo.py" "boom" "details" "python" Sample.stubborn
            = Some (Settled (Return tt), mc') ∧ attempts "FIX_SCHEMA" (world mc') = 4) ∧
  Fix.runWorkflow 15 "foo.py" "boom" "details" "python" Sample.stubborn = None.
Proof.
  split_and!.
  - eexists. split; [vm_compute; reflexivity|]. vm_compute. reflexivity.
  - vm_compute. reflexivity.
  - eexists. split; [vm_compute; reflexivity|]. vm_compute. reflexivity.
  - vm_compute. reflexivity.
Qed.


(** ** The writer: output path, content, failures, the original file *)

(** C3. When the write goes through, [writeTextFile] of the edit command
    called on [foo.py] leaves a file [foo_edited.py], that of the fix command
    a file [foo_fixed.py], each holding exactly the content it was given; so
    does the writing handler when the session is about [foo.py]. *)
Theorem C3_foo_py_gets_suffixed_copy (content : string) (w : World)
    (Hedit : write_fault w "foo_edited.py" content = None)
    (Hfix : write_fault w "foo_fixed.py" content = None) :
  (∃ msg w',
     Edit.writeTextFile "foo.py" content w = (Return msg, w') ∧
     files w' = <["foo_edited.py" := content]> (files w) ∧
     files w' !! "foo_edited.py" = Some content ∧
     ∀ state, Edit.filePath state = "foo.py" →
       Edit.handleWriting content (mkMachine state w)
       = (Return (Edit.resultEvent msg), mkMachine state w')) ∧
  (∃ msg w',
     Fix.writeTextFile "foo.py" content w = (Return msg, w') ∧
     files w' = <["foo_fixed.py" := content]> (files w) ∧
     files w' !! "foo_fixed.py" = Some content ∧
     ∀ state, Fix.filePath state = "foo.py" →
       Fix.handleWriting content (mkMachine state w)
       = (Return (Fix.resultEvent msg), mkMachine state w')).
Proof.
  split.
  - pose proof (writeTextFileAs_written "_edited."
      "Successfully edited your file! Find the edited version at: " "foo.py" content w Hedit)
      as Hw.
    eexists _, _. split; [exact Hw|]. split; [reflexivity|].
    split; [apply lookup_insert_eq|].
    intros state Hpath. unfold Edit.handleWriting, Edit.writeTextFile.
    unfold_effects. by rewrite Hpath, Hw.
  - pose proof (writeTextFileAs_written "_fixed."
      "Successfully fixed your file! Find the fixed version at: " "foo.py" content w Hfix)
      as Hw.
    eexists _, _. split; [exact Hw|]. split; [reflexivity|].
    split; [apply lookup_insert_eq|].
    intros state Hpath. unfold Fix.handleWriting, Fix.writeTextFile.
    unfold_effects. by rewrite Hpath, Hw.
Qed.

Lemma C3_witness :
  (Edit.writeTextFile "foo.py" "print(2)" Sample.lenient).1
    = Return "Successfully edited your file! Find the edited version at: foo_edited.py" ∧
  ∃ w', (Fix.writeTextFile "foo.py" "print(2)" Sample.lenient).2 = w' ∧
        files w' !! "foo_fixed.py" = Some "print(2)".
Proof.
  split; [reflexivity|].
  destruct (C3_foo_py_gets_suffixed_copy "print(2)" Sample.lenient eq_refl eq_refl)
    as (_ & msg & w' & Hw & _ & Hget & _).
  exists w'. split; [by rewrite Hw | exact Hget].
Defined.

(** C4, on a path without extension.  The writer takes the whole path for the
    extension and puts the suffix in front of it: [Makefile] becomes
    [_edited.Makefile], and [out.d/Makefile], whose only dot is in the
    directory, becomes [out_edited.d/Makefile], a file of another directory.
    Neither is the original name followed by the suffix. *)
Theorem C4_path_without_extension (content : string) :
  editedPath "Makefile" = "_edited.Makefile" ∧
  fixedPath "Makefile" = "_fixed.Makefile" ∧
  editedPath "out.d/Makefile" = "out_edited.d/Makefile" ∧
  fixedPath "./Makefile" = "_fixed./Makefile" ∧
  files (Edit.writeTextFile "Makefile" content Sample.bare).2
    = {[ "_edited.Makefile" := content ]} ∧
  files (Fix.writeTextFile "out.d/Makefile" content Sample.bare).2
    = {[ "out_fixed.d/Makefile" := content ]}.
Proof.
  split_and!; reflexivity.
Qed.

(** C5. The writer always returns a message: a failure of the write is
    caught, and the message then is the fixed prefix followed by the text of
    the error, with the world left as it was. *)
Theorem C5_writer_returns_error_as_string (filePath content : string) (w : World) :
  (∃ msg w',
     Edit.writeTextFile filePath content w = (Return msg, w') ∧
     ∀ e, write_fault w (editedPath filePath) content = Some e →
          msg = "Error creating the edited file: " +:+ Exn_toString e ∧ w' = w) ∧
  (∃ msg w',
     Fix.writeTextFile filePath content w = (Return msg, w') ∧
     ∀ e, write_fault w (fixedPath filePath) content = Some e →
          msg = "Error creating the edited file: " +:+ Exn_toString e ∧ w' = w).
Proof.
  split.
  - destruct (writeTextFileAs_returns "_edited."
      "Successfully edited your file! Find the edited version at: " filePath content w)
      as (msg & w' & Hw).
    exists msg, w'. split; [exact Hw|]. intros e He.
    unfold Edit.writeTextFile in *.
    rewrite (writeTextFileAs_caught _ _ _ _ _ _ He) in Hw. by simplify_eq.
  - destruct (writeTextFileAs_returns "_fixed."
      "Successfully fixed your file! Find the fixed version at: " filePath content w)
      as (msg & w' & Hw).
    exists msg, w'. split; [exact Hw|]. intros e He.
    unfold Fix.writeTextFile in *.
    rewrite (writeTextFileAs_caught _ _ _ _ _ _ He) in Hw. by simplify_eq.
Qed.

Lemma C5_witness :
  ∃ w', Edit.writeTextFile "foo.py" "print(2)" Sample.readOnly
        = (Return "Error creating the edited file: Error: EACCES: permission denied, open 'foo_edited.py'",
           w') ∧ w' = Sample.readOnly.
Proof.
  destruct (C5_writer_returns_error_as_string "foo.py" "print(2)" Sample.readOnly)
    as ((msg & w' & Hw & Hcaught) & _).
  destruct (Hcaught _ eq_refl) as [-> ->].
  exists Sample.readOnly. split; [exact Hw | reflexivity].
Defined.

(** C9. The derived path never equals the path it is derived from, so the
    writer leaves the file at the input path as it was; and so does a whole
    run of the edit or of the fix workflow started on that path, however it
    ends. *)
Theorem C9_original_file_untouched (filePath content : string) (w : World) :
  editedPath filePath ≠ filePath ∧
  fixedPath filePath ≠ filePath ∧
  files (Edit.writeTextFile filePath content w).2 !! filePath = files w !! filePath ∧
  files (Fix.writeTextFile filePath content w).2 !! filePath = files w !! filePath ∧
  (∀ fuel task details codeLanguage r mc',
     Edit.runWorkflow fuel filePath task details codeLanguage w = Some (r, mc') →
     files (world mc') !! filePath = files w !! filePath) ∧
  (∀ fuel task details codeLanguage r mc',
     Fix.runWorkflow fuel filePath task details codeLanguage w = Some (r, mc') →
     files (world mc') !! filePath = files w !! filePath).
Proof.
  assert (He : editedPath filePath ≠ filePath) by (apply derivedPath_fresh; simpl; lia).
  assert (Hf : fixedPath filePath ≠ filePath) by (apply derivedPath_fresh; simpl; lia).
  split_and!; [exact He | exact Hf | | | |].
  - apply (writeTextFileAs_frame "_edited."
             "Successfully edited your file! Find the edited version at: " filePath content w).
    intros Heq. by apply He.
  - apply (writeTextFileAs_frame "_fixed."
             "Successfully fixed your file! Find the fixed version at: " filePath content w).
    intros Heq. by apply Hf.
  - intros fuel task details codeLanguage r mc' Hrun.
    unfold Edit.runWorkflow in Hrun.
    by apply (EditFacts.edit_consume_keeps_original filePath) in Hrun.
  - intros fuel task details codeLanguage r mc' Hrun.
    unfold Fix.runWorkflow in Hrun.
    by apply (FixFacts.fix_consume_keeps_original filePath) in Hrun.
Qed.

Lemma C9_witness :
  ∃ mc',
    Edit.runWorkflow 12 "foo.py" "feat" "details" "python" Sample.lenient
      = Some (Settled (Return tt), mc') ∧
    files (world mc') !! "foo.py" = Some "print(1)".
Proof.
  assert (∃ mc', Edit.runWorkflow 12 "foo.py" "feat" "details" "python" Sample.lenient
                 = Some (Settled (Return tt), mc')) as [mc' Hrun]
    by (eexists; vm_compute; reflexivity).
  exists mc'. split; [exact Hrun|].
  destruct (C9_original_file_untouched "foo.py" "" Sample.lenient)
    as (_ & _ & _ & _ & Hedit & _).
  rewrite (Hedit 12 "feat" "details" "python" _ _ Hrun). reflexivity.
Defined.

(** ** Reading the target file *)

(** C10 as stated fails for the edit and the fix command: there the read
    is made by the start handler of the workflow, and the exception of a
    handler reaches nobody.  With no file at the path, the command handler
    is not rejected with the error of the read, whatever the number of
    events: it is left pending on it. *)
Lemma C10_counterexample :
  (∃ w', Edit.handler 12 "python" "nope.py" "feat" "details" Sample.bare
         = Some (Pending (SystemError "ENOENT" "no such file or directory, open 'nope.py'"),
                 w')) ∧
  ¬ (∃ fuel e w', Edit.handler fuel "python" "nope.py" "feat" "details" Sample.bare
                  = Some (Settled (Throw e), w')).
Proof.
  split.
  - eexists. vm_compute. reflexivity.
  - intros (fuel & e & w' & Hrun). destruct fuel as [|fuel]; [done|].
    unfold Edit.handler, Edit.runWorkflow in Hrun.
    cbn [Edit.consume Edit.handle] in Hrun. vm_compute in Hrun. done.
Qed.

(** C10, amended.  [readTextFile] has no guard: when reading the file fails,
    the exception is what [readTextFile] completes with, where the writer
    would have returned a message.  In the explain command it leaves the
    command handler as its own completion.  In the edit and fix commands it
    is thrown inside the start handler of the workflow and is caught by
    nobody: the command handler is left pending on it. *)
Theorem C10_read_failure_is_not_caught
    (w : World) (filePath : string) (e : Exn) (codeLanguage level task details : string)
    (fuel : nat) (Hread : readFails w filePath e) :
  readTextFile filePath w = (Throw e, w) ∧
  (∃ w', Explain.handler codeLanguage level filePath task w = (Throw e, w')) ∧
  (∃ w', Edit.handler (S fuel) codeLanguage filePath task details w = Some (Pending e, w')) ∧
  (∃ w', Fix.handler (S fuel) codeLanguage filePath task details w = Some (Pending e, w')).
Proof.
  unfold readFails in Hread.
  unfold Explain.handler, Explain.explainCode, Explain.rule,
    Edit.handler, Edit.runWorkflow, Fix.handler, Fix.runWorkflow.
  cbn [Edit.consume Fix.consume Edit.handle Fix.handle Edit.announce Fix.announce].
  unfold Edit.handleStart, Fix.handleStart.
  unfold_effects.
  destruct (read_fault w filePath) as [fault|]; [|destruct (files w !! filePath)];
    simpl in Hread; simplify_eq; split_and!; solve [done | eexists; reflexivity].
Qed.

Lemma C10_witness :
  ∃ w', Fix.handler 16 "python" "nope.py" "boom" "details" Sample.bare
        = Some (Pending (SystemError "ENOENT" "no such file or directory, open 'nope.py'"),
                w').
Proof.
  destruct (C10_read_failure_is_not_caught Sample.bare "nope.py"
              (SystemError "ENOENT" "no such file or directory, open 'nope.py'")
              "python" "beginner" "boom" "details" 15 eq_refl)
    as (_ & _ & _ & Hfix).
  exact Hfix.
Defined.

(** ** Malformed responses *)

Ltac reject_malformed :=
  unfold rejected, malformed, is_Throw in *; unfold_effects; split_cases;
  repeat match goal with
         | H : backend _ _ _ = Return _ |- _ => rewrite H; clear H
         | H : JSON_parse _ = _ |- _ => rewrite H; clear H
         | H : Zod.parse _ _ = _ |- _ => rewrite H; clear H
         end;
  simpl; try done.

(** C6. A response that [JSON.parse] or the schema rejects makes the handler
    throw at that point, and the session state is then what it was before
    the response came in: unchanged in four of the five handlers that parse a
    response, and with nothing but the counter stepped, which the
    [errorEvaluationEvent] handler does before it sends its request, in the
    fifth. *)
Theorem C6_malformed_response_never_reaches_state :
  (∀ data mc fileContent response,
     readTextFile (Edit.Start.filePath data) (world mc) = (Return fileContent, world mc) →
     backend (world mc) (requests (world mc)) (Edit.generationRequest data fileContent)
       = Return response →
     malformed Edit.CODE_SCHEMA response →
     rejected (Edit.handleStart data mc) (session mc)) ∧
  (∀ generated mc response,
     backend (world mc) (requests (world mc)) (Edit.judgeRequest (session mc) generated)
       = Return response →
     malformed Edit.JUDGING_SCHEMA response →
     rejected (Edit.handleGeneration generated mc) (session mc)) ∧
  (∀ data mc fileContent response,
     readTextFile (Fix.Start.filePath data) (world mc) = (Return fileContent, world mc) →
     backend (world mc) (requests (world mc)) (Fix.evaluationRequest data fileContent)
       = Return response →
     malformed Fix.ERROR_SCHEMA response →
     rejected (Fix.handleStart data mc) (session mc)) ∧
  (∀ explanation proposal mc response,
     backend (world mc) (requests (world mc))
       (Fix.generationRequest (Fix.counted (session mc)) explanation proposal)
       = Return response →
     malformed Fix.FIX_SCHEMA response →
     rejected (Fix.handleErrorEvaluation explanation proposal mc)
       (Fix.set_numIterations (S (Fix.numIterations (session mc))) (session mc))) ∧
  (∀ generated mc response,
     backend (world mc) (requests (world mc)) (Fix.judgeRequest (session mc) generated)
       = Return response →
     malformed Fix.JUDGING_SCHEMA response →
     rejected (Fix.handleGeneration generated mc) (session mc)).
Proof.
  split_and!.
  - intros data mc fileContent response Hread Hreply Hbad.
    unfold Edit.handleStart. reject_malformed.
  - intros generated mc response Hreply Hbad.
    unfold Edit.handleGeneration. reject_malformed.
  - intros data mc fileContent response Hread Hreply Hbad.
    unfold Fix.handleStart. reject_malformed.
  - intros explanation proposal mc response Hreply Hbad.
    unfold Fix.handleErrorEvaluation, Fix.counted in *. reject_malformed.
  - intros generated mc response Hreply Hbad.
    unfold Fix.handleGeneration. reject_malformed.
Qed.

Lemma C6_witness :
  rejected (Edit.handleStart (Edit.Start.mk "foo.py" "feat" "details" "python")
              (mkMachine Edit.initialState Sample.careless))
           Edit.initialState ∧
  rejected (Fix.handleErrorEvaluation "why" "how" (mkMachine Fix.initialState Sample.careless))
           (Fix.mkState "" "" "" "" "" "" 1 3).
Proof.
  pose proof C6_malformed_response_never_reaches_state as (Hedit & _ & _ & Hfix & _).
  split.
  - apply (Hedit (Edit.Start.mk "foo.py" "feat" "details" "python")
             (mkMachine Edit.initialState Sample.careless) "print(1)"
             (JsonText (Sample.obj [("code", JString "print(2)");
                                    ("focal_points", JArray [JNull])])));
      [reflexivity | reflexivity | vm_compute; exact I].
  - apply (Hfix "why" "how" (mkMachine Fix.initialState Sample.careless)
             (JsonText (Sample.obj [("code", JString "print(2)");
                                    ("focal_points", JArray [JNull])])));
      [reflexivity | vm_compute; exact I].
Defined.

(** ** The order of validation, cap, judgment and decision *)

(** C2 as stated fails: with a judge that never passes, the fourth draft of
    the edit run is written to [foo_edited.py] although it was never sent to
    the judge; four generation requests face three judge requests. *)
Lemma C2_counterexample :
  ∃ mc',
    Edit.runWorkflow 12 "foo.py" "feat" "details" "python" Sample.stubborn
      = Some (Settled (Return tt), mc') ∧
    files (world mc') !! "foo_edited.py" = Some "draft6" ∧
    judgedBy Edit.LLM_JUDGE "draft6" (world mc') = false ∧
    attempts "CODE_SCHEMA" (world mc') = 4 ∧
    attempts "JUDGING_SCHEMA" (world mc') = 3.
Proof.
  eexists. split; [vm_compute; reflexivity|]. vm_compute. done.
Qed.

(** C2, amended.  In both workflows a generated artifact is validated first
    and the counter is stepped for it; the cap is looked at right then, and
    above the cap the artifact goes to writing without any request to the
    judge.  Otherwise it is sent to the judge and the verdict is validated;
    a pass sends the stored artifact to writing, a fail starts the next round
    with the judge's feedback in its details and leaves the counter to the
    next generation. *)
Theorem C2_cap_is_checked_before_the_judge :
  (∀ data mc ev mc',
     Edit.handleStart data mc = (Return ev, mc') →
     ∃ fileContent response json valid,
       backend (world mc) (requests (world mc)) (Edit.generationRequest data fileContent)
         = Return response ∧
       JSON_parse response = Return json ∧
       Zod.parse Edit.CODE_SCHEMA json = Return valid ∧
       Edit.generatedContent (session mc') = Edit.code_content valid ∧
       Edit.numIterations (session mc') = S (Edit.numIterations (session mc)) ∧
       attempts "JUDGING_SCHEMA" (world mc') = attempts "JUDGING_SCHEMA" (world mc) ∧
       ev = (if Edit.maxIterations (session mc) <? Edit.numIterations (session mc')
             then Edit.writingEvent (Edit.code_content valid)
             else Edit.generationEvent (Edit.code_content valid))) ∧
  (∀ generated mc ev mc',
     Edit.handleGeneration generated mc = (Return ev, mc') →
     ∃ response json valid,
       backend (world mc) (requests (world mc)) (Edit.judgeRequest (session mc) generated)
         = Return response ∧
       JSON_parse response = Return json ∧
       Zod.parse Edit.JUDGING_SCHEMA json = Return valid ∧
       requests (world mc') = requests (world mc) ++ [Edit.judgeRequest (session mc) generated] ∧
       session mc' = session mc ∧
       ev = Edit.judgingEvent (Edit.pass valid) (Edit.feedback valid)) ∧
  (∀ verdict remarks mc,
     Edit.handleJudging verdict remarks mc =
       (Return (if verdict then Edit.writingEvent (Edit.generatedContent (session mc))
                else Edit.startEvent
                       (Edit.Start.mk (Edit.filePath (session mc)) (Edit.feature (session mc))
                          (Edit.retryDetails (Edit.generatedContent (session mc)) remarks)
                          (Edit.codeLanguage (session mc)))),
        mc)) ∧
  (∀ explanation proposal mc ev mc',
     Fix.handleErrorEvaluation explanation proposal mc = (Return ev, mc') →
     ∃ response json valid,
       backend (world mc) (requests (world mc))
         (Fix.generationRequest (Fix.counted (session mc)) explanation proposal)
         = Return response ∧
       JSON_parse response = Return json ∧
       Zod.parse Fix.FIX_SCHEMA json = Return valid ∧
       Fix.generatedContent (session mc') = Fix.fixed_content valid ∧
       Fix.numIterations (session mc') = S (Fix.numIterations (session mc)) ∧
       attempts "JUDGING_SCHEMA" (world mc') = attempts "JUDGING_SCHEMA" (world mc) ∧
       ev = (if Fix.maxIterations (session mc) <? Fix.numIterations (session mc')
             then Fix.writingEvent (Fix.fixed_content valid)
             else Fix.generationEvent (Fix.fixed_content valid))) ∧
  (∀ generated mc ev mc',
     Fix.handleGeneration generated mc = (Return ev, mc') →
     ∃ response json valid,
       backend (world mc) (requests (world mc)) (Fix.judgeRequest (session mc) generated)
         = Return response ∧
       JSON_parse response = Return json ∧
       Zod.parse Fix.JUDGING_SCHEMA json = Return valid ∧
       requests (world mc') = requests (world mc) ++ [Fix.judgeRequest (session mc) generated] ∧
       session mc' = session mc ∧
       ev = Fix.judgingEvent (Fix.pass valid) (Fix.feedback valid)) ∧
  (∀ verdict remarks mc,
     Fix.handleJudging verdict remarks mc =
       (Return (if verdict then Fix.writingEvent (Fix.generatedContent (session mc))
                else Fix.startEvent
                       (Fix.Start.mk (Fix.filePath (session mc)) (Fix.error (session mc))
                          (Fix.retryDetails (Fix.generatedContent (session mc)) remarks)
                          (Fix.codeLanguage (session mc)))),
        mc)).
Proof.
  split_and!.
  - intros data mc ev mc' Hstep.
    apply EditFacts.edit_handleStart_returns in Hstep
      as (fc & resp & json & valid & _ & Hreply & Hjson & Hvalid & Hw & Hs & ->).
    exists fc, resp, json, valid. rewrite Hs. simpl. split_and!; try done.
    by rewrite (attempts_snoc _ (world mc) _ (Edit.generationRequest data fc));
      [simpl; lia | rewrite Hw].
  - intros generated mc ev mc' Hstep.
    apply EditFacts.edit_handleGeneration_returns in Hstep
      as (resp & json & valid & Hreply & Hjson & Hvalid & Hw & Hs & ->).
    exists resp, json, valid. split_and!; try done. by rewrite Hw.
  - apply EditFacts.edit_handleJudging_returns.
  - intros explanation proposal mc ev mc' Hstep.
    apply FixFacts.fix_handleErrorEvaluation_returns in Hstep
      as (resp & json & valid & Hreply & Hjson & Hvalid & Hw & Hs & ->).
    exists resp, json, valid. rewrite Hs. simpl. split_and!; try done.
    by rewrite (attempts_snoc _ (world mc) _
                  (Fix.generationRequest (Fix.counted (session mc)) explanation proposal));
      [simpl; lia | rewrite Hw].
  - intros generated mc ev mc' Hstep.
    apply FixFacts.fix_handleGeneration_returns in Hstep
      as (resp & json & valid & Hreply & Hjson & Hvalid & Hw & Hs & ->).
    exists resp, json, valid. split_and!; try done. by rewrite Hw.
  - apply FixFacts.fix_handleJudging_returns.
Qed.

(** At the cap, the next artifact goes to writing and the judge is not asked. *)
Lemma C2_witness :
  ∃ mc',
    Edit.handleStart (Edit.Start.mk "foo.py" "feat" "details" "python")
      (mkMachine (Edit.mkState "" "" "" "" "" 3 3) Sample.stubborn)
      = (Return (Edit.writingEvent "draft0"), mc') ∧
    attempts "JUDGING_SCHEMA" (world mc') = 0.
Proof.
  assert (∃ mc', Edit.handleStart (Edit.Start.mk "foo.py" "feat" "details" "python")
                   (mkMachine (Edit.mkState "" "" "" "" "" 3 3) Sample.stubborn)
                 = (Return (Edit.writingEvent "draft0"), mc'))
    as (mc' & Hstep) by (eexists; vm_compute; reflexivity).
  exists mc'. split; [exact Hstep|].
  pose proof C2_cap_is_checked_before_the_judge as (Hstart & _).
  destruct (Hstart _ _ _ _ Hstep) as (_ & _ & _ & _ & _ & _ & _ & _ & _ & Hjudge & _).
  exact Hjudge.
Defined.

(** ** What a retry carries *)

(** C7 as stated fails: in an edit run whose judge never passes, the details
    the user gave are in the first generation request and in no later one,
    and the third generation request mentions neither the first draft nor
    the judge's remark on it. *)
Lemma C7_counterexample :
  ∃ mc' first second third,
    Edit.runWorkflow 12 "foo.py" "feat" "use a lookup table" "python" Sample.stubborn
      = Some (Settled (Return tt), mc') ∧
    requestsFor "CODE_SCHEMA" (world mc') !! 0 = Some first ∧
    requestsFor "CODE_SCHEMA" (world mc') !! 1 = Some second ∧
    requestsFor "CODE_SCHEMA" (world mc') !! 2 = Some third ∧
    silentAbout "use a lookup table" first = false ∧
    silentAbout "use a lookup table" second = true ∧
    silentAbout "draft0" second = false ∧
    silentAbout "remark1" second = false ∧
    silentAbout "use a lookup table" third = true ∧
    silentAbout "draft0" third = true ∧
    silentAbout "remark1" third = true.
Proof.
  eexists _, _, _, _. split; [vm_compute; reflexivity|].
  split; [vm_compute; reflexivity|].
  split; [vm_compute; reflexivity|].
  split; [vm_compute; reflexivity|].
  vm_compute. done.
Qed.

(** C7, amended.  After a failed judgment the next round is started with the
    file path, the task and the language of the session, and with details
    made of the artifact just judged and the judge's feedback on it; these
    details do not depend on the details of the session, and the start
    handler stores them in place of the old ones, so that the next judge
    request and the retry after it see them only. *)
Theorem C7_retry_carries_the_latest_round_only :
  (∀ remarks previous state w,
     let next :=
       Edit.Start.mk (Edit.filePath state) (Edit.feature state)
         (Edit.retryDetails (Edit.generatedContent state) remarks) (Edit.codeLanguage state) in
     Edit.handleJudging false remarks (mkMachine state w)
       = (Return (Edit.startEvent next), mkMachine state w) ∧
     (Edit.handleJudging false remarks
        (mkMachine (Edit.set_implementationDetails previous state) w)).1
       = Return (Edit.startEvent next)) ∧
  (∀ data mc ev mc',
     Edit.handleStart data mc = (Return ev, mc') →
     ∃ fileContent,
       requests (world mc') = requests (world mc) ++ [Edit.generationRequest data fileContent] ∧
       Edit.implementationDetails (session mc') = Edit.Start.implementationDetails data ∧
       Edit.feature (session mc') = Edit.Start.feature data) ∧
  (∀ remarks previous state w,
     let next :=
       Fix.Start.mk (Fix.filePath state) (Fix.error state)
         (Fix.retryDetails (Fix.generatedContent state) remarks) (Fix.codeLanguage state) in
     Fix.handleJudging false remarks (mkMachine state w)
       = (Return (Fix.startEvent next), mkMachine state w) ∧
     (Fix.handleJudging false remarks
        (mkMachine (Fix.set_errorDetails previous state) w)).1
       = Return (Fix.startEvent next)) ∧
  (∀ data mc ev mc',
     Fix.handleStart data mc = (Return ev, mc') →
     ∃ fileContent,
       requests (world mc') = requests (world mc) ++ [Fix.evaluationRequest data fileContent] ∧
       Fix.errorDetails (session mc') = Fix.Start.errorDetails data ∧
       Fix.error (session mc') = Fix.Start.error data).
Proof.
  split_and!.
  - intros remarks previous state w. split; reflexivity.
  - intros data mc ev mc' Hstep.
    apply EditFacts.edit_handleStart_returns in Hstep
      as (fc & resp & json & valid & _ & _ & _ & _ & Hw & Hs & _).
    exists fc. by rewrite Hw, Hs.
  - intros remarks previous state w. split; reflexivity.
  - intros data mc ev mc' Hstep.
    apply FixFacts.fix_handleStart_returns in Hstep
      as (fc & resp & json & valid & _ & _ & _ & _ & Hw & Hs & _).
    exists fc. by rewrite Hw, Hs.
Qed.

Lemma C7_witness :
  ∃ mc',
    Edit.handleStart
      (Edit.Start.mk "foo.py" "feat" (Edit.retryDetails "draft0" "remark1") "python")
      (mkMachine (Edit.mkState "draft0" "foo.py" "python" "feat" "use a lookup table" 1 3)
         Sample.stubborn)
      = (Return (Edit.generationEvent "draft0"), mc') ∧
    Edit.implementationDetails (session mc') = Edit.retryDetails "draft0" "remark1".
Proof.
  assert (∃ mc', Edit.handleStart
                   (Edit.Start.mk "foo.py" "feat" (Edit.retryDetails "draft0" "remark1")
                      "python")
                   (mkMachine (Edit.mkState "draft0" "foo.py" "python" "feat"
                                 "use a lookup table" 1 3) Sample.stubborn)
                 = (Return (Edit.generationEvent "draft0"), mc'))
    as (mc' & Hstep) by (eexists; vm_compute; reflexivity).
  exists mc'. split; [exact Hstep|].
  pose proof C7_retry_carries_the_latest_round_only as (_ & Hstart & _).
  destruct (Hstart _ _ _ _ Hstep) as (_ & _ & Hdetails & _).
  exact Hdetails.
Defined.

(** ** Schema failures *)

(** The lines the explain command prints for the issues of a [ZodError]. *)
Lemma forEach_issue_lines (errors : list ZodIssue) : ∀ (index : nat) (w : World),
  forEach errors index (fun err _ =>
    let* shown := styled red (Explain.issueLine err) in logger ERROR shown) w
  = (Return tt,
     with_console
       (console w ++ ((fun err => (ERROR, paint w red (Explain.issueLine err))) <$> errors)) w).
Proof.
  induction errors as [|err errors IH]; intros index w.
  - simpl. unfold ret, with_console. rewrite app_nil_r. by destruct w.
  - cbn [forEach]. unfold bind at 1. unfold_effects.
    rewrite IH. unfold with_console. simpl. by rewrite <- app_assoc.
Qed.

(** In the explain command a response that the schema rejects is reported on
    the console, one line per issue after a heading, and the command goes on. *)
Lemma parseAndRenderAnalysis_reports_issues
    (response : MessageContent) (json : Json) (errors : list ZodIssue) (w : World) :
  JSON_parse response = Return json →
  Zod.parse Explain.SCHEMA json = Throw (ZodError errors) →
  Explain.parseAndRenderAnalysis response w
  = (Return tt,
     with_console
       (console w ++
        (ERROR, paint w red "❌ Schema validation failed:") ::
        ((fun err => (ERROR, paint w red (Explain.issueLine err))) <$> errors)) w).
Proof.
  intros Hjson Hschema. unfold Explain.parseAndRenderAnalysis, try_catch.
  unfold bind at 1. unfold completed at 1. rewrite Hjson.
  unfold bind at 1. unfold completed at 1. rewrite Hschema.
  unfold bind at 1. unfold_effects. rewrite forEach_issue_lines.
  unfold with_console. simpl. by rewrite <- app_assoc.
Qed.

(** C8, on the edit and fix commands.  With a backend whose JSON lacks the
    properties the schemas require, the start handler of either command
    throws the [ZodError] and the run is left pending on it, unhandled; the
    console holds the line of the round and nothing about the offending
    properties.  The explain command, on the same backend, prints one line
    per issue and completes normally. *)
Theorem C8_schema_failure_in_edit_and_fix_is_not_caught :
  (∃ mc',
     Edit.runWorkflow 12 "foo.py" "feat" "details" "python" Sample.careless
       = Some (Pending (ZodError [mkIssue [Key "code_content"] "Required"]), mc') ∧
     console (world mc') = [(LOG, "Started round 1 of editing✍️"); (LOG, "")]) ∧
  (∃ mc',
     Fix.runWorkflow 16 "foo.py" "boom" "details" "python" Sample.careless
       = Some (Pending (ZodError [mkIssue [Key "error_explanation"] "Required";
                                  mkIssue [Key "proposed_fix"] "Required"]), mc') ∧
     console (world mc') = [(LOG, "Started round 1 of editing✍️"); (LOG, "")]) ∧
  (∃ w',
     Explain.parseAndRenderAnalysis
       (JsonText (Sample.obj [("code", JString "print(2)"); ("focal_points", JArray [JNull])]))
       Sample.careless = (Return tt, w') ∧
     console w' = [(ERROR, "❌ Schema validation failed:");
                   (ERROR, "  - code_overview: Required");
                   (ERROR, "  - focal_points.0: Expected string, received null");
                   (ERROR, "  - core_concepts_to_learn: Required");
                   (ERROR, "  - extra_information: Required")]).
Proof.
  split_and!.
  - eexists. split; [vm_compute; reflexivity|]. vm_compute. reflexivity.
  - eexists. split; [vm_compute; reflexivity|]. vm_compute. reflexivity.
  - eexists. split; [vm_compute; reflexivity|]. vm_compute. reflexivity.
Qed.

(** * Further properties of the code *)

(** ** Splitting the path and putting it together again *)

(** X1. The three lines that take the path apart lose nothing: when the path
    has a dot, the joined name, a dot and the extension give the path back,
    and the extension has no dot; when it has none, the name is empty and
    the extension is the whole path. *)
Theorem X1_name_and_extension_make_the_path (filePath : string) :
  let parts := Js.split dot filePath in
  let extension := Js.or_empty (Js.pop parts).1 in
  let flName := Js.join "." (Js.pop parts).2 in
  occurs dot extension = false ∧
  if occurs dot filePath
  then flName +:+ "." +:+ extension = filePath
  else flName = "" ∧ extension = filePath.
Proof.
  simpl. destruct (occurs dot filePath) eqn:Hdot.
  - destruct (occurs_last _ _ Hdot) as (stem & ext & -> & Hext).
    rewrite split_around, (split_absent _ _ Hext), pop_snoc. simpl.
    change "." with (String dot ""). by rewrite join_split.
  - by rewrite (split_absent _ _ Hdot).
Qed.

(** X2. For a path that ends in a dot and an extension without dots, the
    writers of edit, fix and the test suite create the file whose name has
    the suffix in place of that last dot, holding the content, and answer
    with the sentence that names it. *)
Theorem X2_suffix_goes_before_the_last_dot (stem ext content : string) (w : World)
    (Hext : occurs dot ext = false)
    (Hfree : ∀ path, write_fault w path content = None) :
  Edit.writeTextFile (stem +:+ "." +:+ ext) content w
    = (Return ("Successfully edited your file! Find the edited version at: " +:+
               paint w green (paint w bold (stem +:+ "_edited." +:+ ext))),
       with_files (<[stem +:+ "_edited." +:+ ext := content]> (files w)) w) ∧
  Fix.writeTextFile (stem +:+ "." +:+ ext) content w
    = (Return ("Successfully fixed your file! Find the fixed version at: " +:+
               paint w green (paint w bold (stem +:+ "_fixed." +:+ ext))),
       with_files (<[stem +:+ "_fixed." +:+ ext := content]> (files w)) w) ∧
  TestSuite.writeTextFile (stem +:+ "." +:+ ext) content w
    = (Return ("Successfully edited your file! Find the edited version at: " +:+
               stem +:+ "_test." +:+ ext),
       with_files (<[stem +:+ "_test." +:+ ext := content]> (files w)) w).
Proof.
  change (stem +:+ "." +:+ ext) with (stem +:+ String dot ext).
  split_and!.
  - unfold Edit.writeTextFile. rewrite writeTextFileAs_written;
      rewrite (derivedPath_ext _ _ _ Hext); [done | apply Hfree].
  - unfold Fix.writeTextFile. rewrite writeTextFileAs_written;
      rewrite (derivedPath_ext _ _ _ Hext); [done | apply Hfree].
  - unfold TestSuite.writeTextFile, try_catch, bind, writeFile, ret.
    rewrite split_around, (split_absent _ _ Hext), pop_snoc. simpl.
    change "." with (String dot ""). rewrite join_split. by rewrite Hfree.
Qed.

Lemma X2_witness :
  (TestSuite.writeTextFile "sample.txt" "This is a sample." Sample.bare).1
  = Return "Successfully edited your file! Find the edited version at: sample_test.txt".
Proof.
  destruct (X2_suffix_goes_before_the_last_dot "sample" "txt" "This is a sample."
              Sample.bare eq_refl (fun _ => eq_refl)) as (_ & _ & Htest).
  change ("sample" +:+ "." +:+ "txt") with "sample.txt" in Htest.
  rewrite Htest. reflexivity.
Defined.

(** X3. A name that starts with its only dot and the same name without the
    dot are sent to the same output path, the suffix followed by the name:
    [.env] and [env] both give [_edited.env]. *)
Theorem X3_leading_dot_is_dropped (name : string) (Hname : occurs dot name = false) :
  editedPath ("." +:+ name) = "_edited." +:+ name ∧
  editedPath name = "_edited." +:+ name ∧
  fixedPath ("." +:+ name) = "_fixed." +:+ name ∧
  fixedPath name = "_fixed." +:+ name.
Proof.
  unfold editedPath, fixedPath.
  change ("." +:+ name) with ("" +:+ String dot name).
  by rewrite !(derivedPath_ext _ _ _ Hname), !(derivedPath_nodot _ _ Hname).
Qed.

Lemma X3_witness : editedPath ".env" = editedPath "env".
Proof.
  destruct (X3_leading_dot_is_dropped "env" eq_refl) as (H1 & H2 & _).
  change ("." +:+ "env") with ".env" in H1. by rewrite H1, H2.
Defined.

(** ** Writing again *)

(** X5. The writers replace without asking: a file already at the derived
    path is overwritten, and of two writes for the same input path the
    second decides the content, as if the first had not happened. *)
Theorem X5_second_write_wins (filePath first second : string) (w : World)
    (Hwrite : ∀ path content, write_fault w path content = None) :
  files (Edit.writeTextFile filePath second (Edit.writeTextFile filePath first w).2).2
    = files (Edit.writeTextFile filePath second w).2 ∧
  files (Fix.writeTextFile filePath second (Fix.writeTextFile filePath first w).2).2
    = files (Fix.writeTextFile filePath second w).2 ∧
  files (Edit.writeTextFile filePath second w).2 !! editedPath filePath = Some second ∧
  files (Fix.writeTextFile filePath second w).2 !! fixedPath filePath = Some second.
Proof.
  unfold Edit.writeTextFile, Fix.writeTextFile.
  rewrite !(writeTextFileAs_written _ _ filePath first w) by apply Hwrite.
  rewrite !(writeTextFileAs_written _ _ filePath second w) by apply Hwrite.
  rewrite !writeTextFileAs_written by apply Hwrite. simpl.
  split_and!; try apply insert_insert_eq; apply lookup_insert_eq.
Qed.

Lemma X5_witness :
  files (Edit.writeTextFile "foo.py" "two"
           (Edit.writeTextFile "foo.py" "one" Sample.lenient).2).2 !! "foo_edited.py"
  = Some "two".
Proof.
  destruct (X5_second_write_wins "foo.py" "one" "two" Sample.lenient
              (fun _ _ => eq_refl)) as (Hsame & _ & Hget & _).
  rewrite Hsame. exact Hget.
Defined.

(** ** The schemas *)


(** X6. Every schema of the three commands, when it rejects a value, reports
    at least one issue, and what [parse] then throws is a [ZodError] holding
    them: a rejection is never silent. *)
Theorem X6_rejection_reports_an_issue :
  (∀ json e, Zod.parse Edit.CODE_SCHEMA json = Throw e →
     ∃ errors, e = ZodError errors ∧ errors ≠ []) ∧
  (∀ json e, Zod.parse Edit.JUDGING_SCHEMA json = Throw e →
     ∃ errors, e = ZodError errors ∧ errors ≠ []) ∧
  (∀ json e, Zod.parse Fix.ERROR_SCHEMA json = Throw e →
     ∃ errors, e = ZodError errors ∧ errors ≠ []) ∧
  (∀ json e, Zod.parse Fix.FIX_SCHEMA json = Throw e →
     ∃ errors, e = ZodError errors ∧ errors ≠ []) ∧
  (∀ json e, Zod.parse Fix.JUDGING_SCHEMA json = Throw e →
     ∃ errors, e = ZodError errors ∧ errors ≠ []) ∧
  (∀ json e, Zod.parse Explain.SCHEMA json = Throw e →
     ∃ errors, e = ZodError errors ∧ errors ≠ []).
Proof.
  assert (Hparse : ∀ (A : Type) (schema : Zod.Schema A), reportsIssues schema →
            ∀ json e, Zod.parse schema json = Throw e →
            ∃ errors, e = ZodError errors ∧ errors ≠ []).
  { intros A schema Hs json e. unfold Zod.parse.
    destruct (schema [] (Some json)) as [issues|a] eqn:Hrun; intros ?; simplify_eq.
    exists issues. split; [done|]. by apply (Hs [] (Some json)). }
  split_and!; apply Hparse; apply object_reportsIssues;
    repeat first [ apply and_prop_reportsIssues | apply prop_reportsIssues
                 | apply array_reportsIssues | apply string_reportsIssues
                 | apply boolean_reportsIssues ].
Qed.

Lemma X6_witness :
  ∃ errors,
    Zod.parse Edit.JUDGING_SCHEMA (Sample.obj [("pass", JString "yes")])
      = Throw (ZodError errors) ∧ length errors = 2.
Proof.
  destruct X6_rejection_reports_an_issue as (_ & Hjudge & _).
  destruct (Hjudge (Sample.obj [("pass", JString "yes")])
              (ZodError [mkIssue [Key "pass"] "Expected boolean, received string";
                         mkIssue [Key "feedback"] "Required"]) eq_refl)
    as (errors & Heq & _).
  exists errors. rewrite <- Heq. split; [reflexivity|]. by simplify_eq.
Defined.

Lemma elements_strings_inr (path : list PathSeg) (items : list Json) : ∀ i strs,
  Zod.elements Zod.string_ path i items = inr strs ↔ items = JString <$> strs.
Proof.
  induction items as [|x items IH]; intros i strs.
  - simpl. split; [intros ?; by simplify_eq | by destruct strs].
  - cbn [Zod.elements]. split.
    + destruct (Zod.both _ _) as [ib|[a l]] eqn:Hboth; simpl; intros ?; simplify_eq.
      apply both_inr in Hboth as [Hx Hrest]. apply IH in Hrest as ->.
      destruct x; simpl in Hx; by simplify_eq.
    + destruct strs as [|s strs]; intros ?; simplify_eq/=.
      by rewrite (proj2 (IH (S i) strs) eq_refl).
Qed.

(** X7. The schemas of the generated code accept exactly the objects whose
    one required property is a string, and hand that string on; any other
    property of the object is ignored. *)
Theorem X7_code_schemas_accept_exactly (json : Json) (code : string) :
  (Zod.parse Edit.CODE_SCHEMA json = Return (Edit.mkCode code) ↔
     ∃ obj, json = JObject obj ∧ obj !! "code_content" = Some (JString code)) ∧
  (Zod.parse Fix.FIX_SCHEMA json = Return (Fix.mkFix code) ↔
     ∃ obj, json = JObject obj ∧ obj !! "fixed_content" = Some (JString code)) ∧
  (∀ obj key value,
     key ≠ "code_content" →
     Zod.parse Edit.CODE_SCHEMA (JObject (<[key := value]> obj))
       = Zod.parse Edit.CODE_SCHEMA (JObject obj)) ∧
  (∀ obj key value,
     key ≠ "fixed_content" →
     Zod.parse Fix.FIX_SCHEMA (JObject (<[key := value]> obj))
       = Zod.parse Fix.FIX_SCHEMA (JObject obj)).
Proof.
  unfold Zod.parse, Edit.CODE_SCHEMA, Fix.FIX_SCHEMA, Zod.object, Zod.prop.
  split_and!.
  - split.
    + destruct json as [| | | | |obj]; simpl; try done.
      destruct (obj !! "code_content") as [[]|] eqn:Hget; simpl; intros ?; simplify_eq.
      by exists obj.
    + intros (obj & -> & Hget). simpl. by rewrite Hget.
  - split.
    + destruct json as [| | | | |obj]; simpl; try done.
      destruct (obj !! "fixed_content") as [[]|] eqn:Hget; simpl; intros ?; simplify_eq.
      by exists obj.
    + intros (obj & -> & Hget). simpl. by rewrite Hget.
  - intros obj key value Hne. simpl. by rewrite lookup_insert_ne.
  - intros obj key value Hne. simpl. by rewrite lookup_insert_ne.
Qed.

Lemma X7_witness :
  Zod.parse Edit.CODE_SCHEMA
    (Sample.obj [("code_content", JString "function add(a, b) { return a + b; }");
                 ("note", JNull)])
  = Return (Edit.mkCode "function add(a, b) { return a + b; }").
Proof.
  apply (X7_code_schemas_accept_exactly _ _).
  eexists. split; reflexivity.
Defined.

(** X8. The schema of the judgment accepts exactly the objects with a boolean
    [pass] and a string [feedback], and the schema of the error evaluation
    exactly those with two strings; a verdict spelled as a string or a
    missing feedback makes the whole judgment invalid. *)
Theorem X8_two_property_schemas_accept_exactly (json : Json) :
  (∀ verdict remarks,
     Zod.parse Edit.JUDGING_SCHEMA json = Return (Edit.mkJudgement verdict remarks) ↔
     ∃ obj, json = JObject obj ∧ obj !! "pass" = Some (JBool verdict) ∧
            obj !! "feedback" = Some (JString remarks)) ∧
  (∀ verdict remarks,
     Zod.parse Fix.JUDGING_SCHEMA json = Return (Fix.mkJudgement verdict remarks) ↔
     ∃ obj, json = JObject obj ∧ obj !! "pass" = Some (JBool verdict) ∧
            obj !! "feedback" = Some (JString remarks)) ∧
  (∀ explanation proposal,
     Zod.parse Fix.ERROR_SCHEMA json = Return (Fix.mkError explanation proposal) ↔
     ∃ obj, json = JObject obj ∧ obj !! "error_explanation" = Some (JString explanation) ∧
            obj !! "proposed_fix" = Some (JString proposal)).
Proof.
  unfold Zod.parse, Edit.JUDGING_SCHEMA, Fix.JUDGING_SCHEMA, Fix.ERROR_SCHEMA,
    Zod.object, Zod.and_prop, Zod.prop.
  split_and!; intros first second; split.
  - destruct json as [| | | | |obj]; simpl; try done.
    destruct (obj !! "pass") as [[]|] eqn:H1;
      destruct (obj !! "feedback") as [[]|] eqn:H2; simpl; intros ?; simplify_eq.
    by exists obj.
  - intros (obj & -> & H1 & H2). simpl. by rewrite H1, H2.
  - destruct json as [| | | | |obj]; simpl; try done.
    destruct (obj !! "pass") as [[]|] eqn:H1;
      destruct (obj !! "feedback") as [[]|] eqn:H2; simpl; intros ?; simplify_eq.
    by exists obj.
  - intros (obj & -> & H1 & H2). simpl. by rewrite H1, H2.
  - destruct json as [| | | | |obj]; simpl; try done.
    destruct (obj !! "error_explanation") as [[]|] eqn:H1;
      destruct (obj !! "proposed_fix") as [[]|] eqn:H2; simpl; intros ?; simplify_eq.
    by exists obj.
  - intros (obj & -> & H1 & H2). simpl. by rewrite H1, H2.
Qed.

Lemma X8_witness :
  Zod.parse Edit.JUDGING_SCHEMA
    (Sample.obj [("pass", JBool true);
                 ("feedback", JString "The function returns the correct result for all test cases.")])
  = Return (Edit.mkJudgement true "The function returns the correct result for all test cases.").
Proof.
  destruct (X8_two_property_schemas_accept_exactly
              (Sample.obj [("pass", JBool true);
                           ("feedback", JString "The function returns the correct result for all test cases.")]))
    as (Hjudge & _).
  apply Hjudge. eexists. split_and!; reflexivity.
Defined.

Lemma string_inr (path : list PathSeg) (input : option Json) (s : string) :
  Zod.string_ path input = inr s ↔ input = Some (JString s).
Proof.
  split; [|by intros ->].
  destruct input as [[]|]; simpl; intros ?; by simplify_eq.
Qed.

Lemma array_strings_inr (path : list PathSeg) (input : option Json) (strs : list string) :
  Zod.array Zod.string_ path input = inr strs ↔ input = Some (JArray (JString <$> strs)).
Proof.
  unfold Zod.array. split.
  - destruct input as [[| | | |items|]|]; try (intros ?; by simplify_eq).
    by intros ->%elements_strings_inr.
  - intros ->. by apply elements_strings_inr.
Qed.

(** X9. The schema of the explanation accepts exactly the objects with the
    two texts as strings and the two lists as arrays made of strings only. *)
Theorem X9_analysis_schema_accepts_exactly
    (json : Json) (overview extra : string) (points concepts : list string) :
  Zod.parse Explain.SCHEMA json
    = Return (Explain.mkAnalysis overview points concepts extra) ↔
  ∃ obj,
    json = JObject obj ∧
    obj !! "code_overview" = Some (JString overview) ∧
    obj !! "focal_points" = Some (JArray (JString <$> points)) ∧
    obj !! "core_concepts_to_learn" = Some (JArray (JString <$> concepts)) ∧
    obj !! "extra_information" = Some (JString extra).
Proof.
  unfold Zod.parse, Explain.SCHEMA, Zod.object, Zod.and_prop, Zod.prop.
  split.
  - destruct json as [| | | | |obj]; simpl; try done.
    destruct (Zod.both _ _) as [issues|[o [f [c x]]]] eqn:Hboth; simpl;
      intros ?; simplify_eq.
    apply both_inr in Hboth as [Ho Hboth].
    destruct (Zod.both (Zod.array _ _ _) _) as [|[f' [c' x']]] eqn:Hb2; simplify_eq.
    apply both_inr in Hb2 as [Hf Hb2].
    destruct (Zod.both (Zod.array _ _ _) _) as [|[c' x']] eqn:Hb3; simplify_eq.
    apply both_inr in Hb3 as [Hc Hx].
    apply string_inr in Ho, Hx. apply array_strings_inr in Hf, Hc.
    by exists obj.
  - intros (obj & -> & Ho & Hf & Hc & Hx). simpl.
    rewrite Ho, Hf, Hc, Hx.
    rewrite (proj2 (array_strings_inr _ _ points) eq_refl).
    rewrite (proj2 (array_strings_inr _ _ concepts) eq_refl).
    reflexivity.
Qed.

Lemma X9_witness :
  Zod.parse Explain.SCHEMA
    (Sample.obj [("code_overview", JString "overview"); ("focal_points", JArray [JString "one"]);
                 ("core_concepts_to_learn", JArray []); ("extra_information", JString "")])
  = Return (Explain.mkAnalysis "overview" ["one"] [] "").
Proof.
  apply (X9_analysis_schema_accepts_exactly _ "overview" "" ["one"] []).
  eexists. split_and!; reflexivity.
Defined.

(** X10. When the two texts are well typed and the two lists are arrays, the
    schema of the explanation reports one issue for each element of the lists
    that is not a string, under the name of the list and the index of the
    element, the focal points first; it accepts when there is none. *)
Theorem X10_one_issue_per_element_that_is_no_string
    (obj : gmap string Json) (overview extra : string) (points concepts : list Json)
    (Hoverview : obj !! "code_overview" = Some (JString overview))
    (Hpoints : obj !! "focal_points" = Some (JArray points))
    (Hconcepts : obj !! "core_concepts_to_learn" = Some (JArray concepts))
    (Hextra : obj !! "extra_information" = Some (JString extra)) :
  let issues :=
    stringIssues [Key "focal_points"] 0 points ++
    stringIssues [Key "core_concepts_to_learn"] 0 concepts in
  length issues = length (filter (fun x => isString x = false) (points ++ concepts)) ∧
  match issues with
  | [] => ∃ analysis, Zod.parse Explain.SCHEMA (JObject obj) = Return analysis
  | _ => Zod.parse Explain.SCHEMA (JObject obj) = Throw (ZodError issues)
  end.
Proof.
  simpl. split.
  { by rewrite length_app, !stringIssues_length, filter_app, length_app. }
  unfold Zod.parse, Explain.SCHEMA, Zod.object, Zod.and_prop, Zod.prop, Zod.array.
  simpl. rewrite Hoverview, Hpoints, Hconcepts, Hextra. simpl.
  rewrite !elements_strings.
  destruct (stringIssues [Key "focal_points"] 0 points) as [|i1 l1];
    destruct (stringIssues [Key "core_concepts_to_learn"] 0 concepts) as [|i2 l2];
    simpl; eauto. by rewrite app_nil_r.
Qed.

Lemma X10_witness :
  Zod.parse Explain.SCHEMA
    (Sample.obj [("code_overview", JString "overview");
                 ("focal_points", JArray [JString "one"; JNumber "2"; JNull]);
                 ("core_concepts_to_learn", JArray [JBool true]);
                 ("extra_information", JString "")])
  = Throw (ZodError
      [mkIssue [Key "focal_points"; Index 1] "Expected string, received number";
       mkIssue [Key "focal_points"; Index 2] "Expected string, received null";
       mkIssue [Key "core_concepts_to_learn"; Index 0] "Expected string, received boolean"]).
Proof.
  destruct (X10_one_issue_per_element_that_is_no_string
              (list_to_map [("code_overview", JString "overview");
                            ("focal_points", JArray [JString "one"; JNumber "2"; JNull]);
                            ("core_concepts_to_learn", JArray [JBool true]);
                            ("extra_information", JString "")])
              "overview" "" [JString "one"; JNumber "2"; JNull] [JBool true])
    as [_ Hparse]; [vm_compute; reflexivity..|].
  exact Hparse.
Defined.

(** ** The explain command *)

Lemma forEach_numbered (points : list string) : ∀ (i : nat) (w : World),
  forEach points i (fun point index =>
    let* number := styled cyan (pretty (index + 1) +:+ ". ") in
    let* text := styled white point in
    logger LOG (number +:+ text)) w
  = (Return tt,
     with_console (console w ++ ((fun line => (LOG, line)) <$> numberedLines (paint w) i points)) w).
Proof.
  induction points as [|point points IH]; intros i w.
  - simpl. unfold ret, with_console. rewrite app_nil_r. by destruct w.
  - cbn [forEach numberedLines]. unfold bind at 1. unfold_effects.
    rewrite IH. unfold with_console. simpl. by rewrite <- app_assoc.
Qed.

Lemma forEach_bullets (concepts : list string) : ∀ (i : nat) (w : World),
  forEach concepts i (fun concept _ =>
    let* bullet := styled magenta "• " in
    let* text := styled white concept in
    logger LOG (bullet +:+ text)) w
  = (Return tt,
     with_console (console w ++ ((fun line => (LOG, line)) <$> bulletLines (paint w) concepts)) w).
Proof.
  induction concepts as [|concept concepts IH]; intros i w.
  - simpl. unfold ret, with_console. rewrite app_nil_r. by destruct w.
  - cbn [forEach]. unfold bind at 1. unfold_effects.
    rewrite IH. unfold with_console, bulletLines. simpl. by rewrite <- app_assoc.
Qed.

Section Printing.
Variable shade : Style → string → string.

Lemma printsAt_ret {A : Type} (a : A) : printsAt shade (ret a) a [].
Proof. intros w _. unfold ret, with_console. rewrite app_nil_r. by destruct w. Qed.

Lemma printsAt_logger (level : Level) (line : string) :
  printsAt shade (logger level line) tt [(level, line)].
Proof. by intros w _. Qed.

Lemma printsAt_styled (style : Style) (text : string) :
  printsAt shade (styled style text) (shade style text) [].
Proof.
  intros w <-. unfold styled, gets, with_console. rewrite app_nil_r. by destruct w.
Qed.

Lemma printsAt_bind {A B : Type} (m : M World A) (k : A → M World B) a b first rest :
  printsAt shade m a first → printsAt shade (k a) b rest →
  printsAt shade (bind m k) b (first ++ rest).
Proof.
  intros Hm Hk w Hw. unfold bind. rewrite (Hm w Hw). cbv beta iota.
  rewrite (Hk (with_console (console w ++ first) w) Hw).
  unfold with_console. simpl. by rewrite app_assoc.
Qed.

Lemma printsAt_lines {A : Type} (m : M World A) a lines lines' :
  printsAt shade m a lines → lines = lines' → printsAt shade m a lines'.
Proof. by intros H <-. Qed.

Lemma printsAt_numbered (points : list string) :
  printsAt shade
    (forEach points 0 (fun point index =>
       let* number := styled cyan (pretty (index + 1) +:+ ". ") in
       let* text := styled white point in
       logger LOG (number +:+ text)))
    tt ((fun line => (LOG, line)) <$> numberedLines shade 0 points).
Proof. intros w <-. apply forEach_numbered. Qed.

Lemma printsAt_bullets (concepts : list string) :
  printsAt shade
    (forEach concepts 0 (fun concept _ =>
       let* bullet := styled magenta "• " in
       let* text := styled white concept in
       logger LOG (bullet +:+ text)))
    tt ((fun line => (LOG, line)) <$> bulletLines shade concepts).
Proof. intros w <-. apply forEach_bullets. Qed.

Lemma printsAt_renderAnalysis (analysis : Explain.AnalysisResult) :
  printsAt shade (Explain.renderAnalysis analysis) tt
    ((fun line => (LOG, line)) <$> reportLines shade analysis).
Proof.
  unfold Explain.renderAnalysis, Explain.heading, Explain.rule.
  eapply printsAt_lines.
  { repeat first [ apply printsAt_numbered | apply printsAt_bullets
                 | apply printsAt_logger | apply printsAt_styled
                 | eapply printsAt_bind ]. }
  unfold reportLines. rewrite !fmap_app. cbn [app fmap list_fmap].
  rewrite <- ?app_assoc. reflexivity.
Qed.

End Printing.

Lemma renderAnalysis_lines (analysis : Explain.AnalysisResult) (w : World) :
  Explain.renderAnalysis analysis w
  = (Return tt,
     with_console (console w ++ ((fun line => (LOG, line)) <$> reportLines (paint w) analysis)) w).
Proof. by apply printsAt_renderAnalysis. Qed.

(** [parseAndRenderAnalysis] completes normally and adds to the console only. *)
Lemma parseAndRenderAnalysis_returns (response : MessageContent) (w : World) :
  ∃ out,
    Explain.parseAndRenderAnalysis response w
      = (Return tt, with_console (console w ++ out) w).
Proof.
  unfold Explain.parseAndRenderAnalysis, try_catch.
  unfold bind at 1. unfold completed at 1.
  destruct (JSON_parse response) as [json|e].
  - unfold bind at 1. unfold completed at 1.
    destruct (Zod.parse Explain.SCHEMA json) as [analysis|e].
    + rewrite renderAnalysis_lines. eauto.
    + destruct e; unfold bind at 1; unfold_effects; rewrite ?forEach_issue_lines;
        unfold with_console; simpl; rewrite <- ?app_assoc; eauto.
  - destruct e; unfold bind at 1; unfold_effects; rewrite ?forEach_issue_lines;
      unfold with_console; simpl; rewrite <- ?app_assoc; eauto.
Qed.

(** X11. [parseAndRenderAnalysis] never throws and adds to the console only.
    Text that is not JSON gives one error line with the text of the error; a
    value the schema rejects gives the heading and one error line per issue,
    of which there is at least one; a valid value gives the lines of the
    report, none of them at the error level. *)
Theorem X11_explanation_is_reported_or_its_fault (response : MessageContent) (w : World) :
  ∃ out,
    Explain.parseAndRenderAnalysis response w
      = (Return tt, with_console (console w ++ out) w) ∧
    match JSON_parse response with
    | Throw e =>
        out = [(ERROR, paint w red "❌ Failed to parse message content:" +:+ " " +:+
                       Exn_toString e)]
    | Return json =>
        match Zod.parse Explain.SCHEMA json with
        | Return analysis => out = (fun line => (LOG, line)) <$> reportLines (paint w) analysis
        | Throw (ZodError errors) =>
            errors ≠ [] ∧
            out = (ERROR, paint w red "❌ Schema validation failed:") ::
                  ((fun err => (ERROR, paint w red (Explain.issueLine err))) <$> errors)
        | Throw _ => False
        end
    end.
Proof.
  destruct (JSON_parse response) as [json|e] eqn:Hjson.
  - destruct (Zod.parse Explain.SCHEMA json) as [analysis|e] eqn:Hschema.
    + eexists. split; [|reflexivity].
      unfold Explain.parseAndRenderAnalysis, try_catch.
      unfold bind at 1. unfold completed at 1. rewrite Hjson.
      unfold bind at 1. unfold completed at 1. rewrite Hschema.
      by rewrite renderAnalysis_lines.
    + assert (∃ errors, e = ZodError errors ∧ errors ≠ []) as (errors & -> & Hne).
      { revert Hschema. unfold Zod.parse.
        destruct (Explain.SCHEMA [] (Some json)) as [issues|a] eqn:Hrun;
          intros ?; simplify_eq.
        exists issues. split; [done|]. revert Hrun.
        apply object_reportsIssues;
          repeat first [ apply and_prop_reportsIssues | apply prop_reportsIssues
                       | apply array_reportsIssues | apply string_reportsIssues ]. }
      eexists. split; [|split; [exact Hne | reflexivity]].
      by apply (parseAndRenderAnalysis_reports_issues response json).
  - destruct response as [raw|value]; simpl in Hjson; simplify_eq.
    eexists. split; [|reflexivity]. reflexivity.
Qed.

Lemma numberedLines_lookup (paint : Style → string → string) (points : list string) :
  ∀ i k point,
    points !! k = Some point →
    numberedLines paint i points !! k
    = Some (paint cyan (pretty (i + k + 1) +:+ ". ") +:+ paint white point).
Proof.
  induction points as [|p points IH]; intros i k point Hk; [done|].
  destruct k as [|k]; simpl in *.
  - simplify_eq. by rewrite Nat.add_0_r.
  - rewrite (IH (S i) k point Hk).
    by replace (S i + k + 1) with (i + S k + 1) by lia.
Qed.

Lemma numberedLines_length (paint : Style → string → string) (points : list string) :
  ∀ i, length (numberedLines paint i points) = length points.
Proof. induction points as [|p points IH]; intros i; simpl; [done|]. by rewrite IH. Qed.

(** X12. The report of the explain command prints, at the log level only,
    fifteen fixed lines and one line per focal point and per concept: the
    focal point at position [k] of the response is the line numbered
    [k + 1], and the concepts follow as bullets, both in the order of the
    response. *)
Theorem X12_report_lists_points_in_order (analysis : Explain.AnalysisResult) (w : World) :
  let lines := reportLines (paint w) analysis in
  Explain.renderAnalysis analysis w
    = (Return tt, with_console (console w ++ ((fun line => (LOG, line)) <$> lines)) w) ∧
  length lines = 15 + length (Explain.focal_points analysis)
                    + length (Explain.core_concepts_to_learn analysis) ∧
  (∀ k point,
     Explain.focal_points analysis !! k = Some point →
     lines !! (8 + k)
     = Some (paint w cyan (pretty (k + 1) +:+ ". ") +:+ paint w white point)) ∧
  (∀ k concept,
     Explain.core_concepts_to_learn analysis !! k = Some concept →
     lines !! (11 + length (Explain.focal_points analysis) + k)
     = Some (paint w magenta "• " +:+ paint w white concept)).
Proof.
  cbv zeta. split_and!.
  - apply renderAnalysis_lines.
  - unfold reportLines, bulletLines.
    rewrite !length_app, numberedLines_length, length_fmap. simpl. lia.
  - intros k point Hk. unfold reportLines.
    apply lookup_lt_Some in Hk as Hlt.
    rewrite lookup_app_r by (cbn [length]; lia). cbn [length].
    replace (8 + k - 8) with k by lia.
    rewrite lookup_app_l by (by rewrite numberedLines_length).
    by rewrite (numberedLines_lookup _ _ 0 k point Hk).
  - intros k concept Hk. unfold reportLines.
    apply lookup_lt_Some in Hk as Hlt.
    rewrite lookup_app_r by (cbn [length]; lia). cbn [length].
    rewrite lookup_app_r by (rewrite numberedLines_length; lia).
    rewrite numberedLines_length.
    rewrite lookup_app_r by (cbn [length]; lia). cbn [length].
    replace (11 + length (Explain.focal_points analysis) + k - 8
             - length (Explain.focal_points analysis) - 3) with k by lia.
    rewrite lookup_app_l by (unfold bulletLines; by rewrite length_fmap).
    unfold bulletLines. by rewrite list_lookup_fmap, Hk.
Qed.

Lemma X12_witness :
  reportLines (paint Sample.lenient) (Explain.mkAnalysis "o" ["first"; "second"] ["idea"] "x")
    !! 9 = Some "2. second".
Proof.
  destruct (X12_report_lists_points_in_order
              (Explain.mkAnalysis "o" ["first"; "second"] ["idea"] "x") Sample.lenient)
    as (_ & _ & Hpoint & _).
  exact (Hpoint 1 "second" eq_refl).
Defined.

(** X13. The explain command never changes a file and asks the model at most
    once: not at all when the file cannot be read, in which case the error of
    the read is its completion, and exactly once otherwise, with a request
    that quotes the file and the problem word for word.  Whatever the model
    then answers, the command completes normally; only a failure of the call
    itself is thrown. *)
Theorem X13_explain_reads_once_and_asks_once
    (codeLanguage level filePath problem : string) (w : World) :
  let outcome := Explain.handler codeLanguage level filePath problem w in
  files outcome.2 = files w ∧
  match (readTextFile filePath w).1 with
  | Throw e => outcome.1 = Throw e ∧ requests outcome.2 = requests w
  | Return fileContent =>
      let request := Explain.explainRequest codeLanguage filePath level problem fileContent in
      requests outcome.2 = requests w ++ [request] ∧
      silentAbout fileContent request = false ∧
      silentAbout problem request = false ∧
      match backend w (requests w) request with
      | Throw e => outcome.1 = Throw e
      | Return _ => outcome.1 = Return tt
      end
  end.
Proof.
  unfold Explain.handler, Explain.explainCode, Explain.rule.
  unfold_effects.
  destruct (read_fault w filePath) as [fault|]; [done|].
  destruct (files w !! filePath) as [fileContent|]; [|done]. simpl.
  assert (Hquoted :
    silentAbout fileContent
      (Explain.explainRequest codeLanguage filePath level problem fileContent) = false ∧
    silentAbout problem
      (Explain.explainRequest codeLanguage filePath level problem fileContent) = false)
    by (unfold Explain.explainRequest; split; apply silentAbout_user; find_text).
  destruct Hquoted as [Hfile Hproblem].
  destruct (backend w (requests w) _) as [response|e] eqn:Hreply; [|done].
  match goal with |- context [Explain.parseAndRenderAnalysis response ?w1] =>
    destruct (parseAndRenderAnalysis_returns response w1) as (out & ->) end.
  done.
Qed.

(** ** What a completed run has done *)

Lemma judgedBy_sent (judge artifact : string) (w w' : World) (request : ChatRequest) :
  requests w' = requests w ++ [request] →
  judgedBy judge artifact w = true ∨
  (model request = judge ∧ mkMessage "user" artifact ∈ messages request) →
  judgedBy judge artifact w' = true.
Proof.
  unfold judgedBy. intros -> [Hold|[Hmodel Hin]]; rewrite existsb_app, orb_true_iff.
  - by left.
  - right. simpl. rewrite orb_false_r, andb_true_iff. split.
    + by apply String.eqb_eq.
    + apply existsb_exists. exists (mkMessage "user" artifact).
      split; [by apply list_elem_of_In|]. simpl. by rewrite String.eqb_refl.
Qed.

(** The world after the writer: the one before, or that one with the file
    put at the derived path. *)
Lemma writeTextFileAs_world (suffix announce filePath content : string) (w : World) :
  let w' := (writeTextFileAs suffix announce filePath content w).2 in
  (write_fault w (derivedPath suffix filePath) content = None ∧
   w' = with_files (<[derivedPath suffix filePath := content]> (files w)) w) ∨
  (write_fault w (derivedPath suffix filePath) content ≠ None ∧ w' = w).
Proof.
  destruct (write_fault w (derivedPath suffix filePath) content) as [e|] eqn:Hf.
  - right. by rewrite (writeTextFileAs_caught _ _ _ _ _ _ Hf).
  - left. by rewrite (writeTextFileAs_written _ _ _ _ _ Hf).
Qed.

Module EditRunFacts.
Import Edit EditRun EditFacts.

Lemma edit_consume_coherent (path : string) (w0 : World) fuel :
  ∀ iteration event mc mc',
    coherent path w0 event mc →
    consume fuel iteration event mc = Some (Settled (Return tt), mc') →
    coherent path w0 (resultEvent "") mc'.
Proof.
  induction fuel as [|fuel IH]; intros iteration event mc mc' Hinv Hrun; [done|].
  destruct (edit_announce_returns iteration event (world mc)) as (it' & out & Hann).
  cbn [consume] in Hrun. unfold inWorld at 1 in Hrun. rewrite Hann in Hrun. clear Hann.
  set (mc1 := mkMachine (session mc) (with_console out (world mc))) in *.
  assert (Hinv1 : coherent path w0 event mc1) by (destruct event; exact Hinv).
  clearbody mc1. clear Hinv mc.
  destruct Hinv1 as (Hfault & Hcap & Hatt & Hev).
  destruct event as [data|generated|verdict remarks|content|message];
    cbn [handle] in Hrun.
  - destruct Hev as [Hpath Hn].
    destruct (handleStart data mc1) as [[next|e] mc2] eqn:Hstep; [|done].
    apply edit_handleStart_returns in Hstep
      as (fc & resp & json & valid & _ & _ & _ & _ & Hw & Hs & ->).
    eapply IH; [|exact Hrun].
    assert (Hsnoc : attempts "CODE_SCHEMA" (world mc2) =
                    attempts "CODE_SCHEMA" (world mc1) + 1)
      by (by rewrite (attempts_snoc _ (world mc1) _ (generationRequest data fc));
          [|rewrite Hw]).
    rewrite Hcap. unfold coherent, counted, judged. rewrite Hs, Hsnoc, Hatt, Hw. simpl.
    split_and!; [done..|lia|].
    destruct (3 <? S (numIterations (session mc1))) eqn:Hlt.
    + apply Nat.ltb_lt in Hlt. split_and!; (done || lia).
    + apply Nat.ltb_ge in Hlt. split_and!; (done || lia).
  - destruct Hev as [(Hpath & Hlo & Hhi) ->].
    destruct (handleGeneration (generatedContent (session mc1)) mc1)
      as [[next|e] mc2] eqn:Hstep; [|done].
    apply edit_handleGeneration_returns in Hstep
      as (resp & json & valid & _ & _ & _ & Hw & Hs & ->).
    eapply IH; [|exact Hrun].
    assert (Hreq : requests (world mc2) = requests (world mc1) ++
                     [judgeRequest (session mc1) (generatedContent (session mc1))])
      by (by rewrite Hw).
    unfold coherent, counted, judged. rewrite Hs.
    rewrite (attempts_snoc _ _ _ _ Hreq). simpl.
    split_and!; [by rewrite Hw | done | lia | done | done | done |].
    eapply judgedBy_sent; [exact Hreq|]. right. split; [done|].
    simpl. apply list_elem_of_further, list_elem_of_here.
  - destruct Hev as [(Hpath & Hlo & Hhi) Hjudged].
    rewrite edit_handleJudging_returns in Hrun.
    eapply IH; [|exact Hrun].
    unfold coherent, counted. destruct verdict; simpl; split_and!; (done || lia).
  - destruct Hev as ((Hpath & Hlo & Hhi) & -> & Hjudged).
    destruct (edit_handleWriting_returns (generatedContent (session mc1)) mc1)
      as (msg & w' & Hw & Hstep).
    rewrite Hstep in Hrun. clear Hstep.
    assert (Hw' : w' = (writeTextFileAs "_edited."
                          "Successfully edited your file! Find the edited version at: "
                          (filePath (session mc1)) (generatedContent (session mc1))
                          (world mc1)).2)
      by (unfold writeTextFile in Hw; by rewrite Hw).
    eapply IH; [|exact Hrun].
    unfold coherent, counted, judged. simpl.
    destruct (writeTextFileAs_world "_edited."
                "Successfully edited your file! Find the edited version at: "
                (filePath (session mc1)) (generatedContent (session mc1)) (world mc1))
      as [[Hok Heq]|[Hbad Heq]]; simpl in Heq; rewrite <- Hw' in Heq; clear Hw';
        subst w'; simpl.
    + split_and!; try done. intros _. rewrite <- Hpath. apply lookup_insert_eq.
    + split_and!; try done. intros Hnone. destruct Hbad.
      by rewrite Hfault, Hpath.
  - simplify_eq. exact (conj Hfault (conj Hcap (conj Hatt Hev))).
Qed.

End EditRunFacts.

Module FixRunFacts.
Import Fix FixRun FixFacts.

Lemma fix_consume_coherent (path : string) (w0 : World) fuel :
  ∀ iteration event mc mc',
    coherent path w0 event mc →
    consume fuel iteration event mc = Some (Settled (Return tt), mc') →
    coherent path w0 (resultEvent "") mc'.
Proof.
  induction fuel as [|fuel IH]; intros iteration event mc mc' Hinv Hrun; [done|].
  destruct (fix_announce_returns iteration event (world mc)) as (it' & out & Hann).
  cbn [consume] in Hrun. unfold inWorld at 1 in Hrun. rewrite Hann in Hrun. clear Hann.
  set (mc1 := mkMachine (session mc) (with_console out (world mc))) in *.
  assert (Hinv1 : coherent path w0 event mc1) by (destruct event; exact Hinv).
  clearbody mc1. clear Hinv mc.
  destruct Hinv1 as (Hfault & Hcap & Hatt & Hev).
  destruct event as [data|explanation proposal|generated|verdict remarks|content|message];
    cbn [handle] in Hrun.
  - destruct Hev as [Hpath Hn].
    destruct (handleStart data mc1) as [[next|e] mc2] eqn:Hstep; [|done].
    apply fix_handleStart_returns in Hstep
      as (fc & resp & json & valid & _ & _ & _ & _ & Hw & Hs & ->).
    eapply IH; [|exact Hrun].
    assert (Hsnoc : attempts "FIX_SCHEMA" (world mc2) =
                    attempts "FIX_SCHEMA" (world mc1) + 0)
      by (by rewrite (attempts_snoc _ (world mc1) _ (evaluationRequest data fc));
          [|rewrite Hw]).
    unfold coherent, counted. rewrite Hs, Hsnoc, Hatt, Hw. simpl.
    split_and!; (done || lia).
  - destruct Hev as (Hpath & Hlo & Hhi).
    destruct (handleErrorEvaluation explanation proposal mc1)
      as [[next|e] mc2] eqn:Hstep; [|done].
    apply fix_handleErrorEvaluation_returns in Hstep
      as (resp & json & valid & _ & _ & _ & Hw & Hs & ->).
    eapply IH; [|exact Hrun].
    assert (Hsnoc : attempts "FIX_SCHEMA" (world mc2) =
                    attempts "FIX_SCHEMA" (world mc1) + 1)
      by (by rewrite (attempts_snoc _ (world mc1) _
                        (generationRequest (Fix.counted (session mc1)) explanation
                           proposal));
          [|rewrite Hw]).
    rewrite Hcap. unfold coherent, FixRun.counted, judged.
    rewrite Hs, Hsnoc, Hatt, Hw. simpl.
    split_and!; [done..|lia|].
    destruct (3 <? S (numIterations (session mc1))) eqn:Hlt.
    + apply Nat.ltb_lt in Hlt. split_and!; (done || lia).
    + apply Nat.ltb_ge in Hlt. split_and!; (done || lia).
  - destruct Hev as [(Hpath & Hlo & Hhi) ->].
    destruct (handleGeneration (generatedContent (session mc1)) mc1)
      as [[next|e] mc2] eqn:Hstep; [|done].
    apply fix_handleGeneration_returns in Hstep
      as (resp & json & valid & _ & _ & _ & Hw & Hs & ->).
    eapply IH; [|exact Hrun].
    assert (Hreq : requests (world mc2) = requests (world mc1) ++
                     [judgeRequest (session mc1) (generatedContent (session mc1))])
      by (by rewrite Hw).
    unfold coherent, FixRun.counted, judged. rewrite Hs.
    rewrite (attempts_snoc _ _ _ _ Hreq). simpl.
    split_and!; [by rewrite Hw | done | lia | done | done | done |].
    eapply judgedBy_sent; [exact Hreq|]. right. split; [done|].
    simpl. apply list_elem_of_further, list_elem_of_here.
  - destruct Hev as [(Hpath & Hlo & Hhi) Hjudged].
    rewrite fix_handleJudging_returns in Hrun.
    eapply IH; [|exact Hrun].
    unfold coherent, FixRun.counted. destruct verdict; simpl; split_and!; (done || lia).
  - destruct Hev as ((Hpath & Hlo & Hhi) & -> & Hjudged).
    destruct (fix_handleWriting_returns (generatedContent (session mc1)) mc1)
      as (msg & w' & Hw & Hstep).
    rewrite Hstep in Hrun. clear Hstep.
    assert (Hw' : w' = (writeTextFileAs "_fixed."
                          "Successfully fixed your file! Find the fixed version at: "
                          (filePath (session mc1)) (generatedContent (session mc1))
                          (world mc1)).2)
      by (unfold writeTextFile in Hw; by rewrite Hw).
    eapply IH; [|exact Hrun].
    unfold coherent, FixRun.counted, judged. simpl.
    destruct (writeTextFileAs_world "_fixed."
                "Successfully fixed your file! Find the fixed version at: "
                (filePath (session mc1)) (generatedContent (session mc1)) (world mc1))
      as [[Hok Heq]|[Hbad Heq]]; simpl in Heq; rewrite <- Hw' in Heq; clear Hw';
        subst w'; simpl.
    + split_and!; try done. intros _. rewrite <- Hpath. apply lookup_insert_eq.
    + split_and!; try done. intros Hnone. destruct Hbad.
      by rewrite Hfault, Hpath.
  - simplify_eq. exact (conj Hfault (conj Hcap (conj Hatt Hev))).
Qed.

End FixRunFacts.

(** X14. When a run of the edit or of the fix workflow completes normally
    and the disk accepts the write, the file at the derived path holds the
    artifact generated last, the one kept in the session, and the path it is
    derived from is the path the run was started on. *)
Theorem X14_the_file_holds_the_last_artifact
    (fuel : nat) (filePath task details codeLanguage : string) (w : World)
    (Hdisk : ∀ path content, write_fault w path content = None) :
  (∀ mc',
     Edit.runWorkflow fuel filePath task details codeLanguage w = Some (Settled (Return tt), mc') →
     Edit.filePath (session mc') = filePath ∧
     files (world mc') !! editedPath filePath = Some (Edit.generatedContent (session mc'))) ∧
  (∀ mc',
     Fix.runWorkflow fuel filePath task details codeLanguage w = Some (Settled (Return tt), mc') →
     Fix.filePath (session mc') = filePath ∧
     files (world mc') !! fixedPath filePath = Some (Fix.generatedContent (session mc'))).
Proof.
  split; intros mc' Hrun.
  - apply (EditRunFacts.edit_consume_coherent filePath w) in Hrun
      as (_ & _ & _ & (Hpath & _) & _ & Hfile).
    + split; [exact Hpath | apply Hfile, Hdisk].
    + unfold EditRun.coherent. simpl. split_and!; (done || lia).
  - apply (FixRunFacts.fix_consume_coherent filePath w) in Hrun
      as (_ & _ & _ & (Hpath & _) & _ & Hfile).
    + split; [exact Hpath | apply Hfile, Hdisk].
    + unfold FixRun.coherent. simpl. split_and!; (done || lia).
Qed.

Lemma X14_witness :
  ∃ mc',
    Fix.runWorkflow 16 "foo.py" "boom" "details" "python" Sample.stubborn
      = Some (Settled (Return tt), mc') ∧
    files (world mc') !! "foo_fixed.py" = Some (Fix.generatedContent (session mc')).
Proof.
  assert (∃ mc', Fix.runWorkflow 16 "foo.py" "boom" "details" "python" Sample.stubborn
                 = Some (Settled (Return tt), mc')) as [mc' Hrun]
    by (eexists; vm_compute; reflexivity).
  exists mc'. split; [exact Hrun|].
  destruct (X14_the_file_holds_the_last_artifact 16 "foo.py" "boom" "details" "python"
              Sample.stubborn (fun _ _ => eq_refl)) as [_ Hfix].
  exact (proj2 (Hfix mc' Hrun)).
Defined.

(** X15. In a run that completes normally the counter ends between 1 and 4
    under the unchanged cap of 3, and it equals the number of generation
    requests the run has sent. *)
Theorem X15_the_counter_counts_the_generations
    (fuel : nat) (filePath task details codeLanguage : string) (w : World) :
  (∀ mc',
     Edit.runWorkflow fuel filePath task details codeLanguage w = Some (Settled (Return tt), mc') →
     Edit.maxIterations (session mc') = 3 ∧
     1 ≤ Edit.numIterations (session mc') ≤ 4 ∧
     attempts "CODE_SCHEMA" (world mc')
       = attempts "CODE_SCHEMA" w + Edit.numIterations (session mc')) ∧
  (∀ mc',
     Fix.runWorkflow fuel filePath task details codeLanguage w = Some (Settled (Return tt), mc') →
     Fix.maxIterations (session mc') = 3 ∧
     1 ≤ Fix.numIterations (session mc') ≤ 4 ∧
     attempts "FIX_SCHEMA" (world mc')
       = attempts "FIX_SCHEMA" w + Fix.numIterations (session mc')).
Proof.
  split; intros mc' Hrun.
  - apply (EditRunFacts.edit_consume_coherent filePath w) in Hrun
      as (_ & Hcap & Hatt & (_ & Hlo & Hhi) & _).
    + done.
    + unfold EditRun.coherent. simpl. split_and!; (done || lia).
  - apply (FixRunFacts.fix_consume_coherent filePath w) in Hrun
      as (_ & Hcap & Hatt & (_ & Hlo & Hhi) & _).
    + done.
    + unfold FixRun.coherent. simpl. split_and!; (done || lia).
Qed.

Lemma X15_witness :
  ∃ mc',
    Edit.runWorkflow 12 "foo.py" "feat" "details" "python" Sample.lenient
      = Some (Settled (Return tt), mc') ∧
    attempts "CODE_SCHEMA" (world mc') = Edit.numIterations (session mc').
Proof.
  assert (∃ mc', Edit.runWorkflow 12 "foo.py" "feat" "details" "python" Sample.lenient
                 = Some (Settled (Return tt), mc')) as [mc' Hrun]
    by (eexists; vm_compute; reflexivity).
  exists mc'. split; [exact Hrun|].
  destruct (X15_the_counter_counts_the_generations 12 "foo.py" "feat" "details" "python"
              Sample.lenient) as [Hedit _].
  destruct (Hedit mc' Hrun) as (_ & _ & Hatt). exact Hatt.
Defined.

(** X16. In a run that completes normally with the counter within the cap,
    the artifact kept in the session, which is the one written, has been
    sent to the judge as the user turn of a request; only an artifact
    generated above the cap is written unjudged. *)
Theorem X16_below_the_cap_the_written_artifact_was_judged
    (fuel : nat) (filePath task details codeLanguage : string) (w : World) :
  (∀ mc',
     Edit.runWorkflow fuel filePath task details codeLanguage w = Some (Settled (Return tt), mc') →
     Edit.numIterations (session mc') ≤ Edit.maxIterations (session mc') →
     judgedBy Edit.LLM_JUDGE (Edit.generatedContent (session mc')) (world mc') = true) ∧
  (∀ mc',
     Fix.runWorkflow fuel filePath task details codeLanguage w = Some (Settled (Return tt), mc') →
     Fix.numIterations (session mc') ≤ Fix.maxIterations (session mc') →
     judgedBy Fix.LLM_JUDGE (Fix.generatedContent (session mc')) (world mc') = true).
Proof.
  split; intros mc' Hrun Hle.
  - apply (EditRunFacts.edit_consume_coherent filePath w) in Hrun
      as (_ & Hcap & _ & _ & Hjudged & _).
    + apply Hjudged. by rewrite <- Hcap.
    + unfold EditRun.coherent. simpl. split_and!; (done || lia).
  - apply (FixRunFacts.fix_consume_coherent filePath w) in Hrun
      as (_ & Hcap & _ & _ & Hjudged & _).
    + apply Hjudged. by rewrite <- Hcap.
    + unfold FixRun.coherent. simpl. split_and!; (done || lia).
Qed.

Lemma X16_witness :
  ∃ mc',
    Edit.runWorkflow 12 "foo.py" "feat" "details" "python" Sample.lenient
      = Some (Settled (Return tt), mc') ∧
    judgedBy Edit.LLM_JUDGE (Edit.generatedContent (session mc')) (world mc') = true.
Proof.
  assert (∃ mc', Edit.runWorkflow 12 "foo.py" "feat" "details" "python" Sample.lenient
                 = Some (Settled (Return tt), mc') ∧
                 Edit.numIterations (session mc') ≤ Edit.maxIterations (session mc'))
    as (mc' & Hrun & Hle)
    by (eexists; split; [vm_compute; reflexivity | vm_compute; lia]).
  exists mc'. split; [exact Hrun|].
  destruct (X16_below_the_cap_the_written_artifact_was_judged 12 "foo.py" "feat" "details"
              "python" Sample.lenient) as [Hedit _].
  exact (Hedit mc' Hrun Hle).
Defined.

(** ** How many requests a run sends *)

Module EditCalls.
Import Edit EditFacts.

(** What one handler sends, however it completes. *)
Lemma edit_handler_sends event handler mc r mc' :
  handle event = Some handler →
  handler mc = (r, mc') →
  length (requests (world mc')) ≤
    length (requests (world mc)) +
    match event with startEvent _ | generationEvent _ => 1 | _ => 0 end ∧
  attempts "JUDGING_SCHEMA" (world mc') ≤
    attempts "JUDGING_SCHEMA" (world mc) +
    match event with generationEvent _ => 1 | _ => 0 end.
Proof.
  intros Hh Hstep.
  destruct event as [data|generated|verdict remarks|content|message];
    simpl in Hh; simplify_eq.
  - unfold handleStart in Hstep. unfold_effects.
    split_cases; rewrite ?attempts_sent, ?length_app; simpl; lia.
  - unfold handleGeneration in Hstep. unfold_effects.
    split_cases; rewrite ?attempts_sent, ?length_app; simpl; lia.
  - rewrite edit_handleJudging_returns in Hstep. simplify_eq. lia.
  - destruct (edit_handleWriting_returns content mc) as (msg & w' & Hw & Hret).
    rewrite Hret in Hstep. simplify_eq. simpl.
    pose proof (writeTextFileAs_frame "_edited."
      "Successfully edited your file! Find the edited version at: "
      (filePath (session mc)) content (world mc)) as (_ & Hreq & _).
    unfold writeTextFile in Hw. rewrite Hw in Hreq. simpl in Hreq.
    rewrite (attempts_same _ _ _ Hreq), Hreq. lia.
Qed.

Lemma edit_consume_calls fuel : ∀ iteration event mc r mc',
  consume fuel iteration event mc = Some (r, mc') →
  length (requests (world mc')) ≤
    length (requests (world mc)) + editCallsLeft event (session mc) ∧
  attempts "JUDGING_SCHEMA" (world mc') ≤
    attempts "JUDGING_SCHEMA" (world mc) + editJudgmentsLeft event (session mc).
Proof.
  induction fuel as [|fuel IH]; intros iteration event mc r mc' Hrun; [done|].
  destruct (edit_announce_returns iteration event (world mc)) as (it' & out & Hann).
  cbn [consume] in Hrun. unfold inWorld at 1 in Hrun. rewrite Hann in Hrun. clear Hann.
  set (mc1 := mkMachine (session mc) (with_console out (world mc))) in *.
  change (requests (world mc)) with (requests (world mc1)).
  change (attempts "JUDGING_SCHEMA" (world mc))
    with (attempts "JUDGING_SCHEMA" (world mc1)).
  change (session mc) with (session mc1). clearbody mc1. clear mc.
  destruct (handle event) as [handler|] eqn:Hh;
    [|destruct event; simplify_eq; simpl; lia].
  destruct (handler mc1) as [[next|e] mc2] eqn:Hstep.
  - pose proof (edit_handler_sends _ _ _ _ _ Hh Hstep) as [Hlen Hjudge].
    apply IH in Hrun as [Hlen' Hjudge'].
    destruct event as [data|generated|verdict remarks|content|message];
      simpl in Hh; simplify_eq.
    + apply edit_handleStart_returns in Hstep
        as (fc & resp & json & valid & _ & _ & _ & _ & _ & Hs & ->).
      unfold editCallsLeft, editJudgmentsLeft in *. rewrite Hs in Hlen', Hjudge'.
      simpl in *.
      destruct (maxIterations (session mc1) <? S (numIterations (session mc1))) eqn:Hcap;
        [|apply Nat.ltb_ge in Hcap]; lia.
    + apply edit_handleGeneration_returns in Hstep
        as (resp & json & valid & _ & _ & _ & _ & Hs & ->).
      unfold editCallsLeft, editJudgmentsLeft in *. rewrite Hs in Hlen', Hjudge'. lia.
    + rewrite edit_handleJudging_returns in Hstep. simplify_eq.
      unfold editCallsLeft, editJudgmentsLeft in *.
      destruct verdict; simpl in *; lia.
    + destruct (edit_handleWriting_returns content mc1) as (msg & w' & _ & Hret).
      rewrite Hret in Hstep. simplify_eq.
      unfold editCallsLeft, editJudgmentsLeft in *. simpl in *. lia.
  - simplify_eq.
    pose proof (edit_handler_sends _ _ _ _ _ Hh Hstep) as [Hlen Hjudge].
    destruct event; simpl in *; lia.
Qed.

End EditCalls.

Module FixCalls.
Import Fix FixFacts.

(** What one handler sends, however it completes. *)
Lemma fix_handler_sends event handler mc r mc' :
  handle event = Some handler →
  handler mc = (r, mc') →
  length (requests (world mc')) ≤
    length (requests (world mc)) +
    match event with
    | startEvent _ | errorEvaluationEvent _ _ | generationEvent _ => 1
    | _ => 0
    end ∧
  attempts "JUDGING_SCHEMA" (world mc') ≤
    attempts "JUDGING_SCHEMA" (world mc) +
    match event with generationEvent _ => 1 | _ => 0 end.
Proof.
  intros Hh Hstep.
  destruct event as [data|explanation proposal|generated|verdict remarks|content|message];
    simpl in Hh; simplify_eq.
  - unfold handleStart in Hstep. unfold_effects.
    split_cases; rewrite ?attempts_sent, ?length_app; simpl; lia.
  - unfold handleErrorEvaluation in Hstep. unfold_effects.
    split_cases; rewrite ?attempts_sent, ?length_app; simpl; lia.
  - unfold handleGeneration in Hstep. unfold_effects.
    split_cases; rewrite ?attempts_sent, ?length_app; simpl; lia.
  - rewrite fix_handleJudging_returns in Hstep. simplify_eq. lia.
  - destruct (fix_handleWriting_returns content mc) as (msg & w' & Hw & Hret).
    rewrite Hret in Hstep. simplify_eq. simpl.
    pose proof (writeTextFileAs_frame "_fixed."
      "Successfully fixed your file! Find the fixed version at: "
      (filePath (session mc)) content (world mc)) as (_ & Hreq & _).
    unfold writeTextFile in Hw. rewrite Hw in Hreq. simpl in Hreq.
    rewrite (attempts_same _ _ _ Hreq), Hreq. lia.
Qed.

Lemma fix_consume_calls fuel : ∀ iteration event mc r mc',
  consume fuel iteration event mc = Some (r, mc') →
  length (requests (world mc')) ≤
    length (requests (world mc)) + fixCallsLeft event (session mc) ∧
  attempts "JUDGING_SCHEMA" (world mc') ≤
    attempts "JUDGING_SCHEMA" (world mc) + fixJudgmentsLeft event (session mc).
Proof.
  induction fuel as [|fuel IH]; intros iteration event mc r mc' Hrun; [done|].
  destruct (fix_announce_returns iteration event (world mc)) as (it' & out & Hann).
  cbn [consume] in Hrun. unfold inWorld at 1 in Hrun. rewrite Hann in Hrun. clear Hann.
  set (mc1 := mkMachine (session mc) (with_console out (world mc))) in *.
  change (requests (world mc)) with (requests (world mc1)).
  change (attempts "JUDGING_SCHEMA" (world mc))
    with (attempts "JUDGING_SCHEMA" (world mc1)).
  change (session mc) with (session mc1). clearbody mc1. clear mc.
  destruct (handle event) as [handler|] eqn:Hh;
    [|destruct event; simplify_eq; simpl; lia].
  destruct (handler mc1) as [[next|e] mc2] eqn:Hstep.
  - pose proof (fix_handler_sends _ _ _ _ _ Hh Hstep) as [Hlen Hjudge].
    apply IH in Hrun as [Hlen' Hjudge'].
    destruct event as [data|explanation proposal|generated|verdict remarks|content|message];
      simpl in Hh; simplify_eq.
    + apply fix_handleStart_returns in Hstep
        as (fc & resp & json & valid & _ & _ & _ & _ & _ & Hs & ->).
      unfold fixCallsLeft, fixJudgmentsLeft in *. rewrite Hs in Hlen', Hjudge'.
      simpl in *. lia.
    + apply fix_handleErrorEvaluation_returns in Hstep
        as (resp & json & valid & _ & _ & _ & _ & Hs & ->).
      unfold fixCallsLeft, fixJudgmentsLeft in *. rewrite Hs in Hlen', Hjudge'.
      simpl in *.
      destruct (maxIterations (session mc1) <? S (numIterations (session mc1))) eqn:Hcap;
        [|apply Nat.ltb_ge in Hcap]; lia.
    + apply fix_handleGeneration_returns in Hstep
        as (resp & json & valid & _ & _ & _ & _ & Hs & ->).
      unfold fixCallsLeft, fixJudgmentsLeft in *. rewrite Hs in Hlen', Hjudge'. lia.
    + rewrite fix_handleJudging_returns in Hstep. simplify_eq.
      unfold fixCallsLeft, fixJudgmentsLeft in *.
      destruct verdict; simpl in *; lia.
    + destruct (fix_handleWriting_returns content mc1) as (msg & w' & _ & Hret).
      rewrite Hret in Hstep. simplify_eq.
      unfold fixCallsLeft, fixJudgmentsLeft in *. simpl in *. lia.
  - simplify_eq.
    pose proof (fix_handler_sends _ _ _ _ _ Hh Hstep) as [Hlen Hjudge].
    destruct event; simpl in *; lia.
Qed.

End FixCalls.

(** X17. However it ends, a run of the edit workflow sends at most 7
    requests to the models, 3 of them at most to the judge; a run of the fix
    workflow sends at most 11, again with at most 3 to the judge. *)
Theorem X17_a_run_sends_a_bounded_number_of_requests
    (fuel : nat) (filePath task details codeLanguage : string) (w : World) :
  (∀ r mc',
     Edit.runWorkflow fuel filePath task details codeLanguage w = Some (r, mc') →
     length (requests (world mc')) ≤ length (requests w) + 7 ∧
     attempts "JUDGING_SCHEMA" (world mc') ≤ attempts "JUDGING_SCHEMA" w + 3) ∧
  (∀ r mc',
     Fix.runWorkflow fuel filePath task details codeLanguage w = Some (r, mc') →
     length (requests (world mc')) ≤ length (requests w) + 11 ∧
     attempts "JUDGING_SCHEMA" (world mc') ≤ attempts "JUDGING_SCHEMA" w + 3).
Proof.
  split; intros r mc' Hrun.
  - by apply EditCalls.edit_consume_calls in Hrun.
  - by apply FixCalls.fix_consume_calls in Hrun.
Qed.

Lemma X17_witness :
  ∃ mc',
    Fix.runWorkflow 16 "foo.py" "boom" "details" "python" Sample.stubborn
      = Some (Settled (Return tt), mc') ∧
    length (requests (world mc')) = 11 ∧
    attempts "JUDGING_SCHEMA" (world mc') ≤ 3.
Proof.
  assert (∃ mc', Fix.runWorkflow 16 "foo.py" "boom" "details" "python" Sample.stubborn
                 = Some (Settled (Return tt), mc') ∧ length (requests (world mc')) = 11)
    as (mc' & Hrun & Hlen)
    by (eexists; split; [vm_compute; reflexivity | vm_compute; reflexivity]).
  exists mc'. split_and!; [exact Hrun | exact Hlen |].
  destruct (X17_a_run_sends_a_bounded_number_of_requests 16 "foo.py" "boom" "details"
              "python" Sample.stubborn) as [_ Hfix].
  exact (proj2 (Hfix _ _ Hrun)).
Defined.

(** ** What a run leaves on the disk *)

Module EditDisk.
Import Edit EditFacts.

Lemma edit_consume_disk (path : string) fuel : ∀ iteration event mc r mc',
  targets path event (session mc) →
  consume fuel iteration event mc = Some (r, mc') →
  (∀ other, other ≠ editedPath path →
     files (world mc') !! other = files (world mc) !! other) ∧
  (¬ fulfilled r → files (world mc') = files (world mc)).
Proof.
  induction fuel as [|fuel IH]; intros iteration event mc r mc' Htarget Hrun; [done|].
  destruct (edit_announce_returns iteration event (world mc)) as (it' & out & Hann).
  cbn [consume] in Hrun. unfold inWorld at 1 in Hrun. rewrite Hann in Hrun. clear Hann.
  set (mc1 := mkMachine (session mc) (with_console out (world mc))) in *.
  change (files (world mc)) with (files (world mc1)).
  change (session mc) with (session mc1) in Htarget. clearbody mc1. clear mc.
  destruct (handle event) as [handler|] eqn:Hh;
    [|destruct event; by simplify_eq].
  destruct (handler mc1) as [[next|e] mc2] eqn:Hstep.
  - destruct event as [data|generated|verdict remarks|content|message];
      simpl in Hh, Htarget; simplify_eq.
    + pose proof (edit_handlers_keep_files (startEvent data) _ _ _ _ eq_refl
                    ltac:(done) Hstep) as Hkeep.
      apply edit_handleStart_returns in Hstep
        as (fc & resp & json & valid & _ & _ & _ & _ & _ & Hs & ->).
      rewrite <- Hkeep. eapply IH; [|exact Hrun]. rewrite Hs. by case_match.
    + pose proof (edit_handlers_keep_files (generationEvent generated) _ _ _ _ eq_refl
                    ltac:(done) Hstep) as Hkeep.
      apply edit_handleGeneration_returns in Hstep
        as (resp & json & valid & _ & _ & _ & _ & Hs & ->).
      rewrite <- Hkeep. eapply IH; [|exact Hrun]. by rewrite Hs.
    + rewrite edit_handleJudging_returns in Hstep. simplify_eq.
      eapply IH; [|exact Hrun]. by destruct verdict.
    + destruct (edit_handleWriting_returns content mc1) as (msg & w' & Hw & Hret).
      rewrite Hret in Hstep. simplify_eq.
      pose proof (writeTextFileAs_frame "_edited."
        "Successfully edited your file! Find the edited version at: "
        (filePath (session mc1)) content (world mc1)) as (Hother & _).
      unfold writeTextFile in Hw. rewrite Hw in Hother. simpl in Hother.
      destruct fuel as [|fuel]; [done|]. cbn [consume handle] in Hrun.
      simpl in Hrun. simplify_eq.
      split; [|by intros []]. intros other Hne. simpl. by apply Hother.
  - simplify_eq.
    assert (files (world mc') = files (world mc1)) as ->; [|done].
    destruct event as [data|generated|verdict remarks|content|message];
      simpl in Hh; simplify_eq.
    + by apply (edit_handlers_keep_files (startEvent data) _ _ _ _ eq_refl
                  ltac:(done) Hstep).
    + by apply (edit_handlers_keep_files (generationEvent generated) _ _ _ _ eq_refl
                  ltac:(done) Hstep).
    + by rewrite edit_handleJudging_returns in Hstep.
    + destruct (edit_handleWriting_returns content mc1) as (msg & w' & _ & Hret).
      by rewrite Hret in Hstep.
Qed.

End EditDisk.

Module FixDisk.
Import Fix FixFacts.

Lemma fix_consume_disk (path : string) fuel : ∀ iteration event mc r mc',
  targets path event (session mc) →
  consume fuel iteration event mc = Some (r, mc') →
  (∀ other, other ≠ fixedPath path →
     files (world mc') !! other = files (world mc) !! other) ∧
  (¬ fulfilled r → files (world mc') = files (world mc)).
Proof.
  induction fuel as [|fuel IH]; intros iteration event mc r mc' Htarget Hrun; [done|].
  destruct (fix_announce_returns iteration event (world mc)) as (it' & out & Hann).
  cbn [consume] in Hrun. unfold inWorld at 1 in Hrun. rewrite Hann in Hrun. clear Hann.
  set (mc1 := mkMachine (session mc) (with_console out (world mc))) in *.
  change (files (world mc)) with (files (world mc1)).
  change (session mc) with (session mc1) in Htarget. clearbody mc1. clear mc.
  destruct (handle event) as [handler|] eqn:Hh;
    [|destruct event; by simplify_eq].
  destruct (handler mc1) as [[next|e] mc2] eqn:Hstep.
  - destruct event as [data|explanation proposal|generated|verdict remarks|content|message];
      simpl in Hh, Htarget; simplify_eq.
    + pose proof (fix_handlers_keep_files (startEvent data) _ _ _ _ eq_refl
                    ltac:(done) Hstep) as Hkeep.
      apply fix_handleStart_returns in Hstep
        as (fc & resp & json & valid & _ & _ & _ & _ & _ & Hs & ->).
      rewrite <- Hkeep. eapply IH; [|exact Hrun]. by rewrite Hs.
    + pose proof (fix_handlers_keep_files (errorEvaluationEvent explanation proposal)
                    _ _ _ _ eq_refl ltac:(done) Hstep) as Hkeep.
      apply fix_handleErrorEvaluation_returns in Hstep
        as (resp & json & valid & _ & _ & _ & _ & Hs & ->).
      rewrite <- Hkeep. eapply IH; [|exact Hrun]. rewrite Hs. by case_match.
    + pose proof (fix_handlers_keep_files (generationEvent generated) _ _ _ _ eq_refl
                    ltac:(done) Hstep) as Hkeep.
      apply fix_handleGeneration_returns in Hstep
        as (resp & json & valid & _ & _ & _ & _ & Hs & ->).
      rewrite <- Hkeep. eapply IH; [|exact Hrun]. by rewrite Hs.
    + rewrite fix_handleJudging_returns in Hstep. simplify_eq.
      eapply IH; [|exact Hrun]. by destruct verdict.
    + destruct (fix_handleWriting_returns content mc1) as (msg & w' & Hw & Hret).
      rewrite Hret in Hstep. simplify_eq.
      pose proof (writeTextFileAs_frame "_fixed."
        "Successfully fixed your file! Find the fixed version at: "
        (filePath (session mc1)) content (world mc1)) as (Hother & _).
      unfold writeTextFile in Hw. rewrite Hw in Hother. simpl in Hother.
      destruct fuel as [|fuel]; [done|]. cbn [consume handle] in Hrun.
      simpl in Hrun. simplify_eq.
      split; [|by intros []]. intros other Hne. simpl. by apply Hother.
  - simplify_eq.
    assert (files (world mc') = files (world mc1)) as ->; [|done].
    destruct event as [data|explanation proposal|generated|verdict remarks|content|message];
      simpl in Hh; simplify_eq.
    + by apply (fix_handlers_keep_files (startEvent data) _ _ _ _ eq_refl
                  ltac:(done) Hstep).
    + by apply (fix_handlers_keep_files (errorEvaluationEvent explanation proposal)
                  _ _ _ _ eq_refl ltac:(done) Hstep).
    + by apply (fix_handlers_keep_files (generationEvent generated) _ _ _ _ eq_refl
                  ltac:(done) Hstep).
    + by rewrite fix_handleJudging_returns in Hstep.
    + destruct (fix_handleWriting_returns content mc1) as (msg & w' & _ & Hret).
      by rewrite Hret in Hstep.
Qed.

End FixDisk.

(** X18. A run of the edit or of the fix workflow touches no file but the
    one at the derived path; and a run that is not fulfilled, left pending
    by a handler that threw, has left every file as it was, the derived one
    included: nothing throws once the writing handler has been reached. *)
Theorem X18_a_run_writes_one_file_or_none
    (fuel : nat) (filePath task details codeLanguage : string) (w : World) :
  (∀ r mc',
     Edit.runWorkflow fuel filePath task details codeLanguage w = Some (r, mc') →
     (∀ other, other ≠ editedPath filePath → files (world mc') !! other = files w !! other) ∧
     (¬ fulfilled r → files (world mc') = files w)) ∧
  (∀ r mc',
     Fix.runWorkflow fuel filePath task details codeLanguage w = Some (r, mc') →
     (∀ other, other ≠ fixedPath filePath → files (world mc') !! other = files w !! other) ∧
     (¬ fulfilled r → files (world mc') = files w)).
Proof.
  split; intros r mc' Hrun.
  - by apply (EditDisk.edit_consume_disk filePath) in Hrun.
  - by apply (FixDisk.fix_consume_disk filePath) in Hrun.
Qed.

Lemma X18_witness :
  ∃ e mc',
    Edit.runWorkflow 12 "foo.py" "feat" "details" "python" Sample.careless
      = Some (Pending e, mc') ∧
    files (world mc') = Sample.project.
Proof.
  assert (∃ e mc', Edit.runWorkflow 12 "foo.py" "feat" "details" "python" Sample.careless
                   = Some (Pending e, mc')) as (e & mc' & Hrun)
    by (eexists _, _; vm_compute; reflexivity).
  exists e, mc'. split; [exact Hrun|].
  destruct (X18_a_run_writes_one_file_or_none 12 "foo.py" "feat" "details" "python"
              Sample.careless) as [Hedit _].
  exact (proj2 (Hedit _ _ Hrun) (fun H => H)).
Defined.

(** ** What the next round is told *)

(** X19. After a failed judgment, the requests of the next round name the
    task of the session, the artifact that failed and the feedback of the
    judge, each word for word: in the edit workflow the generation request,
    in the fix workflow the request for the error evaluation and, once the
    start handler has stored the details, the generation request too. *)
Theorem X19_the_retry_quotes_artifact_and_feedback
    (remarks fileContent explanation proposal : string) :
  (∀ state w,
     ∃ next,
       Edit.handleJudging false remarks (mkMachine state w)
         = (Return (Edit.startEvent next), mkMachine state w) ∧
       let request := Edit.generationRequest next fileContent in
       silentAbout (Edit.feature state) request = false ∧
       silentAbout (Edit.generatedContent state) request = false ∧
       silentAbout remarks request = false) ∧
  (∀ state w,
     ∃ next,
       Fix.handleJudging false remarks (mkMachine state w)
         = (Return (Fix.startEvent next), mkMachine state w) ∧
       let request := Fix.evaluationRequest next fileContent in
       silentAbout (Fix.error state) request = false ∧
       silentAbout (Fix.generatedContent state) request = false ∧
       silentAbout remarks request = false) ∧
  (∀ state artifact,
     Fix.errorDetails state = Fix.retryDetails artifact remarks →
     let request := Fix.generationRequest state explanation proposal in
     silentAbout (Fix.error state) request = false ∧
     silentAbout artifact request = false ∧
     silentAbout remarks request = false).
Proof.
  split_and!.
  - intros state w. eexists. split; [reflexivity|]. simpl.
    unfold Edit.generationRequest, Edit.retryDetails. simpl.
    split_and!; apply silentAbout_user; find_text.
  - intros state w. eexists. split; [reflexivity|]. simpl.
    unfold Fix.evaluationRequest, Fix.retryDetails. simpl.
    split_and!; apply silentAbout_user; find_text.
  - intros state artifact Hdetails. simpl.
    unfold Fix.generationRequest. rewrite Hdetails. unfold Fix.retryDetails.
    split_and!; apply silentAbout_user; find_text.
Qed.

Lemma X19_witness :
  silentAbout "remark1"
    (Fix.generationRequest
       (Fix.mkState "draft1" "foo.py" "print(1)" "python" "boom"
          (Fix.retryDetails "draft0" "remark1") 1 3) "why" "how") = false.
Proof.
  destruct (X19_the_retry_quotes_artifact_and_feedback "remark1" "" "why" "how")
    as (_ & _ & Hfix).
  exact (proj2 (proj2 (Hfix (Fix.mkState "draft1" "foo.py" "print(1)" "python" "boom"
                               (Fix.retryDetails "draft0" "remark1") 1 3)
                          "draft0" eq_refl))).
Defined.

(** ** A first draft that passes *)

(** X20. When the file can be read, the first answer of the generator is
    valid and the judge passes it, the edit run is over after five events:
    it has sent these two requests and no other, the counter is at 1, and
    the draft is in the file at the derived path if the disk takes it. *)
Theorem X20_a_first_draft_that_passes_is_written
    (filePath feature details codeLanguage fileContent code remarks : string)
    (first second : MessageContent) (draft verdict : Json) (w : World)
    (Hfault : read_fault w filePath = None)
    (Hfile : files w !! filePath = Some fileContent)
    (Hfirst : backend w (requests w)
                (Edit.generationRequest
                   (Edit.Start.mk filePath feature details codeLanguage) fileContent)
              = Return first)
    (Hdraft : JSON_parse first = Return draft)
    (Hcode : Zod.parse Edit.CODE_SCHEMA draft = Return (Edit.mkCode code))
    (Hsecond : backend w
                 (requests w ++
                  [Edit.generationRequest
                     (Edit.Start.mk filePath feature details codeLanguage) fileContent])
                 (Edit.judgeRequest
                    (Edit.mkState code filePath codeLanguage feature details 1 3) code)
               = Return second)
    (Hverdict : JSON_parse second = Return verdict)
    (Hpass : Zod.parse Edit.JUDGING_SCHEMA verdict = Return (Edit.mkJudgement true remarks))
    (Hdisk : write_fault w (editedPath filePath) code = None) :
  ∃ mc',
    Edit.runWorkflow 5 filePath feature details codeLanguage w = Some (Settled (Return tt), mc') ∧
    session mc' = Edit.mkState code filePath codeLanguage feature details 1 3 ∧
    files (world mc') = <[editedPath filePath := code]> (files w) ∧
    requests (world mc') =
      requests w ++
      [Edit.generationRequest (Edit.Start.mk filePath feature details codeLanguage) fileContent;
       Edit.judgeRequest (Edit.mkState code filePath codeLanguage feature details 1 3) code].
Proof.
  unfold Edit.runWorkflow.
  cbn [Edit.consume Edit.handle Edit.announce].
  unfold Edit.handleStart. unfold_effects. rewrite Hfault, Hfile. simpl.
  rewrite Hfirst, Hdraft, Hcode. simpl.
  unfold Edit.handleGeneration. unfold_effects.
  cbv [Edit.set_implementationDetails Edit.set_feature Edit.set_generatedContent
       Edit.set_codeLanguage Edit.set_filePath Edit.set_numIterations Edit.initialState
       Edit.generatedContent Edit.filePath Edit.codeLanguage Edit.feature
       Edit.implementationDetails Edit.numIterations Edit.maxIterations].
  rewrite Hsecond, Hverdict, Hpass. simpl.
  unfold Edit.handleWriting, Edit.writeTextFile. unfold_effects.
  rewrite writeTextFileAs_written by exact Hdisk. simpl.
  eexists. split; [reflexivity|]. simpl.
  split_and!; [done | done | by rewrite <- app_assoc].
Qed.

Lemma X20_witness :
  ∃ mc',
    Edit.runWorkflow 5 "foo.py" "feat" "details" "python" Sample.lenient
      = Some (Settled (Return tt), mc') ∧
    files (world mc') = <["foo_edited.py" := "draft0"]> Sample.project.
Proof.
  destruct (X20_a_first_draft_that_passes_is_written "foo.py" "feat" "details" "python"
              "print(1)" "draft0" "remark1"
              (JsonText (Sample.obj [("code_content", JString "draft0")]))
              (JsonText (Sample.obj [("pass", JBool true); ("feedback", JString "remark1")]))
              (Sample.obj [("code_content", JString "draft0")])
              (Sample.obj [("pass", JBool true); ("feedback", JString "remark1")])
              Sample.lenient)
    as (mc' & Hrun & _ & Hfiles & _); [vm_compute; reflexivity..|].
  exists mc'. split; [exact Hrun | exact Hfiles].
Defined.

(** ** Why a run is left pending *)

(** X21. A run of the edit or of the fix workflow is never rejected, and
    when it is left pending, the exception nobody handled is one of four:
    the error of reading the target file as the starting world has it, the
    error of a call to a model, the [SyntaxError] of an answer that is not
    JSON, or the [ZodError] of an answer its schema rejects, with at least
    one issue.  A failure of the write is never among them. *)
Theorem X21_causes_of_a_pending_run
    (fuel : nat) (filePath task details codeLanguage : string) (w : World) (e : Exn) :
  (∀ mc',
     Edit.runWorkflow fuel filePath task details codeLanguage w ≠ Some (Settled (Throw e), mc') ∧
     (Edit.runWorkflow fuel filePath task details codeLanguage w = Some (Pending e, mc') →
      failureCause w filePath e)) ∧
  (∀ mc',
     Fix.runWorkflow fuel filePath task details codeLanguage w ≠ Some (Settled (Throw e), mc') ∧
     (Fix.runWorkflow fuel filePath task details codeLanguage w = Some (Pending e, mc') →
      failureCause w filePath e)).
Proof.
  split; intros mc'; split.
  - apply EditFailure.edit_consume_never_rejects.
  - intros Hrun. by apply (EditFailure.edit_consume_throws w filePath) in Hrun.
  - apply FixFailure.fix_consume_never_rejects.
  - intros Hrun. by apply (FixFailure.fix_consume_throws w filePath) in Hrun.
Qed.

Lemma X21_witness :
  failureCause Sample.careless "foo.py" (ZodError [mkIssue [Key "code_content"] "Required"]).
Proof.
  assert (∃ mc', Edit.runWorkflow 12 "foo.py" "feat" "details" "python" Sample.careless
                 = Some (Pending (ZodError [mkIssue [Key "code_content"] "Required"]), mc'))
    as (mc' & Hrun) by (eexists; vm_compute; reflexivity).
  destruct (X21_causes_of_a_pending_run 12 "foo.py" "feat" "details" "python"
              Sample.careless (ZodError [mkIssue [Key "code_content"] "Required"]))
    as [Hedit _].
  exact (proj2 (Hedit mc') Hrun).
Defined.
